(** * RapText MultiCore: the recognition-orchestration engine

    A shallow embedding of the two background service workers of the
    extension:

    - the failover worker (v8.1, three tiers with two models each and a
      cooldown), embedded in [Module Failover];
    - the cache-bearing worker (v16.0), embedded in [Module Surgeon].

    JavaScript numbers that hold integers are [Z]; strings are [string]
    (one [ascii] per code unit, which covers the data URLs and provider
    replies the workers handle); [null]/[undefined] are [None]; a thrown
    [Error] is a [js_error] record; the shared mutable state objects are
    records threaded through the functions; everything the network and
    the clock supply is an explicit input. *)

From Stdlib Require Import ZArith String Ascii List Lia DecimalString Sorted.
From Stdlib Require Import Floats Uint63.
From stdpp Require Import base option list gmap strings.

Local Open Scope string_scope.
Local Open Scope Z_scope.

(** ** JavaScript values and string primitives *)

Module Js.

(** An [Error] object: [name], [message] and the ad-hoc [statusCode]
    property ([None] when the property was never assigned). *)
Record js_error : Type := mkError {
  name : string;
  message : string;
  statusCode : option Z
}.

(** [new Error(msg)] *)
Definition newError (msg : string) : js_error :=
  {| name := "Error"; message := msg; statusCode := None |}.

(** [const err = new Error(msg); err.statusCode = code;] *)
Definition newErrorWithStatus (msg : string) (code : Z) : js_error :=
  {| name := "Error"; message := msg; statusCode := Some code |}.

(** The error thrown when an identifier that is bound nowhere is
    evaluated. *)
Definition referenceError (identifier : string) : js_error :=
  {| name := "ReferenceError"; message := identifier ++ " is not defined";
     statusCode := None |}.

(** Outcome of an awaited call: a value or a thrown error. *)
Inductive outcome (A : Type) : Type :=
| Return (v : A)
| Throw (e : js_error).
Arguments Return {A} v.
Arguments Throw {A} e.

(** Template-literal rendering of an integer. *)
Definition showZ (z : Z) : string := NilZero.string_of_int (Z.to_int z).

(** Truthiness of a string value that may be absent. *)
Definition truthyString (o : option string) : bool :=
  match o with
  | Some s => negb (String.eqb s "")
  | None => false
  end.

(** [hay.includes(needle)] *)
Fixpoint includes (needle hay : string) : bool :=
  if String.prefix needle hay then true
  else match hay with
       | EmptyString => false
       | String _ rest => includes needle rest
       end.

Definition charCode (c : ascii) : Z := Z.of_nat (nat_of_ascii c).

(** The class [[A-Za-z0-9]]. *)
Definition isAlnum (c : ascii) : bool :=
  let n := charCode c in
  (((48 <=? n) && (n <=? 57)) || ((65 <=? n) && (n <=? 90))
   || ((97 <=? n) && (n <=? 122)))%Z.

(** White space as [String.prototype.trim] sees it, for code units below
    256: TAB, LF, VT, FF, CR, SPACE and NBSP. *)
Definition isWhite (c : ascii) : bool :=
  let n := charCode c in
  (((9 <=? n) && (n <=? 13)) || (n =? 32) || (n =? 160))%Z.

Fixpoint filterString (p : ascii -> bool) (s : string) : string :=
  match s with
  | EmptyString => EmptyString
  | String c rest =>
      if p c then String c (filterString p rest) else filterString p rest
  end.

Fixpoint trimStart (s : string) : string :=
  match s with
  | EmptyString => EmptyString
  | String c rest => if isWhite c then trimStart rest else s
  end.

(** Drops the trailing white space: a character is kept when it is not
    white space or when something is kept after it. *)
Fixpoint trimEnd (s : string) : string :=
  match s with
  | EmptyString => EmptyString
  | String c rest =>
      match trimEnd rest with
      | EmptyString => if isWhite c then EmptyString else String c EmptyString
      | kept => String c kept
      end
  end.

(** [s.trim()] *)
Definition trim (s : string) : string := trimEnd (trimStart s).

(** [l[i]] for an array and a numeric index: [undefined] out of range. *)
Definition index {A : Type} (l : list A) (i : Z) : option A :=
  if i <? 0 then None else l !! Z.to_nat i.

(** [l.length] *)
Definition len {A : Type} (l : list A) : Z := Z.of_nat (length l).

(** [l.includes(x)] for an array of numbers and a possibly undefined [x]. *)
Definition includesCode (l : list Z) (x : option Z) : bool :=
  match x with
  | Some z => existsb (Z.eqb z) l
  | None => false
  end.

End Js.

Import Js.

(** ** The failover worker (three tiers, cooldown recovery) *)

Module Failover.

(** [FAILOVER_CONFIG] *)
Record config : Type := mkConfig {
  tier1Models : list string;
  tier2Models : list string;
  cooldownMs : Z;
  triggerCodes : list Z;
  timeoutMs : Z
}.

Definition FAILOVER_CONFIG : config :=
  {| tier1Models := [ "google/gemini-2.0-flash-exp:free";
                      "google/gemini-2.0-pro-exp-02-05:free" ];
     tier2Models := [ "amazon/nova-lite-v1:1.0";
                      "mistralai/mistral-small-24b-instruct-2501:free" ];
     cooldownMs := 5 * 60 * 1000;
     triggerCodes := [429; 503; 404; 400; 500; 502];
     timeoutMs := 35000 |}.

(** [NOPECHA_CONFIG] (the endpoints and the key play no role here). *)
Record nopecha_config : Type := mkNopechaConfig {
  pollIntervalMs : Z;
  maxPollAttempts : Z
}.

Definition NOPECHA_CONFIG : nopecha_config :=
  {| pollIntervalMs := 500; maxPollAttempts := 20 |}.

(** [failoverState] *)
Record FailoverState : Type := mkState {
  currentTier : Z;
  modelIndex : Z;
  lastFailoverTime : option Z
}.

Definition initialState : FailoverState :=
  {| currentTier := 1; modelIndex := 0; lastFailoverTime := None |}.

(** Truthiness of [failoverState.lastFailoverTime]: [null] and the number
    [0] are falsy. *)
Definition truthyTime (o : option Z) : bool :=
  match o with
  | Some t => negb (t =? 0)
  | None => false
  end.

(** The status tags of [getStatusIndicator], one constructor per template:
    "Tier1-<model>", "Tier2-<model>", "Tier3-NoPeCHA" and "All Down" (each
    with its coloured bullet). *)
Inductive status : Type :=
| StatusTier1 (modelName : string)
| StatusTier2 (modelName : string)
| StatusTier3
| StatusAllDown.

Section WithConfig.

Variable cfg : config.

(** [x || 'Unknown'] *)
Definition orUnknown (x : option string) : string :=
  match x with
  | Some m => if truthyString x then m else "Unknown"
  | None => "Unknown"
  end.

Definition getCurrentModelName (s : FailoverState) : string :=
  if (currentTier s =? 1)%Z then
    orUnknown (index (tier1Models cfg) (modelIndex s))
  else if (currentTier s =? 2)%Z then
    orUnknown (index (tier2Models cfg) (modelIndex s))
  else "NoPeCHA".

Definition getStatusIndicator (s : FailoverState) : status :=
  let modelName := getCurrentModelName s in
  if currentTier s =? 1 then StatusTier1 modelName
  else if currentTier s =? 2 then StatusTier2 modelName
  else if currentTier s =? 3 then StatusTier3
  else StatusAllDown.

(** [now] is the value [Date.now()] yields inside the guarded branch. *)
Definition checkCooldownRecovery (now : Z) (s : FailoverState) : FailoverState :=
  if (1 <? currentTier s) && truthyTime (lastFailoverTime s) then
    let elapsed := now - default 0 (lastFailoverTime s) in
    if cooldownMs cfg <=? elapsed then
      {| currentTier := 1; modelIndex := 0; lastFailoverTime := None |}
    else s
  else s.

(** [reason] only feeds the log line; [now] is [Date.now()]. *)
Definition advanceFailover (reason : string) (now : Z) (s : FailoverState)
  : FailoverState :=
  let nextTier := currentTier s in
  let nextIndex := modelIndex s + 1 in
  let maxIndex :=
    if currentTier s =? 1 then len (tier1Models cfg) - 1
    else if currentTier s =? 2 then len (tier2Models cfg) - 1
    else 0 in
  let next :=
    if maxIndex <? nextIndex then (nextTier + 1, 0) else (nextTier, nextIndex) in
  let s1 := {| currentTier := fst next; modelIndex := snd next;
               lastFailoverTime := Some now |} in
  if 3 <? currentTier s1 then
    {| currentTier := 4; modelIndex := modelIndex s1;
       lastFailoverTime := lastFailoverTime s1 |}
  else s1.

Definition shouldFailover (code : option Z) (error : js_error) : bool :=
  if includesCode (triggerCodes cfg) code then true
  else if String.eqb (name error) "AbortError" then true
  else if includes "empty" (message error) then true
  else if includes "Failed to extract" (message error) then true
  else false.

(** ** Adapters *)

(** The double-quote character of the error template. *)
Definition dquote : string := String (ascii_of_nat 34) EmptyString.

Definition cleanCaptchaText (rawText : string) : outcome string :=
  let text := trim rawText in
  let cleaned := filterString isAlnum text in
  if (3 <=? Z.of_nat (String.length cleaned))
     && (Z.of_nat (String.length cleaned) <=? 8)
  then Return cleaned
  else Throw (newError ("Failed to extract valid CAPTCHA from: " ++ dquote
                          ++ substring 0 50 text ++ "..." ++ dquote)).

(** [response.ok] *)
Definition ok (httpStatus : Z) : bool := (200 <=? httpStatus) && (httpStatus <=? 299).

(** What the awaited [fetch] of the chat-completions endpoint yields: a
    rejection, or a response with its status, its body as text, and the
    field [choices?.[0]?.message?.content] of its body as JSON. *)
Inductive openrouter_fetch : Type :=
| OrRejected (e : js_error)
| OrResponded (httpStatus : Z) (body : string) (content : option string).

(** What the job submission yields; [jobId] is the field [data]. *)
Inductive submit_fetch : Type :=
| SubmitRejected (e : js_error)
| SubmitResponded (httpStatus : Z) (body : string) (jobId : option string).

(** The first element of the field [data] of a poll reply. *)
Inductive poll_data : Type :=
| DataAbsent
| DataString (s : string)
| DataOther.

(** What one poll yields; [err] is the field [error] of the reply. *)
Inductive poll_fetch : Type :=
| PollRejected (e : js_error)
| PollResponded (httpStatus : Z) (body : string) (data0 : poll_data)
                (err : option string).

(** The network as one provider invocation sees it. The chat endpoint is
    asked with a model, an image and a key; the job endpoint with an image;
    the retrieve endpoint is asked once per poll attempt. *)
Record network : Type := mkNetwork {
  openRouter : option string -> string -> string -> openrouter_fetch;
  nopechaSubmit : string -> submit_fetch;
  nopechaPoll : Z -> poll_fetch
}.

Definition executeOpenRouterRequest (net : network)
    (base64Image : string) (model : option string) (apiKey : string)
  : outcome string :=
  if String.eqb apiKey "" then
    Throw (newErrorWithStatus "API key is missing." 401)
  else
    match openRouter net model base64Image apiKey with
    | OrRejected fetchError =>
        if String.eqb (name fetchError) "AbortError" then
          Throw (newErrorWithStatus
                   ("Timeout after " ++ showZ (timeoutMs cfg) ++ "ms") 408)
        else Throw fetchError
    | OrResponded httpStatus body content =>
        if negb (ok httpStatus) then
          Throw (newErrorWithStatus
                   ("API error " ++ showZ httpStatus ++ ": " ++ body) httpStatus)
        else
          match content with
          | Some c =>
              if truthyString content then cleanCaptchaText c
              else Throw (newErrorWithStatus "Empty response from API" 0)
          | None => Throw (newErrorWithStatus "Empty response from API" 0)
          end
    end.

End WithConfig.

(** Effects of the submit/poll adapter that the caller cannot see in its
    result: the sleeps and the poll requests, in order. *)
Inductive poll_event : Type :=
| Slept (ms : Z)
| Polled (attempt : Z).

Section WithNopechaConfig.

Variable ncfg : nopecha_config.

(** [sleep(ms)] as the worker evaluates it. The worker declares no
    [sleep]: the one declaration of that name is in the content script,
    which shares no scope with the worker, and the worker imports nothing.
    Evaluating the identifier throws. *)
Definition sleep (ms : Z) : outcome unit := Throw (referenceError "sleep").

(** The [for] loop of [solveCaptchaWithNoPeCHA]: [remaining] iterations
    are left, the next one has number [attempt]. An iteration begins with
    [await sleep(...)]; what that throws leaves the loop and the
    function. *)
Fixpoint pollLoop (net : network) (remaining : nat) (attempt : Z)
  : outcome string * list poll_event :=
  match remaining with
  | O => (Throw (newErrorWithStatus "NoPeCHA: Timeout waiting for result" 408), [])
  | S remaining' =>
      match sleep (pollIntervalMs ncfg) with
      | Throw e => (Throw e, [])
      | Return _ =>
          let continue := pollLoop net remaining' (attempt + 1) in
          let here := [Slept (pollIntervalMs ncfg); Polled attempt] in
          match nopechaPoll net attempt with
          | PollRejected e => (Throw e, here)
          | PollResponded httpStatus body data0 err =>
              if negb (ok httpStatus) then
                if httpStatus =? 202 then (fst continue, (here ++ snd continue)%list)
                else (Throw (newErrorWithStatus
                               ("NoPeCHA retrieve error " ++ showZ httpStatus
                                  ++ ": " ++ body) httpStatus), here)
              else
                match data0 with
                | DataString s =>
                    if 0 <? Z.of_nat (String.length s) then (Return s, here)
                    else if truthyString err then
                      (Throw (newErrorWithStatus ("NoPeCHA: " ++ default "" err) 0),
                       here)
                    else (fst continue, (here ++ snd continue)%list)
                | _ =>
                    if truthyString err then
                      (Throw (newErrorWithStatus ("NoPeCHA: " ++ default "" err) 0),
                       here)
                    else (fst continue, (here ++ snd continue)%list)
                end
          end
      end
  end.

Definition solveCaptchaWithNoPeCHA (net : network) (base64Image : string)
  : outcome string * list poll_event :=
  if String.eqb base64Image "" then (Throw (newError "Invalid image data"), [])
  else
    match nopechaSubmit net base64Image with
    | SubmitRejected e => (Throw e, [])
    | SubmitResponded httpStatus body jobId =>
        if negb (ok httpStatus) then
          (Throw (newErrorWithStatus
                    ("NoPeCHA submit error " ++ showZ httpStatus ++ ": " ++ body)
                    httpStatus), [])
        else if negb (truthyString jobId) then
          (Throw (newErrorWithStatus "NoPeCHA: No job ID returned" 0), [])
        else pollLoop net (Z.to_nat (maxPollAttempts ncfg)) 1
    end.

End WithNopechaConfig.

(** ** Orchestration *)

(** What [chrome.storage.sync.get] hands to the callback of [getApiKey]:
    [chrome.runtime.lastError], or the stored value (possibly absent). *)
Inductive storage_read : Type :=
| StorageFailed (lastError : js_error)
| StorageRead (value : option string).

Definition getApiKey (stored : storage_read) : outcome string :=
  match stored with
  | StorageFailed lastError => Throw lastError
  | StorageRead value =>
      match value with
      | Some key =>
          if truthyString value then Return key
          else Throw (newError "API key not found. Please set it on the options page.")
      | None => Throw (newError "API key not found. Please set it on the options page.")
      end
  end.

(** One top-level request sees the network once per provider invocation
    ([net k] for the invocation number [k], counted from 0) and reads the
    clock once per failover ([clock k] after the failure of invocation
    [k]). *)
Record world : Type := mkWorld {
  net : nat -> network;
  clock : nat -> Z
}.

(** The message passed to [sendResponse]. *)
Inductive response : Type :=
| TextResponse (text : option string) (tag : status)
| ErrorResponse (error : string) (tag : status).

Section Orchestrator.

Variable cfg : config.
Variable ncfg : nopecha_config.

(** The body of the [try] block of [solveWithFailover]: the adapter call
    chosen by the tier, or nothing when the tier is none of 1, 2, 3 (the
    function then returns [undefined]). *)
Definition attemptProvider (n : network) (base64Image apiKey : string)
    (s : FailoverState) : option (outcome string) :=
  let currentTier := currentTier s in
  let currentIndex := modelIndex s in
  if currentTier =? 1 then
    Some (executeOpenRouterRequest cfg n base64Image
            (index (tier1Models cfg) currentIndex) apiKey)
  else if currentTier =? 2 then
    Some (executeOpenRouterRequest cfg n base64Image
            (index (tier2Models cfg) currentIndex) apiKey)
  else if currentTier =? 3 then
    Some (fst (solveCaptchaWithNoPeCHA ncfg n base64Image))
  else None.

(** The result of a run of [solveWithFailover]: what it returned or threw,
    the state it left, and the providers it invoked, in order, each as
    (tier, index). *)
Definition run : Type := outcome (option string) * FailoverState * list (Z * Z).

(** The [while] loop of [solveWithFailover]; [k] counts the provider
    invocations made so far, [fuel] bounds the iterations. *)
Fixpoint solveLoop (fuel : nat) (w : world) (base64Image apiKey : string)
    (k : nat) (lastError : option js_error) (s : FailoverState) : option run :=
  if currentTier s <=? 3 then
    match fuel with
    | O => None
    | S fuel' =>
        match attemptProvider (net w k) base64Image apiKey s with
        | None => Some (Return None, s, [])
        | Some (Return result) =>
            Some (Return (Some result), s, [(currentTier s, modelIndex s)])
        | Some (Throw error) =>
            let modelName := getCurrentModelName cfg s in
            if shouldFailover cfg (statusCode error) error then
              match solveLoop fuel' w base64Image apiKey (S k) (Some error)
                      (advanceFailover cfg (modelName ++ ": " ++ message error)
                         (clock w k) s) with
              | Some (r, s', visited) =>
                  Some (r, s', (currentTier s, modelIndex s) :: visited)
              | None => None
              end
            else Some (Throw error, s, [(currentTier s, modelIndex s)])
        end
    end
  else
    Some (Throw (default (newError "All tiers exhausted") lastError), s, []).

Definition solveWithFailover (fuel : nat) (w : world)
    (base64Image apiKey : string) (s : FailoverState) : option run :=
  solveLoop fuel w base64Image apiKey 0%nat None s.

(** [now] is the clock at the arrival of the request, [stored] what the
    settings storage answers. *)
Definition handleCaptchaSolve (fuel : nat) (now : Z) (stored : storage_read)
    (w : world) (base64Image : string) (s : FailoverState)
  : option (response * FailoverState * list (Z * Z)) :=
  let s1 := checkCooldownRecovery cfg now s in
  match getApiKey stored with
  | Throw error =>
      Some (ErrorResponse (message error) (getStatusIndicator cfg s1), s1, [])
  | Return apiKey =>
      match solveWithFailover fuel w base64Image apiKey s1 with
      | None => None
      | Some (Return text, s2, visited) =>
          Some (TextResponse text (getStatusIndicator cfg s2), s2, visited)
      | Some (Throw error, s2, visited) =>
          Some (ErrorResponse (message error) (getStatusIndicator cfg s2), s2, visited)
      end
  end.

End Orchestrator.

End Failover.

(** ** The cache-bearing worker *)

Module Surgeon.

(** The parts of [CONFIG] the control flow reads. *)
Record config : Type := mkConfig {
  nopechaKey : string;
  openRouterModels : list string
}.

Definition CONFIG : config :=
  {| nopechaKey := "";
     openRouterModels := [ "google/gemini-2.0-flash-exp:free";
                           "qwen/qwen-2.5-vl-7b-instruct:free" ] |}.

(** [state]; [captchaCache] is the copy kept in [chrome.storage.local]. *)
Record state : Type := mkState {
  currentTier : Z;
  lastSolved : option (string * string);
  cache : gmap string string;
  captchaCache : option (gmap string string)
}.

(** The state once the persisted cache has been read back. *)
Definition startup (persisted : option (gmap string string)) : state :=
  {| currentTier := 1; lastSolved := None;
     cache := default ∅ persisted; captchaCache := persisted |}.

(** [x | 0] *)
Definition toInt32 (x : Z) : Z := (x + 2 ^ 31) mod 2 ^ 32 - 2 ^ 31.

(** [Math.imul(a, b)] *)
Definition imul (a b : Z) : Z := toInt32 (a * b).

Fixpoint hashFrom (h : Z) (s : string) : Z :=
  match s with
  | EmptyString => h
  | String c rest => hashFrom (toInt32 (imul 31 h + charCode c)) rest
  end.

Definition hash (s : string) : string := showZ (hashFrom 0 s).

(** The characters removed by [replace(/[dquote, quote, space]/g, '')]. *)
Definition isQuoteOrSpace (c : ascii) : bool :=
  (charCode c =? 34) || (charCode c =? 39) || (charCode c =? 32).

(** The longest run of alphanumeric characters at the head of [s], cut at
    [n] characters. *)
Fixpoint alnumRun (n : nat) (s : string) : string :=
  match n, s with
  | S n', String c rest =>
      if isAlnum c then String c (alnumRun n' rest) else EmptyString
  | _, _ => EmptyString
  end.

(** [s.match(/[A-Za-z0-9]{3,8}/)]: the leftmost match, greedy. *)
Fixpoint matchToken (s : string) : option string :=
  match s with
  | EmptyString => None
  | String _ rest =>
      let m := alnumRun 8 s in
      if 3 <=? Z.of_nat (String.length m) then Some m else matchToken rest
  end.

Definition cleanText (raw : string) : outcome string :=
  match matchToken (filterString (fun c => negb (isQuoteOrSpace c)) raw) with
  | None => Throw (newError "UNPARSEABLE")
  | Some m => Return m
  end.

(** An awaited [fetch] followed by [response.json()]: a rejection, or the
    status with the one field of the body the solver reads
    ([data[0]] for NoPeCHA, [choices[0].message.content] for the chat
    endpoints). *)
Inductive fetched : Type :=
| Rejected (e : js_error)
| Responded (httpStatus : Z) (field : option string).

Record network : Type := mkNetwork {
  nopecha : string -> fetched;
  openRouter : Z -> option string -> string -> fetched;
  mistral : string -> fetched
}.

Definition ok (httpStatus : Z) : bool := (200 <=? httpStatus) && (httpStatus <=? 299).

Section WithConfig.

Variable cfg : config.

Definition solveNoPeCHA (n : network) (base64Image : string) : outcome string :=
  if String.eqb (nopechaKey cfg) "" then Throw (newError "NOPECHA_KEY_MISSING")
  else
    match nopecha n base64Image with
    | Rejected e => Throw e
    | Responded httpStatus field =>
        if negb (ok httpStatus) then Throw (newError ("NOPECHA_" ++ showZ httpStatus))
        else match field with
             | Some d => if truthyString field then Return d
                         else Throw (newError "NOPECHA_EMPTY")
             | None => Throw (newError "NOPECHA_EMPTY")
             end
    end.

Definition solveOpenRouter (n : network) (base64Image : string) (modelIndex : Z)
  : outcome string :=
  let model := index (openRouterModels cfg) modelIndex in
  match openRouter n modelIndex model base64Image with
  | Rejected e => Throw e
  | Responded httpStatus field =>
      if httpStatus =? 429 then Throw (newError "RATE_LIMIT")
      else if negb (ok httpStatus) then
        Throw (newError ("OPENROUTER_" ++ showZ httpStatus))
      else match field with
           | Some content => if truthyString field then cleanText content
                             else Throw (newError "EMPTY_OR")
           | None => Throw (newError "EMPTY_OR")
           end
  end.

(** A reply without [choices[0].message.content] makes the property access
    or [raw.replace] throw a [TypeError]. *)
Definition solveMistral (n : network) (base64Image : string) : outcome string :=
  match mistral n base64Image with
  | Rejected e => Throw e
  | Responded httpStatus field =>
      if negb (ok httpStatus) then Throw (newError ("MISTRAL_" ++ showZ httpStatus))
      else match field with
           | Some content => cleanText content
           | None => Throw {| name := "TypeError";
                              message := "Cannot read properties of undefined";
                              statusCode := None |}
           end
  end.

(** The backends, as [runSolve] reaches them. *)
Inductive provider : Type :=
| NoPeCHA
| OpenRouter (modelIndex : Z)
| Mistral.

(** The status of a reply: the literal "Cached" tag (with its bolt), or
    the template "T<tier>". *)
Inductive status : Type :=
| Cached
| TierTag (tier : Z).

Inductive response : Type :=
| DataUrlResponse
| TextResponse (text : string) (tag : status)
| ErrorResponse (error : string).

(** The tail of [runSolve] once a solver has settled: a result becomes the
    pending candidate and is sent with the tier tag; an error moves the
    tier on and is sent as an error. *)
Definition settle (imgHash : string) (r : outcome string) (s : state)
  : response * state :=
  match r with
  | Return result =>
      (TextResponse result (TierTag (currentTier s)),
       {| currentTier := currentTier s;
          lastSolved := Some (imgHash, result);
          cache := cache s; captchaCache := captchaCache s |})
  | Throw err =>
      (ErrorResponse (message err),
       {| currentTier := Z.rem (currentTier s) 3 + 1;
          lastSolved := lastSolved s;
          cache := cache s; captchaCache := captchaCache s |})
  end.

(** The tier-2 branch: the first model, and on any error the second. *)
Definition solveTier2 (n : network) (base64Image : string)
  : outcome string * list provider :=
  match solveOpenRouter n base64Image 0 with
  | Return result => (Return result, [OpenRouter 0])
  | Throw _ => (solveOpenRouter n base64Image 1, [OpenRouter 0; OpenRouter 1])
  end.

Definition withTier (tier : Z) (s : state) : state :=
  {| currentTier := tier; lastSolved := lastSolved s;
     cache := cache s; captchaCache := captchaCache s |}.

(** [runSolve]. Its one recursive call, made on tier 1 without a NoPeCHA
    key after the tier was set to 2, runs the tier-2 branch; it is written
    out here. Returns the response sent, the state left and the providers
    invoked, in order. *)
Definition runSolve (n : network) (base64Image imgHash : string) (s : state)
  : response * state * list provider :=
  if currentTier s =? 1 then
    if String.eqb (nopechaKey cfg) "" then
      let tried := solveTier2 n base64Image in
      (settle imgHash (fst tried) (withTier 2 s), snd tried)
    else (settle imgHash (solveNoPeCHA n base64Image) s, [NoPeCHA])
  else if currentTier s =? 2 then
    let tried := solveTier2 n base64Image in
    (settle imgHash (fst tried) s, snd tried)
  else (settle imgHash (solveMistral n base64Image) s, [Mistral]).

(** The messages the listener distinguishes by [request.action]. *)
Inductive request : Type :=
| CaptureScreen
| SolveCaptcha (base64Image : string)
| ReportLoginSuccess
| OtherAction.

(** The message listener, one message at a time: the response sent (if
    any), the state left and the providers invoked. *)
Definition onMessage (n : network) (req : request) (s : state)
  : option response * state * list provider :=
  match req with
  | CaptureScreen => (Some DataUrlResponse, s, [])
  | SolveCaptcha base64Image =>
      let imgHash := hash base64Image in
      if truthyString (cache s !! imgHash) then
        (Some (TextResponse (default "" (cache s !! imgHash)) Cached), s, [])
      else
        let '(resp, s', invoked) := runSolve n base64Image imgHash s in
        (Some resp, s', invoked)
  | ReportLoginSuccess =>
      match lastSolved s with
      | Some (h, text) =>
          (None,
           {| currentTier := currentTier s; lastSolved := None;
              cache := <[h := text]> (cache s);
              captchaCache := Some (<[h := text]> (cache s)) |},
           [])
      | None => (None, s, [])
      end
  | OtherAction => (None, s, [])
  end.

(** A session: the messages in arrival order, each with the network its
    solvers see. *)
Fixpoint session (msgs : list (request * network)) (s : state)
  : list (option response * list provider) * state :=
  match msgs with
  | [] => ([], s)
  | (req, n) :: rest =>
      let '(resp, s1, invoked) := onMessage n req s in
      let '(out, s2) := session rest s1 in
      ((resp, invoked) :: out, s2)
  end.

End WithConfig.

End Surgeon.

(** ** The content script: image enhancement *)

Module Enhance.

(** A small non-negative integer as a JavaScript number. *)
Definition toNumber (z : Z) : float := PrimFloat.of_uint63 (Uint63.of_Z z).

(** The double nearest to the literal [0.7]. *)
Definition seven_tenths : float := 0x1.6666666666666p-1%float.

(** [b > (r + g) * 0.7 && b > 90] on three colour bytes. *)
Definition isBlueish (r g b : Z) : bool :=
  PrimFloat.ltb (PrimFloat.mul (toNumber (r + g)) seven_tenths) (toNumber b)
  && (90 <? b).

(** The pixel loop of [cropAndProcessImage] over the RGBA bytes of the
    canvas, four at a time: the three colour bytes become 0 (ink) or 255,
    the alpha byte stays. The array of a canvas has a multiple of four
    bytes; on a shorter tail a missing byte reads as [undefined], the
    comparison is false and the bytes that exist are set to 255. *)
Fixpoint binarize (data : list Z) : list Z :=
  match data with
  | r :: g :: b :: a :: rest =>
      let color := if isBlueish r g b then 0 else 255 in
      color :: color :: color :: a :: binarize rest
  | [r; g; b] =>
      let color := if isBlueish r g b then 0 else 255 in
      [color; color; color]
  | [_; _] => [255; 255]
  | [_] => [255]
  | [] => []
  end.

End Enhance.

(** ** The options page *)

Module Options.

(** The two text fields of the page and its status line. *)
Record form : Type := mkForm {
  apiKey : string;
  nopechaApiKey : string;
  status : string
}.

(** [save_options]: both fields go to [chrome.storage.sync] (a map from
    item names to strings here); the callback writes the status line. *)
Definition save_options (f : form) (sync : gmap string string)
  : form * gmap string string :=
  ({| apiKey := apiKey f; nopechaApiKey := nopechaApiKey f;
      status := "Options saved." |},
   <["openrouter_api_key" := apiKey f]>
     (<["nopecha_api_key" := nopechaApiKey f]> sync)).

(** [restore_options]: the stored items, each defaulting to the empty
    string, are written into the fields. *)
Definition restore_options (f : form) (sync : gmap string string) : form :=
  {| apiKey := default "" (sync !! "openrouter_api_key");
     nopechaApiKey := default "" (sync !! "nopecha_api_key");
     status := status f |}.

End Options.

(** ** The content script of the failover worker (v2.0) *)

Module Content.

(** The parts of [CONFIG] the control flow reads. *)
Record config : Type := mkConfig {
  loginSuccessIndicators : list string;
  loginModalSelectors : list string;
  visibilityTimeoutMs : Z;
  visibilityPollMs : Z;
  maxSolveAttempts : Z;
  cooldownAfterSuccessMs : Z;
  reactivateCheckMs : Z
}.

Definition CONFIG : config :=
  {| loginSuccessIndicators :=
       [ ".user-profile"; ".logout-btn"; "#logout"; ".dashboard";
         "[data-logged-in=" ++ Failover.dquote ++ "true" ++ Failover.dquote ++ "]";
         ".welcome-user" ];
     loginModalSelectors :=
       [ "#loginModal"; ".login-modal"; ".modal-login";
         "[data-modal=" ++ Failover.dquote ++ "login" ++ Failover.dquote ++ "]" ];
     visibilityTimeoutMs := 10000;
     visibilityPollMs := 150;
     maxSolveAttempts := 5;
     cooldownAfterSuccessMs := 5000;
     reactivateCheckMs := 3000 |}.

(** [state]; [observer] and [debounceTimer] record whether the field is
    non-null. *)
Record state : Type := mkState {
  isProcessing : bool;
  isLoggedIn : bool;
  solveAttempts : Z;
  lastSolveTime : option Z;
  observer : bool;
  debounceTimer : bool;
  hasSuccessfullySolved : bool
}.

Definition initialState : state :=
  {| isProcessing := false; isLoggedIn := false; solveAttempts := 0;
     lastSolveTime := None; observer := false; debounceTimer := false;
     hasSuccessfullySolved := false |}.

(** The three properties of a computed style the script reads. *)
Record computedStyle : Type := mkStyle {
  display : string;
  visibility : string;
  opacity : string
}.

(** The page as one synchronous run of the script sees it:
    [document.querySelector] (with the computed style of the match),
    whether the CAPTCHA image element exists, the value of the CAPTCHA
    input element when it exists, and [window.location.href]. *)
Record page : Type := mkPage {
  querySelector : string -> option computedStyle;
  captchaImg : bool;
  captchaInput : option string;
  href : string
}.

(** What a synchronous run leaves for later: the solver it started and
    the timers it set. *)
Inductive effect : Type :=
| SolverStarted
| CheckScheduled (ms : Z)
| LogoutWatchScheduled (ms : Z).

Definition hidden (style : computedStyle) : bool :=
  String.eqb (display style) "none" || String.eqb (visibility style) "hidden"
  || String.eqb (opacity style) "0".

Section WithConfig.

Variable cfg : config.

Definition checkIfLoggedIn (st : state) (pg : page) : bool :=
  if existsb (fun selector => bool_decide (is_Some (querySelector pg selector)))
       (loginSuccessIndicators cfg)
  then true
  else if hasSuccessfullySolved st
          && (negb (captchaImg pg)
              && negb (bool_decide (is_Some (captchaInput pg))))
  then true
  else if hasSuccessfullySolved st
          && existsb (fun selector =>
                        match querySelector pg selector with
                        | Some style => hidden style
                        | None => false
                        end)
               (loginModalSelectors cfg)
  then true
  else includes "dashboard" (href pg) || includes "home" (href pg)
       || includes "account" (href pg).

(** [startObserver] *)
Definition startObserver (st : state) : state :=
  if observer st then st
  else {| isProcessing := isProcessing st; isLoggedIn := isLoggedIn st;
          solveAttempts := solveAttempts st; lastSolveTime := lastSolveTime st;
          observer := true; debounceTimer := debounceTimer st;
          hasSuccessfullySolved := hasSuccessfullySolved st |}.

(** [cleanup]: [stopObserver], the debounce timer cleared, and the logout
    watcher started (its first check is set [reactivateCheckMs] ahead). *)
Definition cleanup (st : state) : state * list effect :=
  ({| isProcessing := isProcessing st; isLoggedIn := isLoggedIn st;
      solveAttempts := solveAttempts st; lastSolveTime := lastSolveTime st;
      observer := false; debounceTimer := false;
      hasSuccessfullySolved := hasSuccessfullySolved st |},
   [LogoutWatchScheduled (reactivateCheckMs cfg)]).

(** [updateLoginState]: its return value, the state and the effects. *)
Definition updateLoginState (pg : page) (st : state)
  : bool * state * list effect :=
  if isLoggedIn st then (true, st, [])
  else
    let st1 :=
      {| isProcessing := isProcessing st; isLoggedIn := checkIfLoggedIn st pg;
         solveAttempts := solveAttempts st; lastSolveTime := lastSolveTime st;
         observer := observer st; debounceTimer := debounceTimer st;
         hasSuccessfullySolved := hasSuccessfullySolved st |} in
    if isLoggedIn st1 then
      let '(st2, fx) := cleanup st1 in (true, st2, fx)
    else (false, st1, []).

(** [resetState] *)
Definition resetState (st : state) : state :=
  {| isProcessing := false; isLoggedIn := false; solveAttempts := 0;
     lastSolveTime := None; observer := observer st;
     debounceTimer := debounceTimer st; hasSuccessfullySolved := false |}.

(** Truthiness of [state.lastSolveTime]. *)
Definition truthyTime (o : option Z) : bool :=
  match o with
  | Some t => negb (t =? 0)
  | None => false
  end.

(** The part of [initiateSolver] that runs before its first [await]. *)
Definition initiateSolver (st : state) : state :=
  {| isProcessing := true; isLoggedIn := isLoggedIn st;
     solveAttempts := solveAttempts st + 1; lastSolveTime := lastSolveTime st;
     observer := observer st; debounceTimer := debounceTimer st;
     hasSuccessfullySolved := hasSuccessfullySolved st |}.

(** [checkForCaptcha] as one synchronous run: [now] is [Date.now()]. *)
Definition checkForCaptcha (pg : page) (now : Z) (st : state)
  : state * list effect :=
  let '(loggedIn, st1, fx) := updateLoginState pg st in
  if loggedIn then (st1, fx)
  else if isProcessing st1 then (st1, fx)
  else if maxSolveAttempts cfg <=? solveAttempts st1 then (st1, fx)
  else if truthyTime (lastSolveTime st1)
          && (now - default 0 (lastSolveTime st1) <? cooldownAfterSuccessMs cfg)
  then (st1, fx)
  else
    match captchaInput pg with
    | None => (st1, fx)
    | Some value =>
        if negb (captchaImg pg) then (st1, fx)
        else if negb (String.eqb value "")
                && (0 <? Z.of_nat (String.length (trim value)))
        then (st1, fx)
        else (initiateSolver st1, (fx ++ [SolverStarted])%list)
    end.

(** One run of [checkForLogout], the callback of the logout watcher. *)
Definition checkForLogout (pg : page) (now : Z) (st : state)
  : state * list effect :=
  if negb (isLoggedIn st) then (st, [])
  else if captchaImg pg && bool_decide (is_Some (captchaInput pg)) then
    checkForCaptcha pg now (startObserver (resetState st))
  else
    let stillLoggedIn :=
      existsb (fun selector => bool_decide (is_Some (querySelector pg selector)))
        (loginSuccessIndicators cfg) in
    let onLoginPage :=
      includes "login" (href pg) || includes "signin" (href pg)
      || includes "ETax" (href pg) in
    if negb stillLoggedIn && onLoginPage then
      (startObserver (resetState st), [CheckScheduled 1000])
    else (st, [LogoutWatchScheduled (reactivateCheckMs cfg)]).

(** The [reason] field of what [waitForVisibility] resolves with;
    [visible] is true for the first only. *)
Inductive reason : Type :=
| Visible
| Aborted
| TimedOut.

(** What one run of the [check] closure of [waitForVisibility] reads:
    the clock, the abort condition
    [state.isLoggedIn || !state.isProcessing], and whether the element is
    visible and loaded. *)
Record probe : Type := mkProbe {
  clockNow : Z;
  aborted : bool;
  shown : bool
}.

(** [waitForVisibility]: [startTime] is the clock at the call, [probes k]
    what the [k]-th run of [check] reads; the result comes with the
    number of runs of [check]. [fuel] bounds the runs. *)
Fixpoint waitForVisibility (fuel : nat) (startTime : Z) (probes : nat -> probe)
    (k : nat) : option (reason * nat) :=
  match fuel with
  | O => None
  | S fuel' =>
      let p := probes k in
      if aborted p then Some (Aborted, S k)
      else
        let elapsed := clockNow p - startTime in
        if shown p then Some (Visible, S k)
        else if visibilityTimeoutMs cfg <=? elapsed then Some (TimedOut, S k)
        else waitForVisibility fuel' startTime probes (S k)
  end.

End WithConfig.

(** A response object as the callbacks read it: the fields [error],
    [dataUrl] and [text], each possibly absent. *)
Record reply : Type := mkReply {
  error : option string;
  dataUrl : option string;
  text : option string
}.

(** What [chrome.runtime.sendMessage] hands to its callback:
    [chrome.runtime.lastError] set, or the response (possibly none). *)
Inductive delivery : Type :=
| LastError (msg : string)
| Delivered (response : option reply).

(** [sendMessage] *)
Definition sendMessage (d : delivery) : reply :=
  match d with
  | LastError msg => {| error := Some msg; dataUrl := None; text := None |}
  | Delivered (Some response) => response
  | Delivered None =>
      {| error := Some "No response"; dataUrl := None; text := None |}
  end.

(** [solveCaptcha] seen from its callers: [capture] is the delivery of
    the capture request, [crop] the outcome of [cropAndProcessImage] on a
    data URL, [solve] the delivery of the solve request for an image.
    Returns the text written into the input element, or the error
    thrown. *)
Definition solveCaptcha (capture : delivery) (crop : option string -> outcome string)
    (solve : string -> delivery) : outcome string :=
  let captureResponse := sendMessage capture in
  if truthyString (error captureResponse) then
    Throw (newError ("Capture failed: " ++ default "" (error captureResponse)))
  else
    match crop (dataUrl captureResponse) with
    | Throw e => Throw e
    | Return processedImage =>
        let solveResponse := sendMessage (solve processedImage) in
        if truthyString (error solveResponse) then
          Throw (newError ("Solve failed: " ++ default "" (error solveResponse)))
        else if negb (truthyString (text solveResponse)) then
          Throw (newError "No text returned from solver")
        else Return (default "" (text solveResponse))
    end.

(** The part of [initiateSolver] after the wait for visibility:
    [visible] is what the wait resolved with, [solved] the outcome of
    [solveCaptcha] and [now] the clock when it returned. *)
Definition initiateSolverRest (visible : bool) (solved : outcome string) (now : Z)
    (st : state) : state :=
  let release (s : state) :=
    {| isProcessing := false; isLoggedIn := isLoggedIn s;
       solveAttempts := solveAttempts s; lastSolveTime := lastSolveTime s;
       observer := observer s; debounceTimer := debounceTimer s;
       hasSuccessfullySolved := hasSuccessfullySolved s |} in
  if negb visible then release st
  else if isLoggedIn st then release st
  else
    match solved with
    | Return _ =>
        release
          {| isProcessing := isProcessing st; isLoggedIn := isLoggedIn st;
             solveAttempts := solveAttempts st; lastSolveTime := Some now;
             observer := observer st; debounceTimer := debounceTimer st;
             hasSuccessfullySolved := true |}
    | Throw _ => release st
    end.

(** The synchronous runs of the script, as the page and the timers
    trigger them. *)
Inductive event : Type :=
| Check (pg : page) (now : Z)
| LoginTimer (pg : page)
| LogoutWatch (pg : page) (now : Z)
| SolverEnds (visible : bool) (solved : outcome string) (now : Z).

Definition step (cfg : config) (ev : event) (st : state) : state * list effect :=
  match ev with
  | Check pg now => checkForCaptcha cfg pg now st
  | LoginTimer pg =>
      let '(_, st1, fx) := updateLoginState cfg pg st in (st1, fx)
  | LogoutWatch pg now => checkForLogout cfg pg now st
  | SolverEnds visible solved now => (initiateSolverRest visible solved now st, [])
  end.

(** The state after a series of runs, with all their effects. *)
Fixpoint run (cfg : config) (evs : list event) (st : state)
  : state * list effect :=
  match evs with
  | [] => (st, [])
  | ev :: rest =>
      let '(st1, fx1) := step cfg ev st in
      let '(st2, fx2) := run cfg rest st1 in
      (st2, (fx1 ++ fx2)%list)
  end.

End Content.

(** ** The content script of the cache-bearing worker (v15.1) *)

Module Overwatch.

(** [DOM_CONFIG.successSelectors] *)
Definition successSelectors : list string :=
  [ ".user-profile"; ".dashboard"; "#ctl00_btnLogout"; ".welcome-user" ].

(** What [solve] reads of the page when it starts: [naturalWidth] of the
    CAPTCHA image and the value of the CAPTCHA input, for the elements
    that exist. *)
Record dom : Type := mkDom {
  img : option Z;
  input : option string
}.

(** The placeholder texts the script writes: "Capturing...",
    "Solving...", "Solved" and "Fail: <message>" (each with its icon). *)
Inductive mark : Type :=
| Capturing
| Solving
| Solved
| Fail (msg : string).

(** The messages the script sends to the worker. *)
Inductive outgoing : Type :=
| CaptureScreen
| SolveCaptcha (base64Image : string)
| ReportLoginSuccess.

(** What a run of [solve] leaves: the lock [isBusy], the value of the
    input element, the last placeholder it wrote (if any) and the
    messages it sent, in order. *)
Record outcome_of_solve : Type := mkOutcome {
  isBusy : bool;
  value : option string;
  placeholder : option mark;
  sent : list outgoing
}.

(** [solve]: [busy] is the lock when it starts, [capture] the delivery of
    the capture request, [crop] the outcome of the canvas crop of a data
    URL, [answer] the response to the solve request for an image (none
    when the worker did not respond). *)
Definition solve (busy : bool) (d : dom) (capture : Content.delivery)
    (crop : string -> outcome string) (answer : string -> option Content.reply)
  : outcome_of_solve :=
  let untouched :=
    {| isBusy := busy; value := input d; placeholder := None; sent := [] |} in
  if busy then untouched
  else
    match img d, input d with
    | Some naturalWidth, Some current =>
        if 0 <? Z.of_nat (String.length current) then untouched
        else if naturalWidth =? 0 then untouched
        else
          let failed (msgs : list outgoing) (err : js_error) :=
            {| isBusy := false; value := Some current;
               placeholder := Some (Fail (message err)); sent := msgs |} in
          let captureResponse :=
            match capture with
            | Content.LastError msg =>
                Some {| Content.error := Some msg; Content.dataUrl := None;
                        Content.text := None |}
            | Content.Delivered response => response
            end in
          match captureResponse with
          | Some {| Content.dataUrl := Some url |} =>
              if negb (truthyString (Some url)) then
                failed [CaptureScreen] (newError "CAPTURE_FAILED")
              else
                match crop url with
                | Throw e => failed [CaptureScreen] e
                | Return processedImg =>
                    if String.eqb processedImg ""
                       || (Z.of_nat (String.length processedImg) <? 500)
                    then failed [CaptureScreen] (newError "INVALID_CROP")
                    else
                      let msgs := [CaptureScreen; SolveCaptcha processedImg] in
                      let solveRes := answer processedImg in
                      match solveRes with
                      | Some {| Content.text := Some t; Content.error := e |} =>
                          if truthyString (Some t) then
                            {| isBusy := false; value := Some t;
                               placeholder := Some Solved; sent := msgs |}
                          else if truthyString e then
                            failed msgs (newError (default "" e))
                          else failed msgs (newError "EMPTY_RESPONSE")
                      | Some {| Content.text := None; Content.error := e |} =>
                          if truthyString e then
                            failed msgs (newError (default "" e))
                          else failed msgs (newError "EMPTY_RESPONSE")
                      | None => failed msgs (newError "EMPTY_RESPONSE")
                      end
                end
          | _ => failed [CaptureScreen] (newError "CAPTURE_FAILED")
          end
    | _, _ => untouched
    end.

(** [s.toLowerCase()] for code units below 256: the letters A to Z and
    the accented capitals from 192 to 222, the sign at 215 apart. *)
Definition lowerChar (c : ascii) : ascii :=
  let n := charCode c in
  if ((65 <=? n) && (n <=? 90))
     || ((192 <=? n) && (n <=? 222) && negb (n =? 215))
  then ascii_of_nat (nat_of_ascii c + 32)
  else c.

Fixpoint toLowerCase (s : string) : string :=
  match s with
  | EmptyString => EmptyString
  | String c rest => String (lowerChar c) (toLowerCase rest)
  end.

(** One tick of the interval that reports a login: [matches] tells which
    selectors [document.querySelector] finds, [href] is the address. *)
Definition reportTick (matches : string -> bool) (href : string) : list outgoing :=
  let isHome :=
    existsb matches successSelectors
    || (includes "dashboard" (toLowerCase href)
        || includes "home" (toLowerCase href)
        || includes "account" (toLowerCase href)) in
  if isHome then [ReportLoginSuccess] else [].

End Overwatch.

(** * Specification vocabulary *)

Import Failover.

(** The failover worker has three tiers; tier 4 is "all down". *)
Definition maxTier : Z := 3.

(** The providers of a tier, as [solveWithFailover] dispatches them: the
    models of tier 1, the models of tier 2, and NoPeCHA alone on tier 3. *)
Definition tierProviders (cfg : config) (n : Z) : list string :=
  if n =? 1 then tier1Models cfg
  else if n =? 2 then tier2Models cfg
  else if n =? 3 then ["NoPeCHA"]
  else [].

(** The last valid index of a tier. *)
Definition lastIndex (cfg : config) (n : Z) : Z := len (tierProviders cfg n) - 1.

(** The terminal state of the machine. *)
Definition Exhausted (s : FailoverState) : Prop := currentTier s = maxTier + 1.

(** The state [Tier(n, i)] with a given time stamp. *)
Definition Tier (n i : Z) (stamp : option Z) : FailoverState :=
  {| currentTier := n; modelIndex := i; lastFailoverTime := stamp |}.

(** A state is stamped when its time stamp is a clock reading; the clock
    counts milliseconds since 1970 and is never 0 while the worker runs. *)
Definition stamped (s : FailoverState) (t : Z) : Prop :=
  lastFailoverTime s = Some t /\ t <> 0.

(** The place of the machine: (tier, index). *)
Definition position (s : FailoverState) : Z * Z := (currentTier s, modelIndex s).

(** The slots of one tier, in index order. *)
Definition tierSlots (n : Z) (models : list string) : list (Z * Z) :=
  (fun i => (n, Z.of_nat i)) <$> seq 0 (length models).

(** Every provider of the worker in tier-then-index order. *)
Definition providerOrder (cfg : config) : list (Z * Z) :=
  tierSlots 1 (tier1Models cfg) ++ tierSlots 2 (tier2Models cfg) ++ [(3, 0)].

(** Tier first, index second. *)
Definition lexlt (a b : Z * Z) : Prop :=
  a.1 < b.1 \/ (a.1 = b.1 /\ a.2 < b.2).

(** An attempt that ended in an error which [shouldFailover] accepts. *)
Definition retryableFailure (cfg : config) (r : option (outcome string)) : Prop :=
  exists e, r = Some (Throw e) /\ shouldFailover cfg (statusCode e) e = true.

(** The [k]-th provider of the order fails, retryably, on the [k]-th
    invocation of the request. *)
Definition failsAt (cfg : config) (ncfg : nopecha_config) (w : world)
    (img key : string) (k : nat) : Prop :=
  forall t i stamp,
    providerOrder cfg !! k = Some (t, i) ->
    retryableFailure cfg
      (attemptProvider cfg ncfg (net w k) img key (Tier t i stamp)).

(** A network whose chat endpoint answers every request with the given
    fetch result and whose job endpoint accepts a job and has HTTP 202 for
    every poll. *)
Definition chatNetwork (answer : openrouter_fetch) : network :=
  {| openRouter := fun _ _ _ => answer;
     nopechaSubmit := fun _ => SubmitResponded 200 "" (Some "job-1");
     nopechaPoll := fun _ => PollResponded 202 "" DataAbsent None |}.

(** A request during which every provider invocation sees the same
    network and every failover reads the same clock. *)
Definition steadyWorld (n : network) (now : Z) : world :=
  {| net := fun _ => n; clock := fun _ => now |}.

(** The chat endpoint is rate limited (HTTP 429). *)
Definition rateLimited : network := chatNetwork (OrResponded 429 "slow down" None).

(** The chat request is aborted by the 35 s timer: [fetch] rejects with an
    [AbortError]. *)
Definition abortError : js_error :=
  {| name := "AbortError"; message := "The operation was aborted.";
     statusCode := None |}.

Definition timedOut : network := chatNetwork (OrRejected abortError).

(** The error [executeOpenRouterRequest] throws for an aborted fetch. *)
Definition timeoutError : js_error := newErrorWithStatus "Timeout after 35000ms" 408.

(** The error [executeOpenRouterRequest] throws without an API key. *)
Definition missingKeyError : js_error := newErrorWithStatus "API key is missing." 401.

(** A response of the cache-bearing worker that reports an error. *)
Definition isError (r : Surgeon.response) : Prop :=
  exists msg, r = Surgeon.ErrorResponse msg.

(** The place of a backend of the cache-bearing worker: its tier and its
    index in the tier. *)
Definition place (p : Surgeon.provider) : Z * Z :=
  match p with
  | Surgeon.NoPeCHA => (1, 0)
  | Surgeon.OpenRouter modelIndex => (2, modelIndex)
  | Surgeon.Mistral => (3, 0)
  end.

(** The backends the cache-bearing worker can reach, in tier-then-index
    order; NoPeCHA is among them only when it has a key. *)
Definition backendOrder (scfg : Surgeon.config) : list Surgeon.provider :=
  ((if String.eqb (Surgeon.nopechaKey scfg) "" then [] else [Surgeon.NoPeCHA])
   ++ [Surgeon.OpenRouter 0; Surgeon.OpenRouter 1; Surgeon.Mistral])%list.

(** The number of backends of the order on the tiers below [tier]: the
    position in the order of the first backend of that tier. *)
Definition firstOfTier (scfg : Surgeon.config) (tier : Z) : nat :=
  length (List.filter (fun p => fst (place p) <? tier) (backendOrder scfg)).

(** Every backend of the cache-bearing worker fails for the image. *)
Definition backendsFail (scfg : Surgeon.config) (n : Surgeon.network)
    (img : string) : Prop :=
  (exists e, Surgeon.solveNoPeCHA scfg n img = Throw e)
  /\ (exists e, Surgeon.solveOpenRouter scfg n img 0 = Throw e)
  /\ (exists e, Surgeon.solveOpenRouter scfg n img 1 = Throw e)
  /\ (exists e, Surgeon.solveMistral n img = Throw e).

(** A solve request for an image that the cache of [s] does not hold, on a
    network on which every backend fails. *)
Definition failingRequest (scfg : Surgeon.config) (s : Surgeon.state)
    (m : Surgeon.request * Surgeon.network) : Prop :=
  exists img,
    fst m = Surgeon.SolveCaptcha img
    /\ truthyString (Surgeon.cache s !! Surgeon.hash img) = false
    /\ backendsFail scfg (snd m) img.

(** The backends invoked in a session, in order. *)
Definition invokedIn (outs : list (option Surgeon.response * list Surgeon.provider))
  : list Surgeon.provider :=
  List.concat (List.map snd outs).

(** What a backend of the cache-bearing worker yields for an image. *)
Definition resultOf (scfg : Surgeon.config) (n : Surgeon.network) (img : string)
    (p : Surgeon.provider) : outcome string :=
  match p with
  | Surgeon.NoPeCHA => Surgeon.solveNoPeCHA scfg n img
  | Surgeon.OpenRouter modelIndex => Surgeon.solveOpenRouter scfg n img modelIndex
  | Surgeon.Mistral => Surgeon.solveMistral n img
  end.

(** The parse law of the claim, read on a parse step: every character
    that is not alphanumeric is stripped, and the cleaned text is the
    result exactly when it has 3 to 8 characters; the step fails
    otherwise. *)
Definition stripsAndChecksLength (parse : string -> outcome string) : Prop :=
  forall raw,
    if (3 <=? Z.of_nat (String.length (filterString isAlnum raw)))
       && (Z.of_nat (String.length (filterString isAlnum raw)) <=? 8)
    then parse raw = Return (filterString isAlnum raw)
    else exists e, parse raw = Throw e.

(** A raw text without its double quotes, single quotes and spaces. *)
Definition unquoted (raw : string) : string :=
  filterString (fun c => negb (Surgeon.isQuoteOrSpace c)) raw.

(** The text begins with three alphanumeric characters. *)
Definition threeAlnum (s : string) : bool :=
  match s with
  | String a (String b (String c _)) => isAlnum a && isAlnum b && isAlnum c
  | _ => false
  end.

(** The text begins with an alphanumeric character. *)
Definition beginsAlnum (s : string) : bool :=
  match s with
  | String c _ => isAlnum c
  | EmptyString => false
  end.

(** [m] is the leftmost run of at least 3 alphanumeric characters of [s],
    cut after 8: [s] is [pre ++ m ++ post], no three alphanumeric
    characters in a row begin inside [pre], [m] has 3 to 8 alphanumeric
    characters, and [m] ends at its eighth character or where the
    alphanumeric characters end. *)
Definition leftmostToken (s m : string) : Prop :=
  exists pre post,
    s = pre ++ m ++ post
    /\ (forall p1 p2, pre = p1 ++ p2 -> p2 <> "" ->
          threeAlnum (p2 ++ m ++ post) = false)
    /\ filterString isAlnum m = m
    /\ (3 <= String.length m <= 8)%nat
    /\ ((String.length m < 8)%nat -> beginsAlnum post = false).

(** The fail-fast rule for a missing credential, read on [runSolve]: the
    worker is on tier 1 and its NoPeCHA solver fails for want of a key;
    the request is to fail with that error, leave the tier alone and
    invoke nothing else. *)
Definition failsFastOnMissingCredential : Prop :=
  forall (scfg : Surgeon.config) (n : Surgeon.network) (img : string)
         (s : Surgeon.state),
    Surgeon.currentTier s = 1 ->
    Surgeon.solveNoPeCHA scfg n img = Throw (newError "NOPECHA_KEY_MISSING") ->
    let '(resp, s', invoked) :=
      Surgeon.runSolve scfg n img (Surgeon.hash img) s in
    resp = Surgeon.ErrorResponse "NOPECHA_KEY_MISSING"
    /\ Surgeon.currentTier s' = Surgeon.currentTier s
    /\ Forall (fun p => p = Surgeon.NoPeCHA) invoked.

(** A network of the cache-bearing worker whose every backend answers
    with the same text. *)
Definition answering (text : string) : Surgeon.network :=
  {| Surgeon.nopecha := fun _ => Surgeon.Responded 200 (Some text);
     Surgeon.openRouter := fun _ _ _ => Surgeon.Responded 200 (Some text);
     Surgeon.mistral := fun _ => Surgeon.Responded 200 (Some text) |}.

(** A network of the cache-bearing worker whose every backend answers
    with the same HTTP error status. *)
Definition refusing (httpStatus : Z) : Surgeon.network :=
  {| Surgeon.nopecha := fun _ => Surgeon.Responded httpStatus None;
     Surgeon.openRouter := fun _ _ _ => Surgeon.Responded httpStatus None;
     Surgeon.mistral := fun _ => Surgeon.Responded httpStatus None |}.

(** The error of the call of [sleep] in the polling loop. *)
Definition sleepUndefined : js_error := referenceError "sleep".

(** The job submission is accepted: a 2xx reply that carries a job id. *)
Definition accepted (n : network) (img : string) : Prop :=
  exists httpStatus body jobId,
    nopechaSubmit n img = SubmitResponded httpStatus body (Some jobId)
    /\ ok httpStatus = true /\ jobId <> "".

(** The error after the polling loop, when its attempts have run out. *)
Definition pollTimeoutError : js_error :=
  newErrorWithStatus "NoPeCHA: Timeout waiting for result" 408.

(** A network whose chat endpoint replies 200 with the given content and
    whose job endpoint accepts the job and has the given text for every
    poll. *)
Definition replying (text : string) : network :=
  {| openRouter := fun _ _ _ => OrResponded 200 "" (Some text);
     nopechaSubmit := fun _ => SubmitResponded 200 "" (Some "job-1");
     nopechaPoll := fun _ => PollResponded 200 "" (DataString text) None |}.

(** The cache rule read without the confirmation: of two solve requests
    with one fingerprint, the second is answered from the cache and
    invokes no provider. *)
Definition secondRequestIsCached : Prop :=
  forall (scfg : Surgeon.config) (n1 n2 : Surgeon.network) (img1 img2 : string)
         (s : Surgeon.state),
    Surgeon.hash img1 = Surgeon.hash img2 ->
    exists first text s',
      Surgeon.session scfg
        [(Surgeon.SolveCaptcha img1, n1); (Surgeon.SolveCaptcha img2, n2)] s
      = ([first; (Some (Surgeon.TextResponse text Surgeon.Cached), [])], s').

(** A bound on the iterations [solveWithFailover] makes from a state. *)
Definition slotsLeft (size idx : Z) : nat := Z.to_nat (Z.max 1 (size - idx)).

Definition iterationsLeft (cfg : config) (s : FailoverState) : nat :=
  if currentTier s =? 1 then
    slotsLeft (len (tier1Models cfg)) (modelIndex s)
    + slotsLeft (len (tier2Models cfg)) 0 + 1
  else if currentTier s =? 2 then
    slotsLeft (len (tier2Models cfg)) (modelIndex s) + 1
  else if currentTier s =? 3 then slotsLeft 1 (modelIndex s)
  else if currentTier s <=? 3 then 1
  else 0.

(** A state of the failover worker that a run can reach: its place is a
    slot of the provider order or the exhausted place (4, 0), and above
    tier 1 it carries a non-zero time stamp. *)
Definition sound (cfg : config) (s : FailoverState) : Prop :=
  ((exists j : nat, providerOrder cfg !! j = Some (position s))
   \/ (currentTier s = 4 /\ modelIndex s = 0))
  /\ (1 < currentTier s -> exists t, stamped s t).

(** Every provider of the order fails, retryably, on its invocation. *)
Definition allFail (cfg : config) (ncfg : nopecha_config) (w : world)
    (img key : string) : Prop :=
  forall k, failsAt cfg ncfg w img key k.

(** A network on which every provider is out of service (HTTP 503). *)
Definition unavailable : network :=
  {| openRouter := fun _ _ _ => OrResponded 503 "down" None;
     nopechaSubmit := fun _ => SubmitResponded 503 "down" None;
     nopechaPoll := fun _ => PollResponded 503 "down" DataAbsent None |}.

(** The error [executeOpenRouterRequest] throws for a reply without
    content. *)
Definition emptyReplyError : js_error :=
  newErrorWithStatus "Empty response from API" 0.

(** What [getApiKey] reads from the synchronised storage. *)
Definition readApiKey (sync : gmap string string) : storage_read :=
  StorageRead (sync !! "openrouter_api_key").

(** The error of [getApiKey] for an absent or empty key. *)
Definition keyNotFound : js_error :=
  newError "API key not found. Please set it on the options page.".

(** A colour byte. *)
Definition isByte (z : Z) : Prop := 0 <= z <= 255.

(** The sums [r + g] for which the product with the double 0.7 falls
    just below the integer [7 (r + g) / 10]. *)
Definition roundsDown (sum : Z) : bool :=
  existsb (Z.eqb sum) [170; 180; 330; 340; 350; 360].

(** The ink test in exact arithmetic. *)
Definition inkTest (r g b : Z) : bool :=
  (90 <? b)
  && ((7 * (r + g) <? 10 * b) || ((7 * (r + g) =? 10 * b) && roundsDown (r + g))).

(** The pixels of an array of RGBA bytes. *)
Fixpoint pixels (data : list Z) : list (Z * Z * Z * Z) :=
  match data with
  | r :: g :: b :: a :: rest => (r, g, b, a) :: pixels rest
  | _ => []
  end.

(** A pixel after the enhancement, by the exact ink test. *)
Definition enhanced (px : Z * Z * Z * Z) : Z * Z * Z * Z :=
  let '(r, g, b, a) := px in
  if inkTest r g b then (0, 0, 0, a) else (255, 255, 255, a).

(** The number of solver runs started among the effects of a series of
    runs of the content script. *)
Fixpoint solverStarts (fx : list Content.effect) : Z :=
  match fx with
  | [] => 0
  | Content.SolverStarted :: rest => 1 + solverStarts rest
  | _ :: rest => solverStarts rest
  end.

(** A run of the logout watcher, the only run that resets the state. *)
Definition isLogoutWatch (ev : Content.event) : bool :=
  match ev with
  | Content.LogoutWatch _ _ => true
  | _ => false
  end.

(** The object the failover worker passes to [sendResponse], as the
    content script reads it. *)
Definition replyOfFailover (r : Failover.response) : Content.reply :=
  match r with
  | Failover.TextResponse text _ =>
      {| Content.error := None; Content.dataUrl := None; Content.text := text |}
  | Failover.ErrorResponse msg _ =>
      {| Content.error := Some msg; Content.dataUrl := None; Content.text := None |}
  end.

(** The object the cache-bearing worker passes to [sendResponse]. *)
Definition replyOfSurgeon (r : Surgeon.response) : Content.reply :=
  match r with
  | Surgeon.DataUrlResponse =>
      {| Content.error := None; Content.dataUrl := None; Content.text := None |}
  | Surgeon.TextResponse text _ =>
      {| Content.error := None; Content.dataUrl := None; Content.text := Some text |}
  | Surgeon.ErrorResponse msg =>
      {| Content.error := Some msg; Content.dataUrl := None; Content.text := None |}
  end.

(** The failover worker as the content script reaches it: the delivery of
    the response to a solve request for an image (no response when the
    run of the worker is cut short). *)
Definition failoverAnswers (cfg : config) (ncfg : nopecha_config) (fuel : nat)
    (now : Z) (stored : storage_read) (w : world) (s : FailoverState)
    (image : string) : Content.delivery :=
  match handleCaptchaSolve cfg ncfg fuel now stored w image s with
  | Some (r, _, _) => Content.Delivered (Some (replyOfFailover r))
  | None => Content.Delivered None
  end.

(** The cache-bearing worker as its content script reaches it: the
    response to a solve request for an image. *)
Definition surgeonAnswers (scfg : Surgeon.config) (n : Surgeon.network)
    (s : Surgeon.state) (image : string) : option Content.reply :=
  replyOfSurgeon
    <$> fst (fst (Surgeon.onMessage scfg n (Surgeon.SolveCaptcha image) s)).

(** A run of [solve] that did nothing. *)
Definition untouched (busy : bool) (d : Overwatch.dom) : Overwatch.outcome_of_solve :=
  {| Overwatch.isBusy := busy; Overwatch.value := Overwatch.input d;
     Overwatch.placeholder := None; Overwatch.sent := [] |}.

(** A string of [n] copies of the letter "A". *)
Fixpoint filler (n : nat) : string :=
  match n with
  | O => EmptyString
  | S n' => String "A" (filler n')
  end.

(** Case analysis on the integer comparisons of a goal. *)
Ltac zcases :=
  repeat match goal with
         | |- context [Z.eqb ?a ?b] => destruct (Z.eqb_spec a b)
         | |- context [Z.ltb ?a ?b] => destruct (Z.ltb_spec a b)
         | |- context [Z.leb ?a ?b] => destruct (Z.leb_spec a b)
         end.

(** * The failover state machine *)

Lemma lastIndex_tier3 cfg : lastIndex cfg 3 = 0.
Proof. reflexivity. Qed.

Lemma advanceFailover_stamp cfg reason now s :
  lastFailoverTime (advanceFailover cfg reason now s) = Some now.
Proof. unfold advanceFailover. cbn. zcases; reflexivity. Qed.

Lemma advanceFailover_le_4 cfg reason now s :
  currentTier (advanceFailover cfg reason now s) <= maxTier + 1.
Proof. unfold advanceFailover, maxTier. cbn. zcases; cbn in *; lia. Qed.

Lemma advanceFailover_spec cfg reason now n i stamp :
  1 <= n <= maxTier ->
  advanceFailover cfg reason now (Tier n i stamp) =
    if i + 1 <=? lastIndex cfg n then Tier n (i + 1) (Some now)
    else Tier (n + 1) 0 (Some now).
Proof.
  intros Hn.
  assert (Hn' : n = 1 \/ n = 2 \/ n = 3) by (unfold maxTier in Hn; lia).
  unfold advanceFailover, lastIndex, tierProviders, Tier, len.
  destruct Hn' as [-> | [-> | ->]]; cbn; zcases; cbn in *; try lia; reflexivity.
Qed.

(** C1. [advanceFailover] on a non-terminal state [Tier(n, i)]: the index
    becomes [i+1] when that does not exceed the last index of tier [n],
    otherwise the index is reset to 0 and the tier becomes [n+1]; the time
    stamp is the current time; and a resulting tier above [maxTier] is the
    terminal state, tier [maxTier+1] and never more. *)
Theorem C1_advance_step cfg reason now n i stamp :
  1 <= n <= maxTier ->
  let s' := advanceFailover cfg reason now (Tier n i stamp) in
  (i + 1 <= lastIndex cfg n -> s' = Tier n (i + 1) (Some now)) /\
  (lastIndex cfg n < i + 1 -> s' = Tier (n + 1) 0 (Some now)) /\
  lastFailoverTime s' = Some now /\
  currentTier s' <= maxTier + 1 /\
  (maxTier < currentTier s' -> Exhausted s').
Proof.
  intros Hn s'.
  repeat split.
  - intros Hle. subst s'. rewrite advanceFailover_spec by exact Hn.
    destruct (Z.leb_spec (i + 1) (lastIndex cfg n)); [reflexivity | lia].
  - intros Hlt. subst s'. rewrite advanceFailover_spec by exact Hn.
    destruct (Z.leb_spec (i + 1) (lastIndex cfg n)); [lia | reflexivity].
  - apply advanceFailover_stamp.
  - apply advanceFailover_le_4.
  - intros Hgt. pose proof (advanceFailover_le_4 cfg reason now (Tier n i stamp)).
    unfold Exhausted. fold s' in H. lia.
Qed.

Lemma C1_advance_step_witness :
  advanceFailover FAILOVER_CONFIG "x" 1000 (Tier 1 1 None) = Tier 2 0 (Some 1000)
  /\ advanceFailover FAILOVER_CONFIG "x" 1000 (Tier 1 0 None) = Tier 1 1 (Some 1000)
  /\ Exhausted (advanceFailover FAILOVER_CONFIG "x" 1000 (Tier 3 0 None)).
Proof.
  split; [|split].
  - apply (C1_advance_step FAILOVER_CONFIG "x" 1000 1 1 None); [unfold maxTier; lia|].
    vm_compute; reflexivity.
  - apply (C1_advance_step FAILOVER_CONFIG "x" 1000 1 0 None); [unfold maxTier; lia|].
    vm_compute. discriminate.
  - apply (C1_advance_step FAILOVER_CONFIG "x" 1000 3 0 None); [unfold maxTier; lia|].
    vm_compute; reflexivity.
Defined.

(** ** Cooldown recovery *)

Lemma checkCooldownRecovery_stamped cfg now s t :
  stamped s t ->
  checkCooldownRecovery cfg now s =
    if decide (1 < currentTier s /\ cooldownMs cfg <= now - t)
    then Tier 1 0 None else s.
Proof.
  intros [Hs Ht]. unfold checkCooldownRecovery, truthyTime. rewrite Hs. cbn.
  destruct (Z.eqb_spec t 0) as [|_]; [contradiction|].
  case_decide as Hd; zcases; cbn; try lia; reflexivity.
Qed.

Lemma checkCooldownRecovery_cases cfg now s :
  checkCooldownRecovery cfg now s = s \/
  checkCooldownRecovery cfg now s = Tier 1 0 None.
Proof.
  unfold checkCooldownRecovery.
  destruct (_ && _); [|left; reflexivity].
  destruct (_ <=? _); [right | left]; reflexivity.
Qed.

Lemma checkCooldownRecovery_idem cfg now s :
  checkCooldownRecovery cfg now (checkCooldownRecovery cfg now s)
  = checkCooldownRecovery cfg now s.
Proof.
  destruct (checkCooldownRecovery_cases cfg now s) as [H | H]; rewrite H.
  - exact H.
  - reflexivity.
Qed.

(** Every machine state that [advanceFailover] produces at a non-zero
    clock is stamped, and a state left on tier 1 by the recovery needs no
    stamp: the states above tier 1 that a run reaches are stamped. *)
Lemma advanceFailover_stamped cfg reason now s :
  now <> 0 -> stamped (advanceFailover cfg reason now s) now.
Proof. intros Hnow. split; [apply advanceFailover_stamp | exact Hnow]. Qed.

(** C2. [checkCooldownRecovery] runs first in every [handleCaptchaSolve];
    on a stamped state it resets the machine to [Tier(1, 0)] with the
    stamp cleared exactly when the tier is above 1 and at least
    [cooldownMs] have elapsed since the stamp: one millisecond short of
    the cooldown nothing happens, at the cooldown the machine recovers,
    and the exhausted state recovers by the same rule. *)
Theorem C2_cooldown_recovery cfg ncfg now s t :
  stamped s t ->
  (checkCooldownRecovery cfg now s =
     if decide (1 < currentTier s /\ cooldownMs cfg <= now - t)
     then Tier 1 0 None else s) /\
  (1 < currentTier s ->
     checkCooldownRecovery cfg (t + (cooldownMs cfg - 1)) s = s /\
     checkCooldownRecovery cfg (t + cooldownMs cfg) s = Tier 1 0 None) /\
  (Exhausted s ->
     checkCooldownRecovery cfg (t + (cooldownMs cfg - 1)) s = s /\
     checkCooldownRecovery cfg (t + cooldownMs cfg) s = Tier 1 0 None) /\
  (forall fuel stored w img,
     handleCaptchaSolve cfg ncfg fuel now stored w img s =
     handleCaptchaSolve cfg ncfg fuel now stored w img
       (checkCooldownRecovery cfg now s)) /\
  (forall fuel stored w img,
     1 < currentTier s -> cooldownMs cfg <= now - t ->
     handleCaptchaSolve cfg ncfg fuel now stored w img s =
     handleCaptchaSolve cfg ncfg fuel now stored w img initialState).
Proof.
  intros Hst.
  assert (Hedge : 1 < currentTier s ->
     checkCooldownRecovery cfg (t + (cooldownMs cfg - 1)) s = s /\
     checkCooldownRecovery cfg (t + cooldownMs cfg) s = Tier 1 0 None).
  { intros Htier. split.
    - rewrite (checkCooldownRecovery_stamped _ _ _ _ Hst).
      case_decide; [lia | reflexivity].
    - rewrite (checkCooldownRecovery_stamped _ _ _ _ Hst).
      case_decide; [reflexivity | lia]. }
  split; [apply checkCooldownRecovery_stamped, Hst|].
  split; [exact Hedge|].
  split; [intros Hex; apply Hedge; unfold Exhausted, maxTier in Hex; lia|].
  split.
  - intros fuel stored w img. unfold handleCaptchaSolve.
    rewrite checkCooldownRecovery_idem. reflexivity.
  - intros fuel stored w img Htier Hcool. unfold handleCaptchaSolve.
    rewrite (checkCooldownRecovery_stamped _ _ _ _ Hst).
    case_decide; [reflexivity | lia].
Qed.

Lemma C2_cooldown_recovery_witness :
  checkCooldownRecovery FAILOVER_CONFIG 1299999 (Tier 4 0 (Some 1000000))
    = Tier 4 0 (Some 1000000)
  /\ checkCooldownRecovery FAILOVER_CONFIG 1300000 (Tier 4 0 (Some 1000000))
    = Tier 1 0 None.
Proof.
  assert (Hst : stamped (Tier 4 0 (Some 1000000)) 1000000)
    by (split; [reflexivity | lia]).
  destruct (C2_cooldown_recovery FAILOVER_CONFIG NOPECHA_CONFIG 0 _ _ Hst)
    as (_ & _ & Hex & _).
  apply Hex. reflexivity.
Defined.

(** ** The order in which providers are visited *)

Lemma lexlt_trans a b c : lexlt a b -> lexlt b c -> lexlt a c.
Proof. unfold lexlt. lia. Qed.

Lemma lexlt_irrefl a : ~ lexlt a a.
Proof. unfold lexlt. lia. Qed.

Lemma StronglySorted_lexlt_NoDup (l : list (Z * Z)) :
  StronglySorted lexlt l -> NoDup l.
Proof.
  induction 1 as [|a l _ IH Hall]; constructor; [|exact IH].
  intros Hin. rewrite Forall_forall in Hall.
  exact (lexlt_irrefl a (Hall a Hin)).
Qed.

(** One failover moves the machine strictly forward. *)
Lemma advanceFailover_forward cfg reason now s :
  currentTier s <= 3 ->
  lexlt (position s) (position (advanceFailover cfg reason now s)).
Proof.
  intros Hle. unfold lexlt, position, advanceFailover. cbn.
  zcases; cbn in *; lia.
Qed.

Section Order.

Variable cfg : config.
Variable ncfg : nopecha_config.

(** The providers a run invokes come in strictly increasing
    tier-then-index order, none before the place the run started at. *)
Lemma solveLoop_sorted fuel w img key :
  forall k lastError s r s' visited,
    solveLoop cfg ncfg fuel w img key k lastError s = Some (r, s', visited) ->
    StronglySorted lexlt visited /\
    Forall (fun p => p = position s \/ lexlt (position s) p) visited.
Proof.
  induction fuel as [|fuel IH]; intros k lastError s r s' visited; cbn.
  - destruct (currentTier s <=? 3); [discriminate|].
    intros [= <- <- <-]. split; constructor.
  - destruct (Z.leb_spec (currentTier s) 3) as [Hle|Hgt].
    2:{ intros [= <- <- <-]. split; constructor. }
    destruct (attemptProvider cfg ncfg (net w k) img key s) as [[v|e]|].
    + intros [= <- <- <-]. split; repeat constructor.
    + destruct (shouldFailover cfg (statusCode e) e).
      * destruct (solveLoop cfg ncfg fuel w img key (S k) (Some e) _)
          as [[[r1 s1] vis1]|] eqn:Hrec; [|discriminate].
        intros [= <- <- <-].
        destruct (IH _ _ _ _ _ _ Hrec) as [Hsorted Hall].
        pose proof (advanceFailover_forward cfg
          (getCurrentModelName cfg s ++ ": " ++ message e) (clock w k) s Hle) as Hfwd.
        assert (Hafter : Forall (lexlt (position s)) vis1).
        { eapply Forall_impl; [exact Hall|]. intros p [-> | Hp]; [exact Hfwd|].
          eapply lexlt_trans; eassumption. }
        split.
        -- constructor; assumption.
        -- constructor; [left; reflexivity|].
           eapply Forall_impl; [exact Hafter|]. intros p Hp. right. exact Hp.
      * intros [= <- <- <-]. split; repeat constructor.
    + intros [= <- <- <-]. split; constructor.
Qed.

(** [iterationsLeft] iterations always suffice: the loop ends. *)
Lemma iterationsLeft_advance reason now s :
  currentTier s <= 3 -> 1 <= currentTier s ->
  (S (iterationsLeft cfg (advanceFailover cfg reason now s))
   <= iterationsLeft cfg s)%nat.
Proof.
  intros Hle Hge.
  assert (Hn : currentTier s = 1 \/ currentTier s = 2 \/ currentTier s = 3) by lia.
  unfold iterationsLeft, advanceFailover, slotsLeft. cbn.
  destruct Hn as [-> | [-> | ->]]; cbn; zcases; cbn in *; try lia.
Qed.

Lemma solveLoop_total fuel w img key :
  forall k lastError s,
    (iterationsLeft cfg s <= fuel)%nat ->
    is_Some (solveLoop cfg ncfg fuel w img key k lastError s).
Proof.
  induction fuel as [|fuel IH]; intros k lastError s Hfuel; cbn.
  - destruct (Z.leb_spec (currentTier s) 3) as [Hle|Hgt]; [|eexists; reflexivity].
    exfalso. unfold iterationsLeft, slotsLeft in Hfuel.
    revert Hfuel. zcases; lia.
  - destruct (Z.leb_spec (currentTier s) 3) as [Hle|Hgt]; [|eexists; reflexivity].
    destruct (attemptProvider cfg ncfg (net w k) img key s) as [[v|e]|] eqn:Hatt;
      [eexists; reflexivity | | eexists; reflexivity].
    destruct (shouldFailover cfg (statusCode e) e); [|eexists; reflexivity].
    assert (Hge : 1 <= currentTier s).
    { unfold attemptProvider in Hatt. revert Hatt. zcases; try discriminate; lia. }
    pose proof (iterationsLeft_advance
      (getCurrentModelName cfg s ++ ": " ++ message e) (clock w k) s Hle Hge) as Hdec.
    destruct (IH (S k) (Some e)
      (advanceFailover cfg (getCurrentModelName cfg s ++ ": " ++ message e)
         (clock w k) s)) as [[[r1 s1] v1] ->]; [lia|].
    eexists; reflexivity.
Qed.

End Order.

Lemma providerOrder_length cfg :
  length (providerOrder cfg)
  = (length (tier1Models cfg) + length (tier2Models cfg) + 1)%nat.
Proof.
  unfold providerOrder, tierSlots.
  rewrite !length_app, !length_fmap, !length_seq. cbn. lia.
Qed.

Lemma tierSlots_lookup n models j :
  (j < length models)%nat -> tierSlots n models !! j = Some (n, Z.of_nat j).
Proof.
  intros Hj. unfold tierSlots.
  rewrite list_lookup_fmap, lookup_seq_lt by exact Hj. reflexivity.
Qed.

Lemma tierSlots_length n models : length (tierSlots n models) = length models.
Proof. unfold tierSlots. rewrite length_fmap, length_seq. reflexivity. Qed.

(** The slot at each place of the order. *)
Lemma providerOrder_lookup cfg j :
  providerOrder cfg !! j =
    if decide (j < length (tier1Models cfg))%nat then Some (1, Z.of_nat j)
    else if decide (j < length (tier1Models cfg) + length (tier2Models cfg))%nat
         then Some (2, Z.of_nat (j - length (tier1Models cfg)))
    else if decide (j = length (tier1Models cfg) + length (tier2Models cfg))%nat
         then Some (3, 0)
    else None.
Proof.
  unfold providerOrder.
  case_decide as H1.
  { rewrite lookup_app_l by (rewrite tierSlots_length; exact H1).
    apply tierSlots_lookup, H1. }
  rewrite lookup_app_r by (rewrite tierSlots_length; lia).
  rewrite tierSlots_length.
  case_decide as H2.
  { rewrite lookup_app_l by (rewrite tierSlots_length; lia).
    apply tierSlots_lookup. lia. }
  rewrite lookup_app_r by (rewrite tierSlots_length; lia).
  rewrite tierSlots_length.
  case_decide as H3.
  - replace (j - length (tier1Models cfg) - length (tier2Models cfg))%nat
      with 0%nat by lia. reflexivity.
  - destruct (j - length (tier1Models cfg) - length (tier2Models cfg))%nat
      as [|d] eqn:Hd; [lia | reflexivity].
Qed.

(** With no tier empty, a failover from a slot of the order leads to the
    next slot, and from the last slot to tier 4. *)
Lemma providerOrder_next cfg j t i reason now stamp :
  tier1Models cfg <> [] -> tier2Models cfg <> [] ->
  providerOrder cfg !! j = Some (t, i) ->
  advanceFailover cfg reason now (Tier t i stamp) =
    match providerOrder cfg !! S j with
    | Some (t', i') => Tier t' i' (Some now)
    | None => Tier 4 0 (Some now)
    end.
Proof.
  intros Hne1 Hne2. rewrite !providerOrder_lookup.
  assert (0 < length (tier1Models cfg))%nat by (destruct (tier1Models cfg); [congruence | cbn; lia]).
  assert (0 < length (tier2Models cfg))%nat by (destruct (tier2Models cfg); [congruence | cbn; lia]).
  repeat case_decide; intros [= <- <-]; try lia;
    (rewrite advanceFailover_spec by (unfold maxTier; lia));
    unfold lastIndex, tierProviders, len; cbn;
    zcases; try lia; unfold Tier; f_equal; lia.
Qed.

Section ConsecutiveFailures.

Variable cfg : config.
Variable ncfg : nopecha_config.
Variable w : world.
Variables img key : string.

Hypothesis tier1_nonempty : tier1Models cfg <> [].
Hypothesis tier2_nonempty : tier2Models cfg <> [].

Variable N : nat.
Hypothesis N_small : (N < length (providerOrder cfg))%nat.
Hypothesis first_N_fail : forall k, (k < N)%nat -> failsAt cfg ncfg w img key k.

Lemma slot_tier j t i :
  providerOrder cfg !! j = Some (t, i) -> 1 <= t <= 3.
Proof.
  rewrite providerOrder_lookup. repeat case_decide; intros [= <- <-]; lia.
Qed.

Lemma solveLoop_from_slot fuel :
  forall j lastError stamp t i,
    providerOrder cfg !! j = Some (t, i) ->
    (length (providerOrder cfg) <= fuel + j)%nat ->
    exists r s' m,
      solveLoop cfg ncfg fuel w img key j lastError (Tier t i stamp)
        = Some (r, s', take m (drop j (providerOrder cfg)))
      /\ (j <= N -> N < j + m)%nat.
Proof.
  induction fuel as [|fuel IH]; intros j lastError stamp t i Hslot Hfuel.
  { apply lookup_lt_Some in Hslot. lia. }
  pose proof (slot_tier _ _ _ Hslot) as Ht.
  pose proof (drop_S _ _ _ Hslot) as Hdrop.
  cbn [solveLoop]. change (currentTier (Tier t i stamp)) with t.
  change (modelIndex (Tier t i stamp)) with i.
  destruct (Z.leb_spec t 3) as [_|]; [|lia].
  destruct (decide (j < N)%nat) as [Hlt|Hge].
  - destruct (first_N_fail j Hlt t i stamp Hslot) as (e & -> & ->).
    rewrite (providerOrder_next cfg j t i _ _ stamp
               tier1_nonempty tier2_nonempty Hslot).
    destruct (providerOrder cfg !! S j) as [[t' i']|] eqn:Hnext.
    + destruct (IH (S j) (Some e) (Some (clock w j)) t' i' Hnext) as (r & s' & m & -> & Hm);
        [lia|].
      exists r, s', (S m). split; [|lia].
      rewrite Hdrop. reflexivity.
    + apply lookup_ge_None in Hnext. lia.
  - exists
      (match attemptProvider cfg ncfg (net w j) img key (Tier t i stamp) with
       | Some (Return v) => Return (Some v)
       | Some (Throw e) =>
           if shouldFailover cfg (statusCode e) e then
             match providerOrder cfg !! S j with
             | Some (t', i') =>
                 match solveLoop cfg ncfg fuel w img key (S j) (Some e)
                         (Tier t' i' (Some (clock w j))) with
                 | Some (r, _, _) => r
                 | None => Throw e
                 end
             | None => Throw e
             end
           else Throw e
       | None => Return None
       end).
    destruct (attemptProvider cfg ncfg (net w j) img key (Tier t i stamp))
      as [[v|e]|] eqn:Hatt.
    + exists (Tier t i stamp), 1%nat. split; [|lia]. rewrite Hdrop. reflexivity.
    + destruct (shouldFailover cfg (statusCode e) e).
      * rewrite (providerOrder_next cfg j t i _ _ stamp
                   tier1_nonempty tier2_nonempty Hslot).
        destruct (providerOrder cfg !! S j) as [[t' i']|] eqn:Hnext.
        -- destruct (IH (S j) (Some e) (Some (clock w j)) t' i' Hnext)
             as (r & s' & m & -> & Hm); [lia|].
           exists s', (S m). split; [|lia]. rewrite Hdrop. reflexivity.
        -- exists (Tier 4 0 (Some (clock w j))), 1%nat. split; [|lia].
           rewrite Hdrop. destruct fuel; reflexivity.
      * exists (Tier t i stamp), 1%nat. split; [|lia]. rewrite Hdrop. reflexivity.
    + exfalso. unfold attemptProvider in Hatt. cbn in Hatt.
      revert Hatt. zcases; try discriminate; lia.
Qed.

Lemma solveWithFailover_prefix fuel :
  (length (providerOrder cfg) <= fuel)%nat ->
  exists r s' rest,
    solveWithFailover cfg ncfg fuel w img key initialState
      = Some (r, s', (take (S N) (providerOrder cfg) ++ rest)%list).
Proof.
  intros Hfuel.
  assert (Hslot : providerOrder cfg !! 0%nat = Some (1, 0)).
  { rewrite providerOrder_lookup.
    destruct (tier1Models cfg); [congruence|]. reflexivity. }
  destruct (solveLoop_from_slot fuel 0 None None 1 0 Hslot) as (r & s' & m & Hrun & Hm);
    [lia|].
  exists r, s', (drop (S N) (take m (providerOrder cfg))).
  unfold solveWithFailover. change initialState with (Tier 1 0 None).
  rewrite Hrun. f_equal. f_equal. cbn [drop].
  replace (take (S N) (providerOrder cfg))
    with (take (S N) (take m (providerOrder cfg)))
    by (rewrite take_take; f_equal; lia).
  symmetry. apply take_drop.
Qed.

End ConsecutiveFailures.

(** ** Retryability *)

(** C3. A chat request aborted by the per-call timer is rethrown by
    [executeOpenRouterRequest] as a plain [Error] with status 408, which
    [shouldFailover] does not accept: the request fails with the timeout
    on the provider it started at, the machine does not advance, and no
    other provider is tried. The poll timeout of the NoPeCHA adapter is
    rejected by [shouldFailover] in the same way. *)
Theorem C3_timeout_is_not_retried :
  (forall img model,
     executeOpenRouterRequest FAILOVER_CONFIG timedOut img model "sk"
     = Throw timeoutError) /\
  shouldFailover FAILOVER_CONFIG (statusCode timeoutError) timeoutError = false /\
  (forall fuel now img,
     solveWithFailover FAILOVER_CONFIG NOPECHA_CONFIG (S fuel)
       (steadyWorld timedOut now) img "sk" initialState
     = Some (Throw timeoutError, initialState, [(1, 0)])) /\
  (forall fuel now0 now img,
     handleCaptchaSolve FAILOVER_CONFIG NOPECHA_CONFIG (S fuel) now0
       (StorageRead (Some "sk")) (steadyWorld timedOut now) img initialState
     = Some (ErrorResponse "Timeout after 35000ms"
               (StatusTier1 "google/gemini-2.0-flash-exp:free"),
             initialState, [(1, 0)])) /\
  shouldFailover FAILOVER_CONFIG (Some 408)
    (newErrorWithStatus "NoPeCHA: Timeout waiting for result" 408) = false.
Proof.
  assert (Hloop : forall fuel now img,
     solveWithFailover FAILOVER_CONFIG NOPECHA_CONFIG (S fuel)
       (steadyWorld timedOut now) img "sk" initialState
     = Some (Throw timeoutError, initialState, [(1, 0)])).
  { intros fuel now img. reflexivity. }
  split; [intros; reflexivity|].
  split; [vm_compute; reflexivity|].
  split; [exact Hloop|].
  split; [|vm_compute; reflexivity].
  intros fuel now0 now img. unfold handleCaptchaSolve.
  change (checkCooldownRecovery FAILOVER_CONFIG now0 initialState) with initialState.
  cbn [getApiKey truthyString String.eqb negb]. rewrite Hloop. reflexivity.
Qed.

(** A non-retryable error ends the loop where it stands. *)
Lemma solveLoop_nonretryable cfg ncfg fuel w img key k lastError s e :
  currentTier s <= 3 ->
  attemptProvider cfg ncfg (net w k) img key s = Some (Throw e) ->
  shouldFailover cfg (statusCode e) e = false ->
  solveLoop cfg ncfg (S fuel) w img key k lastError s
  = Some (Throw e, s, [position s]).
Proof.
  intros Hle Hatt Hno. cbn [solveLoop].
  destruct (Z.leb_spec (currentTier s) 3); [|lia].
  rewrite Hatt, Hno. reflexivity.
Qed.

(** In [runSolve] an error reply always comes with a move of the tier. *)
Lemma settle_error_moves h r s resp s' :
  Surgeon.settle h r s = (resp, s') -> isError resp ->
  Surgeon.currentTier s' = Z.rem (Surgeon.currentTier s) 3 + 1
  /\ Surgeon.currentTier s' <> Surgeon.currentTier s.
Proof.
  unfold Surgeon.settle. destruct r as [v|e]; intros [= <- <-] [msg Hmsg];
    [discriminate|].
  cbn. split; [reflexivity|].
  generalize (Surgeon.currentTier s). intros t.
  pose proof (Z.rem_bound_abs t 3 ltac:(lia)) as Hb.
  assert (Hcase : t < -3 \/ 3 < t \/ t = -3 \/ t = -2 \/ t = -1 \/ t = 0
                  \/ t = 1 \/ t = 2 \/ t = 3) by lia.
  destruct Hcase as [H | [H | Hsmall]]; [lia | lia |].
  repeat (destruct Hsmall as [-> | Hsmall]; [vm_compute; discriminate|]).
  subst t. vm_compute. discriminate.
Qed.

Lemma failingRequest_cache scfg s s' m :
  Surgeon.cache s' = Surgeon.cache s ->
  failingRequest scfg s m -> failingRequest scfg s' m.
Proof. intros Hc (img & Hm & Hmiss & Hfail). exists img. rewrite Hc. auto. Qed.

Lemma backendOrder_sorted scfg :
  StronglySorted lexlt (List.map place (backendOrder scfg)).
Proof.
  unfold backendOrder. destruct (String.eqb (Surgeon.nopechaKey scfg) "");
    repeat constructor; unfold lexlt; cbn; lia.
Qed.

Lemma backendOrder_length scfg : (0 < length (backendOrder scfg))%nat.
Proof.
  unfold backendOrder. destruct (String.eqb (Surgeon.nopechaKey scfg) ""); cbn; lia.
Qed.

(** Within one request the backends are invoked in the order of
    [backendOrder], from the first of the tier, each after the failure of
    the one before. *)
Lemma runSolve_prefix scfg n img h s :
  1 <= Surgeon.currentTier s <= 3 ->
  exists k,
    (1 <= k)%nat
    /\ snd (Surgeon.runSolve scfg n img h s)
       = take k (drop (firstOfTier scfg (Surgeon.currentTier s)) (backendOrder scfg))
    /\ forall j p,
         (S j < length (snd (Surgeon.runSolve scfg n img h s)))%nat ->
         snd (Surgeon.runSolve scfg n img h s) !! j = Some p ->
         exists e, resultOf scfg n img p = Throw e.
Proof.
  intros Ht. unfold Surgeon.runSolve, Surgeon.solveTier2, firstOfTier, backendOrder.
  destruct s as [t pending c stored]. cbn [Surgeon.currentTier] in Ht |- *.
  assert (Hcases : t = 1 \/ t = 2 \/ t = 3) by lia.
  destruct (String.eqb (Surgeon.nopechaKey scfg) "");
    destruct Hcases as [-> | [-> | ->]]; cbn [Z.eqb Pos.eqb];
    try destruct (Surgeon.solveOpenRouter scfg n img 0) as [v0|e0] eqn:H0;
    cbn [fst snd];
    try (exists 1%nat; split; [lia|]; split; [reflexivity|];
         intros j p Hj; cbn in Hj; lia);
    exists 2%nat; (split; [lia|]); (split; [reflexivity|]);
    intros [|j] p Hj Hp; cbn in Hj; try lia;
    injection Hp as <-; exists e0; exact H0.
Qed.

(** One failing request: it answers with an error, invokes the backends
    of its tier in the order of [backendOrder], beginning with the first
    of the tier, and leaves the worker on the tier whose first backend
    comes next in the order, taken in a cycle. *)
Lemma onMessage_failing scfg n req s :
  1 <= Surgeon.currentTier s <= 3 ->
  failingRequest scfg s (req, n) ->
  exists msg s' g,
    Surgeon.onMessage scfg n req s = (Some (Surgeon.ErrorResponse msg), s', g)
    /\ Surgeon.cache s' = Surgeon.cache s
    /\ 1 <= Surgeon.currentTier s' <= 3
    /\ g <> []
    /\ (forall i p, g !! i = Some p ->
          backendOrder scfg
            !! ((firstOfTier scfg (Surgeon.currentTier s) + i)
                  mod length (backendOrder scfg))%nat
          = Some p)
    /\ firstOfTier scfg (Surgeon.currentTier s')
       = ((firstOfTier scfg (Surgeon.currentTier s) + length g)
            mod length (backendOrder scfg))%nat.
Proof.
  intros Ht (img & Hreq & Hmiss & (e1 & H1) & (e2 & H2) & (e3 & H3) & (e4 & H4)).
  cbn in Hreq, Hmiss, H1, H2, H3, H4. subst req.
  unfold Surgeon.onMessage. rewrite Hmiss.
  unfold Surgeon.runSolve, Surgeon.solveTier2, firstOfTier, backendOrder.
  destruct s as [t pending c stored].
  cbn [Surgeon.currentTier Surgeon.cache] in Ht |- *.
  assert (Hcases : t = 1 \/ t = 2 \/ t = 3) by lia.
  destruct (String.eqb (Surgeon.nopechaKey scfg) "");
    destruct Hcases as [-> | [-> | ->]]; cbn [Z.eqb Pos.eqb];
    rewrite ?H1, ?H2, ?H3, ?H4; cbn [fst snd]; rewrite ?H3;
    eexists _, _, _; (split; [reflexivity|]);
    (split; [reflexivity|]); (split; [vm_compute; split; discriminate|]);
    (split; [discriminate|]);
    (split; [|vm_compute; reflexivity]);
    intros [|[|[|i]]] p Hp; vm_compute in Hp; try discriminate;
    injection Hp as <-; vm_compute; reflexivity.
Qed.

(** A session of failing requests walks the order of the backends in a
    cycle, from the first backend of the tier it starts on. *)
Lemma session_failing scfg msgs :
  forall s,
    1 <= Surgeon.currentTier s <= 3 ->
    Forall (failingRequest scfg s) msgs ->
    Forall (fun out => exists msg, fst out = Some (Surgeon.ErrorResponse msg))
      (fst (Surgeon.session scfg msgs s))
    /\ (length msgs <= length (invokedIn (fst (Surgeon.session scfg msgs s))))%nat
    /\ forall i p,
         invokedIn (fst (Surgeon.session scfg msgs s)) !! i = Some p ->
         backendOrder scfg
           !! ((firstOfTier scfg (Surgeon.currentTier s) + i)
                 mod length (backendOrder scfg))%nat
         = Some p.
Proof.
  induction msgs as [|[req n] rest IH]; intros s Ht Hall.
  { cbn. split; [constructor|]. split; [lia|]. intros i p Hi. discriminate. }
  apply Forall_cons in Hall as [Hhere Hrest].
  destruct (onMessage_failing scfg n req s Ht Hhere)
    as (msg & s' & g & Hstep & Hcache & Ht' & Hg & Hwalk & Hnext).
  assert (Hrest' : Forall (failingRequest scfg s') rest).
  { eapply Forall_impl; [exact Hrest|].
    intros m. apply failingRequest_cache, Hcache. }
  specialize (IH s' Ht' Hrest').
  destruct IH as (IHerr & IHlen & IHwalk).
  cbn [Surgeon.session]. rewrite Hstep.
  destruct (Surgeon.session scfg rest s') as [outs s2]. cbn [fst snd] in *.
  unfold invokedIn in *. cbn [List.map List.concat snd].
  split; [constructor; [exists msg; reflexivity | exact IHerr]|].
  split.
  { rewrite length_app. destruct g; [contradiction|]. cbn. lia. }
  intros i p Hi.
  destruct (decide (i < length g)%nat) as [Hlt|Hge].
  - rewrite lookup_app_l in Hi by exact Hlt. apply Hwalk, Hi.
  - rewrite lookup_app_r in Hi by lia.
    specialize (IHwalk _ _ Hi). rewrite Hnext in IHwalk.
    rewrite Nat.Div0.add_mod_idemp_l in IHwalk.
    replace (firstOfTier scfg (Surgeon.currentTier s) + i)%nat
      with (firstOfTier scfg (Surgeon.currentTier s) + length g + (i - length g))%nat
      by lia.
    exact IHwalk.
Qed.

(** C4. After N consecutive retryable failures, N less than the number of
    providers, a request that started on [Tier(1, 0)] has invoked exactly
    the first N+1 providers of the tier-then-index order, one after the
    other; and the providers invoked by any run, from any state, come in
    strictly increasing tier-then-index order, hence without repetition
    and with every provider of a tier before any provider of the next.
    The cache-bearing worker, with or without a NoPeCHA key, keeps the
    order of its backends within a request (from the first backend of
    its tier, each after the failure of the one before) and across its
    requests: in a session of requests
    on which every backend fails, every request answers with an error and
    the backends invoked, taken together, follow the tier-then-index order
    from the first backend of the tier the session started on, beginning
    again after the last; from tier 1 these are the backends in order,
    none repeated before all were tried. *)
Theorem C4_visit_order cfg ncfg scfg w img key N :
  tier1Models cfg <> [] -> tier2Models cfg <> [] ->
  (N < length (providerOrder cfg))%nat ->
  (forall k, (k < N)%nat -> failsAt cfg ncfg w img key k) ->
  (forall fuel, (length (providerOrder cfg) <= fuel)%nat ->
     exists r s' rest,
       solveWithFailover cfg ncfg fuel w img key initialState
         = Some (r, s', (take (S N) (providerOrder cfg) ++ rest)%list)) /\
  (forall fuel k lastError s r s' visited,
     solveLoop cfg ncfg fuel w img key k lastError s = Some (r, s', visited) ->
     StronglySorted lexlt visited /\ NoDup visited /\
     Forall (fun p => p = position s \/ lexlt (position s) p) visited) /\
  (forall n simg h s,
     1 <= Surgeon.currentTier s <= 3 ->
     exists m,
       (1 <= m)%nat
       /\ snd (Surgeon.runSolve scfg n simg h s)
          = take m (drop (firstOfTier scfg (Surgeon.currentTier s))
                      (backendOrder scfg))
       /\ forall j p,
            (S j < length (snd (Surgeon.runSolve scfg n simg h s)))%nat ->
            snd (Surgeon.runSolve scfg n simg h s) !! j = Some p ->
            exists e, resultOf scfg n simg p = Throw e) /\
  (forall msgs s,
     1 <= Surgeon.currentTier s <= 3 ->
     Forall (failingRequest scfg s) msgs ->
     Forall (fun out => exists msg, fst out = Some (Surgeon.ErrorResponse msg))
       (fst (Surgeon.session scfg msgs s))
     /\ (length msgs <= length (invokedIn (fst (Surgeon.session scfg msgs s))))%nat
     /\ (forall i p,
           invokedIn (fst (Surgeon.session scfg msgs s)) !! i = Some p ->
           backendOrder scfg
             !! ((firstOfTier scfg (Surgeon.currentTier s) + i)
                   mod length (backendOrder scfg))%nat
           = Some p)
     /\ (Surgeon.currentTier s = 1 ->
         forall i p, (i < length (backendOrder scfg))%nat ->
           invokedIn (fst (Surgeon.session scfg msgs s)) !! i = Some p ->
           backendOrder scfg !! i = Some p)) /\
  StronglySorted lexlt (List.map place (backendOrder scfg)).
Proof.
  intros Hne1 Hne2 HN Hfail. split; [|split; [|split; [|split]]].
  - intros fuel Hfuel.
    exact (solveWithFailover_prefix cfg ncfg w img key Hne1 Hne2 N HN Hfail fuel Hfuel).
  - intros fuel k lastError s r s' visited Hrun.
    destruct (solveLoop_sorted cfg ncfg fuel w img key _ _ _ _ _ _ Hrun) as [Hs Hall].
    split; [exact Hs|]. split; [apply StronglySorted_lexlt_NoDup, Hs | exact Hall].
  - intros n simg h s. apply runSolve_prefix.
  - intros msgs s Ht Hall.
    destruct (session_failing scfg msgs s Ht Hall) as (Herr & Hlen & Hwalk).
    split; [exact Herr|]. split; [exact Hlen|]. split; [exact Hwalk|].
    intros Hone i p Hi Hlook. specialize (Hwalk i p Hlook).
    rewrite Hone in Hwalk.
    replace (firstOfTier scfg 1) with 0%nat in Hwalk
      by (unfold firstOfTier, backendOrder;
          destruct (String.eqb (Surgeon.nopechaKey scfg) ""); reflexivity).
    rewrite Nat.add_0_l, Nat.mod_small in Hwalk by exact Hi. exact Hwalk.
  - apply backendOrder_sorted.
Qed.

Lemma C4_visit_order_witness :
  (exists r s' rest,
     solveWithFailover FAILOVER_CONFIG NOPECHA_CONFIG 5
       (steadyWorld rateLimited 1000) "img" "sk" initialState
     = Some (r, s', ([(1, 0); (1, 1); (2, 0); (2, 1); (3, 0)] ++ rest)%list)) /\
  invokedIn
    (fst (Surgeon.session Surgeon.CONFIG
            [(Surgeon.SolveCaptcha "a", refusing 503);
             (Surgeon.SolveCaptcha "b", refusing 503);
             (Surgeon.SolveCaptcha "c", refusing 503)]
            (Surgeon.startup None)))
  = [Surgeon.OpenRouter 0; Surgeon.OpenRouter 1; Surgeon.Mistral;
     Surgeon.OpenRouter 0; Surgeon.OpenRouter 1] /\
  forall i p,
    [Surgeon.OpenRouter 0; Surgeon.OpenRouter 1; Surgeon.Mistral;
     Surgeon.OpenRouter 0; Surgeon.OpenRouter 1] !! i = Some p ->
    backendOrder Surgeon.CONFIG !! (i mod 3)%nat = Some p.
Proof.
  assert (Hfail : forall k, (k < 4)%nat ->
            failsAt FAILOVER_CONFIG NOPECHA_CONFIG
              (steadyWorld rateLimited 1000) "img" "sk" k).
  { intros k Hk t i stamp Hslot.
    destruct k as [|[|[|[|k]]]]; [| | | |lia];
      vm_compute in Hslot; injection Hslot as <- <-;
      eexists; split; vm_compute; reflexivity. }
  destruct (C4_visit_order FAILOVER_CONFIG NOPECHA_CONFIG Surgeon.CONFIG
              (steadyWorld rateLimited 1000) "img" "sk" 4)
    as (Hrun & _ & _ & Hsession & _).
  - discriminate.
  - discriminate.
  - vm_compute. lia.
  - exact Hfail.
  - split; [apply (Hrun 5%nat); vm_compute; lia|].
    split; [vm_compute; reflexivity|].
    destruct (Hsession
                [(Surgeon.SolveCaptcha "a", refusing 503);
                 (Surgeon.SolveCaptcha "b", refusing 503);
                 (Surgeon.SolveCaptcha "c", refusing 503)]
                (Surgeon.startup None)) as (_ & _ & Hwalk & _).
    + cbn. lia.
    + repeat constructor; eexists; (split; [reflexivity|]);
        (split; [vm_compute; reflexivity|]);
        repeat split; eexists; vm_compute; reflexivity.
    + exact Hwalk.
Defined.

(** C5, as stated, fails on [runSolve]: with the configuration as shipped
    (no NoPeCHA key) a request on tier 1 does not fail; it moves the
    worker to tier 2 and invokes OpenRouter. *)
Lemma C5_runSolve_counterexample : ~ failsFastOnMissingCredential.
Proof.
  intros Hclaim.
  specialize (Hclaim Surgeon.CONFIG (answering "AB12") "img"
                (Surgeon.startup None) eq_refl eq_refl).
  vm_compute in Hclaim. destruct Hclaim as (Hresp & _). discriminate.
Qed.

(** C5, amended. In [solveWithFailover] an error that [shouldFailover]
    rejects (the 401 of a missing API key is one) is rethrown at once, with
    the state as it was and no further provider invoked, and a key missing
    from the settings fails the request before any provider is invoked. In
    [runSolve] there is no such class of errors: a missing NoPeCHA key on
    tier 1 continues as tier 2; a request on which every backend fails is
    answered with an error; and every error reply comes with a move of the
    tier, to [(tier mod 3) + 1] of the tier the request ran on, which for
    a request that arrived on tier 1 without a NoPeCHA key is tier 2, so
    that such a request leaves the worker on tier 3. *)
Theorem C5_nonretryable_error cfg ncfg scfg :
  (forall fuel w img key k lastError s e,
     currentTier s <= 3 ->
     attemptProvider cfg ncfg (net w k) img key s = Some (Throw e) ->
     shouldFailover cfg (statusCode e) e = false ->
     solveLoop cfg ncfg (S fuel) w img key k lastError s
     = Some (Throw e, s, [position s])) /\
  (forall n img model,
     executeOpenRouterRequest FAILOVER_CONFIG n img model "" = Throw missingKeyError
     /\ shouldFailover FAILOVER_CONFIG (statusCode missingKeyError) missingKeyError
        = false) /\
  (forall fuel now stored w img s e,
     getApiKey stored = Throw e ->
     handleCaptchaSolve cfg ncfg fuel now stored w img s
     = Some (ErrorResponse (message e)
               (getStatusIndicator cfg (checkCooldownRecovery cfg now s)),
             checkCooldownRecovery cfg now s, [])) /\
  (forall n img h s,
     Surgeon.currentTier s = 1 -> Surgeon.nopechaKey scfg = "" ->
     Surgeon.runSolve scfg n img h s
     = Surgeon.runSolve scfg n img h (Surgeon.withTier 2 s)) /\
  (forall n img h s,
     backendsFail scfg n img ->
     isError (fst (fst (Surgeon.runSolve scfg n img h s)))) /\
  (forall n img h s resp s' invoked,
     Surgeon.runSolve scfg n img h s = (resp, s', invoked) ->
     isError resp ->
     Surgeon.currentTier s'
     = (if (Surgeon.currentTier s =? 1) && String.eqb (Surgeon.nopechaKey scfg) ""
        then 3 else Z.rem (Surgeon.currentTier s) 3 + 1)
     /\ Surgeon.currentTier s' <> Surgeon.currentTier s).
Proof.
  split; [intros; apply solveLoop_nonretryable; assumption|].
  split; [intros; split; [reflexivity | vm_compute; reflexivity]|].
  split.
  { intros fuel now stored w img s e Hkey. unfold handleCaptchaSolve.
    rewrite Hkey. reflexivity. }
  split.
  { intros n img h s Htier Hkey. unfold Surgeon.runSolve.
    rewrite Htier, Hkey. reflexivity. }
  split.
  { intros n img h s ((e1 & H1) & (e2 & H2) & (e3 & H3) & (e4 & H4)).
    unfold Surgeon.runSolve, Surgeon.solveTier2. rewrite H1, H2, H3, H4.
    destruct (Surgeon.currentTier s =? 1);
      [destruct (String.eqb (Surgeon.nopechaKey scfg) "")
      |destruct (Surgeon.currentTier s =? 2)];
      eexists; reflexivity. }
  intros n img h s resp s' invoked Hrun Herr.
  unfold Surgeon.runSolve in Hrun.
  destruct (Z.eqb_spec (Surgeon.currentTier s) 1) as [H1|H1]; cbn [andb].
  - destruct (String.eqb (Surgeon.nopechaKey scfg) "").
    + injection Hrun as Hsettle _.
      destruct (settle_error_moves _ _ _ _ _ Hsettle Herr) as [-> _].
      rewrite H1. vm_compute. split; [reflexivity | discriminate].
    + injection Hrun as Hsettle _.
      apply (settle_error_moves _ _ _ _ _ Hsettle Herr).
  - destruct (Surgeon.currentTier s =? 2); injection Hrun as Hsettle _;
      apply (settle_error_moves _ _ _ _ _ Hsettle Herr).
Qed.

Lemma C5_nonretryable_error_witness :
  solveLoop FAILOVER_CONFIG NOPECHA_CONFIG 1
    (steadyWorld rateLimited 1000) "img" "" 0 None (Tier 2 1 (Some 7))
  = Some (Throw missingKeyError, Tier 2 1 (Some 7), [(2, 1)])
  /\ Surgeon.currentTier
       (snd (fst (Surgeon.runSolve Surgeon.CONFIG (refusing 503) "img" "h"
                    (Surgeon.startup None))))
     = 3.
Proof.
  destruct (C5_nonretryable_error FAILOVER_CONFIG NOPECHA_CONFIG Surgeon.CONFIG)
    as (Hloop & _ & _ & _ & _ & Hmove).
  split.
  - apply (Hloop 0%nat (steadyWorld rateLimited 1000) "img" "" 0%nat None
             (Tier 2 1 (Some 7)) missingKeyError).
    + vm_compute. discriminate.
    + vm_compute. reflexivity.
    + vm_compute. reflexivity.
  - apply (Hmove (refusing 503) "img" "h" (Surgeon.startup None)
             (Surgeon.ErrorResponse "OPENROUTER_503")
             (snd (fst (Surgeon.runSolve Surgeon.CONFIG (refusing 503) "img" "h"
                          (Surgeon.startup None))))
             [Surgeon.OpenRouter 0; Surgeon.OpenRouter 1]).
    + vm_compute. reflexivity.
    + eexists. reflexivity.
Defined.

(** ** The submit/poll adapter *)

(** An iteration of the loop ends in the reference error of [sleep],
    before its poll. *)
Lemma pollLoop_throws ncfg n remaining attempt :
  pollLoop ncfg n (S remaining) attempt = (Throw sleepUndefined, []).
Proof. reflexivity. Qed.

(** The loop returns nothing, sleeps never and polls nothing. *)
Lemma pollLoop_fails ncfg n remaining attempt :
  (exists e, fst (pollLoop ncfg n remaining attempt) = Throw e)
  /\ snd (pollLoop ncfg n remaining attempt) = [].
Proof. destruct remaining; split; try reflexivity; eexists; reflexivity. Qed.

Lemma solveCaptchaWithNoPeCHA_fails ncfg n img :
  (exists e, fst (solveCaptchaWithNoPeCHA ncfg n img) = Throw e)
  /\ snd (solveCaptchaWithNoPeCHA ncfg n img) = [].
Proof.
  unfold solveCaptchaWithNoPeCHA.
  destruct (String.eqb img ""); [split; [eexists|]; reflexivity|].
  destruct (nopechaSubmit n img) as [e | httpStatus body jobId];
    [split; [eexists|]; reflexivity|].
  destruct (negb (ok httpStatus)); [split; [eexists|]; reflexivity|].
  destruct (negb (truthyString jobId)); [split; [eexists|]; reflexivity|].
  apply pollLoop_fails.
Qed.

(** Once the job is accepted the adapter is in its loop. *)
Lemma solveCaptchaWithNoPeCHA_accepted ncfg n img :
  img <> "" -> accepted n img ->
  solveCaptchaWithNoPeCHA ncfg n img
  = pollLoop ncfg n (Z.to_nat (maxPollAttempts ncfg)) 1.
Proof.
  intros Himg (httpStatus & body & jobId & Hsubmit & Hok & Hjob).
  unfold solveCaptchaWithNoPeCHA.
  destruct (String.eqb_spec img ""); [contradiction|].
  rewrite Hsubmit, Hok. cbn [negb truthyString].
  destruct (String.eqb_spec jobId ""); [contradiction|]. reflexivity.
Qed.

(** [shouldFailover] rejects the reference error, whatever the trigger
    codes. *)
Lemma sleepUndefined_rejected cfg :
  shouldFailover cfg (statusCode sleepUndefined) sleepUndefined = false.
Proof. reflexivity. Qed.

(** C7. The polling loop never polls. Each iteration begins with a call
    of [sleep], which the worker does not define: once the job is accepted
    the adapter throws the reference error before its first poll request,
    whatever the polls would answer. No reply with status 202 is ever
    read, and the 408 time-out error is reached only under a configuration
    that allows no attempt at all. [shouldFailover] rejects the reference
    error. *)
Theorem C7_poll_loop_throws_before_first_poll cfg ncfg n img :
  img <> "" -> accepted n img ->
  (1 <= maxPollAttempts ncfg ->
     solveCaptchaWithNoPeCHA ncfg n img = (Throw sleepUndefined, [])) /\
  (maxPollAttempts ncfg < 1 ->
     solveCaptchaWithNoPeCHA ncfg n img = (Throw pollTimeoutError, [])) /\
  name sleepUndefined = "ReferenceError" /\
  message sleepUndefined = "sleep is not defined" /\
  shouldFailover cfg (statusCode sleepUndefined) sleepUndefined = false.
Proof.
  intros Himg Hacc. rewrite (solveCaptchaWithNoPeCHA_accepted ncfg n img Himg Hacc).
  split; [|split; [|split; [|split]]]; try reflexivity.
  - intros Hmax. destruct (Z.to_nat (maxPollAttempts ncfg)) eqn:Hn; [lia|].
    apply pollLoop_throws.
  - intros Hmax. replace (Z.to_nat (maxPollAttempts ncfg)) with 0%nat by lia.
    reflexivity.
Qed.

Lemma C7_poll_loop_throws_before_first_poll_witness :
  solveCaptchaWithNoPeCHA NOPECHA_CONFIG (replying "AB12") "img"
  = (Throw sleepUndefined, []).
Proof.
  destruct (C7_poll_loop_throws_before_first_poll FAILOVER_CONFIG NOPECHA_CONFIG
              (replying "AB12") "img") as (Hthrow & _).
  - discriminate.
  - exists 200, "", "job-1". split; [reflexivity|]. split; [reflexivity | discriminate].
  - apply Hthrow. cbn. lia.
Defined.

(** ** Parsing the reply of a chat provider *)

Lemma isWhite_not_isAlnum c : isWhite c = true -> isAlnum c = false.
Proof.
  unfold isWhite, isAlnum. generalize (charCode c). intros n.
  zcases; cbn; try discriminate; try reflexivity; lia.
Qed.

Lemma isQuoteOrSpace_not_isAlnum c :
  Surgeon.isQuoteOrSpace c = true -> isAlnum c = false.
Proof.
  unfold Surgeon.isQuoteOrSpace, isAlnum. generalize (charCode c). intros n.
  zcases; cbn; try discriminate; try reflexivity; lia.
Qed.

Lemma filterString_trimStart s :
  filterString isAlnum (trimStart s) = filterString isAlnum s.
Proof.
  induction s as [|c rest IH]; [reflexivity|]. cbn.
  destruct (isWhite c) eqn:Hw; [|reflexivity].
  rewrite (isWhite_not_isAlnum c Hw). exact IH.
Qed.

Lemma filterString_trimEnd s :
  filterString isAlnum (trimEnd s) = filterString isAlnum s.
Proof.
  induction s as [|c rest IH]; [reflexivity|]. cbn [trimEnd].
  destruct (trimEnd rest) as [|k kept] eqn:Hkept.
  - cbn in IH. cbn [filterString]. rewrite <- IH.
    destruct (isWhite c) eqn:Hw.
    + rewrite (isWhite_not_isAlnum c Hw). reflexivity.
    + cbn. reflexivity.
  - cbn [filterString] in *. rewrite IH. reflexivity.
Qed.

Lemma filterString_trim s :
  filterString isAlnum (trim s) = filterString isAlnum s.
Proof. unfold trim. rewrite filterString_trimEnd. apply filterString_trimStart. Qed.

(** The text [cleanCaptchaText] accepts or rejects, by the length of the
    alphanumeric characters of the raw text. *)
Lemma cleanCaptchaText_spec raw :
  cleanCaptchaText raw =
    if (3 <=? Z.of_nat (String.length (filterString isAlnum raw)))
       && (Z.of_nat (String.length (filterString isAlnum raw)) <=? 8)
    then Return (filterString isAlnum raw)
    else Throw (newError ("Failed to extract valid CAPTCHA from: " ++ dquote
                            ++ substring 0 50 (trim raw) ++ "..." ++ dquote)).
Proof. unfold cleanCaptchaText. rewrite filterString_trim. reflexivity. Qed.

(** The error of a failed parse is one [shouldFailover] accepts, whatever
    the trigger codes. *)
Lemma parse_error_retryable cfg tail :
  shouldFailover cfg None
    (newError ("Failed to extract valid CAPTCHA from: " ++ tail)) = true.
Proof.
  unfold shouldFailover. cbn [includesCode newError name message String.eqb].
  destruct (includes "empty" _); [reflexivity|].
  reflexivity.
Qed.

Lemma alnumRun_length n s : (String.length (Surgeon.alnumRun n s) <= n)%nat.
Proof.
  revert s. induction n as [|n IH]; intros [|c rest]; cbn; try lia.
  destruct (isAlnum c); cbn; [|lia]. specialize (IH rest). lia.
Qed.

Lemma alnumRun_filter n s :
  (String.length (Surgeon.alnumRun n s)
   <= String.length (filterString isAlnum s))%nat.
Proof.
  revert s. induction n as [|n IH]; intros [|c rest]; cbn; try lia.
  destruct (isAlnum c); cbn; [|lia]. specialize (IH rest). lia.
Qed.

Lemma filterString_length_cons c rest :
  (String.length (filterString isAlnum rest)
   <= String.length (filterString isAlnum (String c rest)))%nat.
Proof. cbn. destruct (isAlnum c); cbn; lia. Qed.

Lemma matchToken_Some s m :
  Surgeon.matchToken s = Some m ->
  (3 <= String.length m <= 8)%nat /\
  (String.length m <= String.length (filterString isAlnum s))%nat.
Proof.
  revert m. induction s as [|c rest IH]; intros m; [discriminate|].
  cbn [Surgeon.matchToken].
  destruct (Z.leb_spec 3 (Z.of_nat (String.length (Surgeon.alnumRun 8 (String c rest)))))
    as [Hlen|Hlen].
  - intros Heq.
    assert (Hm : m = Surgeon.alnumRun 8 (String c rest)) by congruence.
    rewrite Hm. split.
    + split; [lia | apply alnumRun_length].
    + apply alnumRun_filter.
  - intros Hm. destruct (IH m Hm) as [Hb Hf]. split; [exact Hb|].
    pose proof (filterString_length_cons c rest). lia.
Qed.

Lemma alnumRun_alnum n s :
  filterString isAlnum (Surgeon.alnumRun n s) = Surgeon.alnumRun n s.
Proof.
  revert s. induction n as [|n IH]; intros [|c rest]; cbn; try reflexivity.
  destruct (isAlnum c) eqn:Hc; cbn; [|reflexivity]. rewrite Hc, IH. reflexivity.
Qed.

Lemma matchToken_alnum s m :
  Surgeon.matchToken s = Some m -> filterString isAlnum m = m.
Proof.
  revert m. induction s as [|c rest IH]; intros m; [discriminate|].
  cbn [Surgeon.matchToken].
  destruct (3 <=? Z.of_nat (String.length (Surgeon.alnumRun 8 (String c rest)))).
  - intros Heq.
    assert (Hm : m = Surgeon.alnumRun 8 (String c rest)) by congruence.
    rewrite Hm. apply alnumRun_alnum.
  - apply IH.
Qed.

Lemma filterString_quotes raw :
  filterString isAlnum
    (filterString (fun c => negb (Surgeon.isQuoteOrSpace c)) raw)
  = filterString isAlnum raw.
Proof.
  induction raw as [|c rest IH]; [reflexivity|]. cbn.
  destruct (Surgeon.isQuoteOrSpace c) eqn:Hq; cbn.
  - rewrite (isQuoteOrSpace_not_isAlnum c Hq). exact IH.
  - rewrite IH. reflexivity.
Qed.

(** ** The result cache *)

Lemma cleanText_nonempty raw m : Surgeon.cleanText raw = Return m -> m <> "".
Proof.
  unfold Surgeon.cleanText.
  destruct (Surgeon.matchToken _) as [m'|] eqn:Hm; [|discriminate].
  intros [= <-]. apply matchToken_Some in Hm. intros ->. cbn in Hm. lia.
Qed.

Lemma truthyString_nonempty d : truthyString (Some d) = true -> d <> "".
Proof. cbn. intros H ->. discriminate. Qed.

Lemma solveNoPeCHA_nonempty scfg n img d :
  Surgeon.solveNoPeCHA scfg n img = Return d -> d <> "".
Proof.
  unfold Surgeon.solveNoPeCHA.
  destruct (String.eqb _ _); [discriminate|].
  destruct (Surgeon.nopecha n img) as [e | st field]; [discriminate|].
  destruct (negb (Surgeon.ok st)); [discriminate|].
  destruct field as [d'|]; [|discriminate].
  destruct (truthyString (Some d')) eqn:Ht; [|discriminate].
  intros [= <-]. apply truthyString_nonempty, Ht.
Qed.

Lemma solveOpenRouter_nonempty scfg n img i d :
  Surgeon.solveOpenRouter scfg n img i = Return d -> d <> "".
Proof.
  unfold Surgeon.solveOpenRouter.
  destruct (Surgeon.openRouter n i _ img) as [e | st field]; [discriminate|].
  destruct (st =? 429); [discriminate|].
  destruct (negb (Surgeon.ok st)); [discriminate|].
  destruct field as [c|]; [|discriminate].
  destruct (truthyString (Some c)); [|discriminate].
  apply cleanText_nonempty.
Qed.

Lemma solveMistral_nonempty n img d :
  Surgeon.solveMistral n img = Return d -> d <> "".
Proof.
  unfold Surgeon.solveMistral.
  destruct (Surgeon.mistral n img) as [e | st field]; [discriminate|].
  destruct (negb (Surgeon.ok st)); [discriminate|].
  destruct field as [c|]; [|discriminate].
  apply cleanText_nonempty.
Qed.

Lemma solveTier2_nonempty scfg n img d :
  fst (Surgeon.solveTier2 scfg n img) = Return d -> d <> "".
Proof.
  unfold Surgeon.solveTier2.
  destruct (Surgeon.solveOpenRouter scfg n img 0) as [v|e] eqn:H0; cbn.
  - intros [= <-]. eapply solveOpenRouter_nonempty, H0.
  - apply solveOpenRouter_nonempty.
Qed.

Lemma solveTier2_invokes scfg n img : snd (Surgeon.solveTier2 scfg n img) <> [].
Proof.
  unfold Surgeon.solveTier2.
  destruct (Surgeon.solveOpenRouter scfg n img 0); discriminate.
Qed.

(** What [settle] leaves: the cache untouched; after a result, that
    result as the pending candidate; after an error, the pending candidate
    as it was. *)
Lemma settle_spec h r s resp s' :
  Surgeon.settle h r s = (resp, s') ->
  Surgeon.cache s' = Surgeon.cache s
  /\ Surgeon.captchaCache s' = Surgeon.captchaCache s
  /\ (forall text tag, resp = Surgeon.TextResponse text tag ->
        r = Return text /\ tag = Surgeon.TierTag (Surgeon.currentTier s)
        /\ Surgeon.lastSolved s' = Some (h, text))
  /\ (isError resp -> Surgeon.lastSolved s' = Surgeon.lastSolved s)
  /\ resp <> Surgeon.DataUrlResponse.
Proof.
  unfold Surgeon.settle. destruct r as [v|e]; intros [= <- <-]; cbn.
  - repeat split; try discriminate.
    + congruence.
    + congruence.
    + congruence.
    + intros [msg Hmsg]. discriminate.
  - repeat split; try discriminate.
Qed.

(** What a run of [runSolve] leaves. *)
Lemma runSolve_spec scfg n img h s resp s' invoked :
  Surgeon.runSolve scfg n img h s = (resp, s', invoked) ->
  Surgeon.cache s' = Surgeon.cache s
  /\ Surgeon.captchaCache s' = Surgeon.captchaCache s
  /\ invoked <> []
  /\ (forall text tag, resp = Surgeon.TextResponse text tag ->
        text <> "" /\ tag <> Surgeon.Cached
        /\ Surgeon.lastSolved s' = Some (h, text))
  /\ (isError resp -> Surgeon.lastSolved s' = Surgeon.lastSolved s).
Proof.
  unfold Surgeon.runSolve.
  destruct (Surgeon.currentTier s =? 1).
  - destruct (String.eqb (Surgeon.nopechaKey scfg) "").
    + intros [= Hsettle <-].
      destruct (settle_spec _ _ _ _ _ Hsettle) as (Hc & Hd & Htext & Herr & _).
      repeat split; try assumption.
      * apply solveTier2_invokes.
      * destruct (Htext _ _ H) as (Hr & _ & _). eapply solveTier2_nonempty, Hr.
      * destruct (Htext _ _ H) as (_ & -> & _). discriminate.
      * destruct (Htext _ _ H) as (_ & _ & Hl). exact Hl.
    + intros [= Hsettle <-].
      destruct (settle_spec _ _ _ _ _ Hsettle) as (Hc & Hd & Htext & Herr & _).
      repeat split; try assumption; try discriminate.
      * destruct (Htext _ _ H) as (Hr & _ & _). eapply solveNoPeCHA_nonempty, Hr.
      * destruct (Htext _ _ H) as (_ & -> & _). discriminate.
      * destruct (Htext _ _ H) as (_ & _ & Hl). exact Hl.
  - destruct (Surgeon.currentTier s =? 2).
    + intros [= Hsettle <-].
      destruct (settle_spec _ _ _ _ _ Hsettle) as (Hc & Hd & Htext & Herr & _).
      repeat split; try assumption.
      * apply solveTier2_invokes.
      * destruct (Htext _ _ H) as (Hr & _ & _). eapply solveTier2_nonempty, Hr.
      * destruct (Htext _ _ H) as (_ & -> & _). discriminate.
      * destruct (Htext _ _ H) as (_ & _ & Hl). exact Hl.
    + intros [= Hsettle <-].
      destruct (settle_spec _ _ _ _ _ Hsettle) as (Hc & Hd & Htext & Herr & _).
      repeat split; try assumption; try discriminate.
      * destruct (Htext _ _ H) as (Hr & _ & _). eapply solveMistral_nonempty, Hr.
      * destruct (Htext _ _ H) as (_ & -> & _). discriminate.
      * destruct (Htext _ _ H) as (_ & _ & Hl). exact Hl.
Qed.

(** C6, as stated, fails: two solve requests for the same image with no
    confirmation in between both go to the providers. *)
Lemma C6_unconfirmed_counterexample : ~ secondRequestIsCached.
Proof.
  intros Hclaim.
  destruct (Hclaim Surgeon.CONFIG (answering "AB12") (answering "AB12")
              "img" "img" (Surgeon.startup None) eq_refl)
    as (first & text & s' & Hrun).
  vm_compute in Hrun. discriminate.
Qed.

(** C6, amended. A solve request whose fingerprint has a non-empty entry in
    the cache map is answered with that entry and the "Cached" tag, the
    state is left as it was and no provider is invoked; a request whose
    fingerprint has no such entry invokes at least one provider and is
    never tagged "Cached". A solve request does not write the cache map:
    of two requests with one fingerprint and no message in between, the
    second is answered from the cache exactly when the first was. A text
    that a provider returned becomes an entry when the login success is
    reported next, and a following request with the same fingerprint is
    then answered from the cache. *)
Theorem C6_cache_hit scfg :
  (forall n img s text,
     Surgeon.cache s !! Surgeon.hash img = Some text -> text <> "" ->
     Surgeon.onMessage scfg n (Surgeon.SolveCaptcha img) s
     = (Some (Surgeon.TextResponse text Surgeon.Cached), s, [])) /\
  (forall n1 n2 n3 img1 img2 s text tier s1 invoked,
     Surgeon.hash img1 = Surgeon.hash img2 ->
     Surgeon.onMessage scfg n1 (Surgeon.SolveCaptcha img1) s
     = (Some (Surgeon.TextResponse text (Surgeon.TierTag tier)), s1, invoked) ->
     exists s3,
       Surgeon.session scfg
         [(Surgeon.ReportLoginSuccess, n2); (Surgeon.SolveCaptcha img2, n3)] s1
       = ([(None, []); (Some (Surgeon.TextResponse text Surgeon.Cached), [])], s3)) /\
  (forall n img s resp s' invoked,
     truthyString (Surgeon.cache s !! Surgeon.hash img) = false ->
     Surgeon.onMessage scfg n (Surgeon.SolveCaptcha img) s = (resp, s', invoked) ->
     invoked <> []
     /\ forall text, resp <> Some (Surgeon.TextResponse text Surgeon.Cached)) /\
  (forall n img s,
     Surgeon.cache (snd (fst (Surgeon.onMessage scfg n (Surgeon.SolveCaptcha img) s)))
     = Surgeon.cache s) /\
  (forall n1 n2 img1 img2 s,
     Surgeon.hash img1 = Surgeon.hash img2 ->
     (truthyString (Surgeon.cache s !! Surgeon.hash img1) = true ->
        exists text,
          Surgeon.session scfg
            [(Surgeon.SolveCaptcha img1, n1); (Surgeon.SolveCaptcha img2, n2)] s
          = ([(Some (Surgeon.TextResponse text Surgeon.Cached), []);
              (Some (Surgeon.TextResponse text Surgeon.Cached), [])], s))
     /\ (truthyString (Surgeon.cache s !! Surgeon.hash img1) = false ->
         exists r1 inv1 r2 inv2 s',
           Surgeon.session scfg
             [(Surgeon.SolveCaptcha img1, n1); (Surgeon.SolveCaptcha img2, n2)] s
           = ([(Some r1, inv1); (Some r2, inv2)], s')
           /\ inv1 <> [] /\ inv2 <> []
           /\ (forall text, r1 <> Surgeon.TextResponse text Surgeon.Cached)
           /\ (forall text, r2 <> Surgeon.TextResponse text Surgeon.Cached))).
Proof.
  assert (Hhit : forall n img s text,
     Surgeon.cache s !! Surgeon.hash img = Some text -> text <> "" ->
     Surgeon.onMessage scfg n (Surgeon.SolveCaptcha img) s
     = (Some (Surgeon.TextResponse text Surgeon.Cached), s, [])).
  { intros n img s text Hlook Htext. unfold Surgeon.onMessage.
    rewrite Hlook. cbn [truthyString default].
    destruct (String.eqb_spec text ""); [contradiction|]. reflexivity. }
  assert (Hmiss : forall n img s,
     truthyString (Surgeon.cache s !! Surgeon.hash img) = false ->
     exists r s' inv,
       Surgeon.onMessage scfg n (Surgeon.SolveCaptcha img) s = (Some r, s', inv)
       /\ Surgeon.cache s' = Surgeon.cache s /\ inv <> []
       /\ forall text, r <> Surgeon.TextResponse text Surgeon.Cached).
  { intros n img s Hm. unfold Surgeon.onMessage. rewrite Hm.
    destruct (Surgeon.runSolve scfg n img (Surgeon.hash img) s)
      as [[resp0 s0] inv0] eqn:Hsolve.
    destruct (runSolve_spec _ _ _ _ _ _ _ _ Hsolve) as (Hc & _ & Hinv & Htext & _).
    exists resp0, s0, inv0. split; [reflexivity|]. split; [exact Hc|].
    split; [exact Hinv|].
    intros text ->. destruct (Htext _ _ eq_refl) as (_ & Hcached & _).
    contradiction. }
  split; [exact Hhit|]. split; [|split; [|split]].
  - intros n1 n2 n3 img1 img2 s text tier s1 invoked Hhash Hfirst.
    unfold Surgeon.onMessage in Hfirst.
    destruct (truthyString (Surgeon.cache s !! Surgeon.hash img1)); [discriminate|].
    destruct (Surgeon.runSolve scfg n1 img1 (Surgeon.hash img1) s)
      as [[resp s1'] inv1] eqn:Hrun.
    injection Hfirst as -> -> ->.
    destruct (runSolve_spec _ _ _ _ _ _ _ _ Hrun) as (_ & _ & _ & Htext & _).
    destruct (Htext _ _ eq_refl) as (Hne & _ & Hpending).
    cbn [Surgeon.session]. unfold Surgeon.onMessage at 1. rewrite Hpending.
    rewrite (Hhit n3 img2 _ text).
    + eexists. reflexivity.
    + cbn [Surgeon.cache]. rewrite <- Hhash. apply lookup_insert_eq.
    + exact Hne.
  - intros n img s resp s' invoked Hm Hrun.
    destruct (Hmiss n img s Hm) as (r & s0 & inv & Hstep & _ & Hinv & Hnot).
    rewrite Hstep in Hrun. injection Hrun as <- <- <-.
    split; [exact Hinv|]. intros text [= ->]. exact (Hnot text eq_refl).
  - intros n img s.
    destruct (truthyString (Surgeon.cache s !! Surgeon.hash img)) eqn:Hm.
    + unfold Surgeon.onMessage. rewrite Hm. reflexivity.
    + destruct (Hmiss n img s Hm) as (r & s0 & inv & Hstep & Hc & _).
      rewrite Hstep. exact Hc.
  - intros n1 n2 img1 img2 s Hhash. split.
    + intros Htruthy.
      destruct (Surgeon.cache s !! Surgeon.hash img1) as [text|] eqn:Hlook;
        [|discriminate].
      assert (Hne : text <> "").
      { intros ->. discriminate. }
      exists text. cbn [Surgeon.session].
      rewrite (Hhit n1 img1 s text Hlook Hne).
      rewrite (Hhit n2 img2 s text); [reflexivity | congruence | exact Hne].
    + intros Hm.
      destruct (Hmiss n1 img1 s Hm) as (r1 & s1 & inv1 & Hstep1 & Hc1 & Hinv1 & Hnot1).
      assert (Hm2 : truthyString (Surgeon.cache s1 !! Surgeon.hash img2) = false).
      { rewrite Hc1, <- Hhash. exact Hm. }
      destruct (Hmiss n2 img2 s1 Hm2) as (r2 & s2 & inv2 & Hstep2 & _ & Hinv2 & Hnot2).
      exists r1, inv1, r2, inv2, s2. cbn [Surgeon.session].
      rewrite Hstep1, Hstep2. auto.
Qed.

Lemma C6_cache_hit_witness :
  Surgeon.onMessage Surgeon.CONFIG (refusing 500) (Surgeon.SolveCaptcha "img")
    (Surgeon.startup (Some {[ Surgeon.hash "img" := "AB12" ]}))
  = (Some (Surgeon.TextResponse "AB12" Surgeon.Cached),
     Surgeon.startup (Some {[ Surgeon.hash "img" := "AB12" ]}), [])
  /\ exists s3,
       Surgeon.session Surgeon.CONFIG
         [(Surgeon.ReportLoginSuccess, refusing 500);
          (Surgeon.SolveCaptcha "img", refusing 500)]
         (snd (fst (Surgeon.onMessage Surgeon.CONFIG (answering "AB12")
                      (Surgeon.SolveCaptcha "img") (Surgeon.startup None))))
       = ([(None, []); (Some (Surgeon.TextResponse "AB12" Surgeon.Cached), [])], s3).
Proof.
  destruct (C6_cache_hit Surgeon.CONFIG) as (Hhit & Hconfirmed & _).
  split.
  - apply Hhit.
    + cbn [Surgeon.startup Surgeon.cache default]. apply lookup_singleton_eq.
    + discriminate.
  - apply (Hconfirmed (answering "AB12") (refusing 500) (refusing 500) "img" "img"
             (Surgeon.startup None) "AB12" 2 _ [Surgeon.OpenRouter 0]).
    + reflexivity.
    + vm_compute. reflexivity.
Defined.

(** The backend invoked last decides a run of [runSolve]: its result is
    sent with the tier tag and becomes the pending candidate, whatever was
    pending; its error is sent and leaves the pending candidate alone. *)
Lemma runSolve_last scfg n img h s :
  exists p,
    last (snd (Surgeon.runSolve scfg n img h s)) = Some p
    /\ match resultOf scfg n img p with
       | Return text =>
           fst (fst (Surgeon.runSolve scfg n img h s))
           = Surgeon.TextResponse text
               (Surgeon.TierTag
                  (Surgeon.currentTier (snd (fst (Surgeon.runSolve scfg n img h s)))))
           /\ Surgeon.lastSolved (snd (fst (Surgeon.runSolve scfg n img h s)))
              = Some (h, text)
       | Throw e =>
           fst (fst (Surgeon.runSolve scfg n img h s))
           = Surgeon.ErrorResponse (message e)
           /\ Surgeon.lastSolved (snd (fst (Surgeon.runSolve scfg n img h s)))
              = Surgeon.lastSolved s
       end.
Proof.
  unfold Surgeon.runSolve, Surgeon.solveTier2.
  destruct (Surgeon.currentTier s =? 1).
  - destruct (String.eqb (Surgeon.nopechaKey scfg) "").
    + destruct (Surgeon.solveOpenRouter scfg n img 0) as [v0|e0] eqn:H0.
      * exists (Surgeon.OpenRouter 0). cbn. rewrite H0. cbn. auto.
      * exists (Surgeon.OpenRouter 1). cbn.
        destruct (Surgeon.solveOpenRouter scfg n img 1); cbn; auto.
    + exists Surgeon.NoPeCHA. cbn.
      destruct (Surgeon.solveNoPeCHA scfg n img); cbn; auto.
  - destruct (Surgeon.currentTier s =? 2).
    + destruct (Surgeon.solveOpenRouter scfg n img 0) as [v0|e0] eqn:H0.
      * exists (Surgeon.OpenRouter 0). cbn. rewrite H0. cbn. auto.
      * exists (Surgeon.OpenRouter 1). cbn.
        destruct (Surgeon.solveOpenRouter scfg n img 1); cbn; auto.
    + exists Surgeon.Mistral. cbn.
      destruct (Surgeon.solveMistral n img); cbn; auto.
Qed.

(** C9. The worker holds the pending candidate in the one field
    [lastSolved], so never more than one. Every solve request that is not
    answered from the cache ends with the backend it invoked last: the
    text that backend returned is sent and overwrites the field, whatever
    the field held, and an error of that backend leaves the field as it
    was. The cache map and its stored copy are changed by no message but
    the report of a login success, which writes the pending candidate
    into both and empties the field, and which does nothing when the field
    is empty. *)
Theorem C9_single_pending_candidate scfg :
  (forall n img s,
     truthyString (Surgeon.cache s !! Surgeon.hash img) = false ->
     exists p resp s' invoked,
       Surgeon.onMessage scfg n (Surgeon.SolveCaptcha img) s
       = (Some resp, s', invoked)
       /\ last invoked = Some p
       /\ (forall text,
             resultOf scfg n img p = Return text ->
             resp = Surgeon.TextResponse text (Surgeon.TierTag (Surgeon.currentTier s'))
             /\ Surgeon.lastSolved s' = Some (Surgeon.hash img, text))
       /\ (forall e,
             resultOf scfg n img p = Throw e ->
             resp = Surgeon.ErrorResponse (message e)
             /\ Surgeon.lastSolved s' = Surgeon.lastSolved s)) /\
  (forall n img s text tier s' invoked,
     Surgeon.onMessage scfg n (Surgeon.SolveCaptcha img) s
     = (Some (Surgeon.TextResponse text (Surgeon.TierTag tier)), s', invoked) ->
     Surgeon.lastSolved s' = Some (Surgeon.hash img, text)) /\
  (forall n req s resp s' invoked,
     req <> Surgeon.ReportLoginSuccess ->
     Surgeon.onMessage scfg n req s = (resp, s', invoked) ->
     Surgeon.cache s' = Surgeon.cache s
     /\ Surgeon.captchaCache s' = Surgeon.captchaCache s) /\
  (forall n s h text,
     Surgeon.lastSolved s = Some (h, text) ->
     Surgeon.onMessage scfg n Surgeon.ReportLoginSuccess s
     = (None,
        {| Surgeon.currentTier := Surgeon.currentTier s;
           Surgeon.lastSolved := None;
           Surgeon.cache := <[h := text]> (Surgeon.cache s);
           Surgeon.captchaCache := Some (<[h := text]> (Surgeon.cache s)) |},
        [])) /\
  (forall n s,
     Surgeon.lastSolved s = None ->
     Surgeon.onMessage scfg n Surgeon.ReportLoginSuccess s = (None, s, [])) /\
  (forall msgs s,
     Forall (fun m => fst m <> Surgeon.ReportLoginSuccess) msgs ->
     Surgeon.cache (snd (Surgeon.session scfg msgs s)) = Surgeon.cache s
     /\ Surgeon.captchaCache (snd (Surgeon.session scfg msgs s))
        = Surgeon.captchaCache s).
Proof.
  assert (Hkeep : forall n req s resp s' invoked,
     req <> Surgeon.ReportLoginSuccess ->
     Surgeon.onMessage scfg n req s = (resp, s', invoked) ->
     Surgeon.cache s' = Surgeon.cache s
     /\ Surgeon.captchaCache s' = Surgeon.captchaCache s).
  { intros n req s resp s' invoked Hreq Hrun.
    destruct req as [|img| |]; cbn in Hrun; try contradiction.
    - injection Hrun as _ <- _. split; reflexivity.
    - destruct (truthyString (Surgeon.cache s !! Surgeon.hash img)).
      + injection Hrun as _ <- _. split; reflexivity.
      + destruct (Surgeon.runSolve scfg n img (Surgeon.hash img) s)
          as [[resp0 s0] inv0] eqn:Hsolve.
        injection Hrun as _ <- _.
        destruct (runSolve_spec _ _ _ _ _ _ _ _ Hsolve) as (Hc & Hd & _).
        split; assumption.
    - injection Hrun as _ <- _. split; reflexivity. }
  split; [|split; [|split; [exact Hkeep|split; [|split]]]].
  - intros n img s Hmiss. unfold Surgeon.onMessage. rewrite Hmiss.
    destruct (runSolve_last scfg n img (Surgeon.hash img) s) as (p & Hlast & Hres).
    destruct (Surgeon.runSolve scfg n img (Surgeon.hash img) s)
      as [[resp0 s0] inv0]. cbn [fst snd] in *.
    exists p, resp0, s0, inv0. split; [reflexivity|]. split; [exact Hlast|].
    split.
    + intros text Hp. rewrite Hp in Hres. exact Hres.
    + intros e Hp. rewrite Hp in Hres. exact Hres.
  - intros n img s text tier s' invoked Hrun. unfold Surgeon.onMessage in Hrun.
    destruct (truthyString (Surgeon.cache s !! Surgeon.hash img)); [discriminate|].
    destruct (Surgeon.runSolve scfg n img (Surgeon.hash img) s)
      as [[resp0 s0] inv0] eqn:Hsolve.
    injection Hrun as -> -> _.
    destruct (runSolve_spec _ _ _ _ _ _ _ _ Hsolve) as (_ & _ & _ & Htext & _).
    apply (Htext _ _ eq_refl).
  - intros n s h text Hpending. cbn. rewrite Hpending. reflexivity.
  - intros n s Hpending. cbn. rewrite Hpending. reflexivity.
  - intros msgs. induction msgs as [|[req n] rest IH]; intros s Hall.
    + split; reflexivity.
    + apply Forall_cons in Hall as [Hreq Hrest]. cbn [Surgeon.session].
      destruct (Surgeon.onMessage scfg n req s) as [[resp s1] inv] eqn:Hstep.
      destruct (Surgeon.session scfg rest s1) as [out s2] eqn:Hrestrun.
      cbn [snd]. destruct (Hkeep _ _ _ _ _ _ Hreq Hstep) as [Hc Hd].
      specialize (IH s1 Hrest). rewrite Hrestrun in IH. cbn [snd] in IH.
      destruct IH as [IHc IHd]. split; congruence.
Qed.

(** A candidate is held; a solve for another image succeeds and its
    result takes the place of the one held. *)
Lemma C9_single_pending_candidate_witness :
  Surgeon.lastSolved
    (snd (fst (Surgeon.onMessage Surgeon.CONFIG (answering "AB12")
                 (Surgeon.SolveCaptcha "img")
                 {| Surgeon.currentTier := 2;
                    Surgeon.lastSolved := Some ("h0", "OLD1");
                    Surgeon.cache := ∅; Surgeon.captchaCache := None |})))
  = Some (Surgeon.hash "img", "AB12").
Proof.
  destruct (C9_single_pending_candidate Surgeon.CONFIG) as (Hreplace & _).
  assert (Hmiss : truthyString
                    ((∅ : gmap string string) !! Surgeon.hash "img") = false)
    by reflexivity.
  destruct (Hreplace (answering "AB12") "img"
              {| Surgeon.currentTier := 2; Surgeon.lastSolved := Some ("h0", "OLD1");
                 Surgeon.cache := ∅; Surgeon.captchaCache := None |} Hmiss)
    as (p & resp & s' & invoked & Hrun & Hlast & Hreturned & _).
  rewrite Hrun. cbn [fst snd].
  assert (Hp : p = Surgeon.OpenRouter 0).
  { unfold Surgeon.onMessage in Hrun. cbn [Surgeon.cache] in Hrun.
    rewrite Hmiss in Hrun. cbn in Hrun.
    injection Hrun as _ _ <-. injection Hlast as <-. reflexivity. }
  subst p. apply (Hreturned "AB12"). reflexivity.
Defined.

(** * Further properties of the failover worker *)

Lemma state_eta (s : FailoverState) :
  s = Tier (currentTier s) (modelIndex s) (lastFailoverTime s).
Proof. destruct s. reflexivity. Qed.

Lemma index_in_range {A : Type} (l : list A) (i : Z) :
  0 <= i < len l -> exists x, index l i = Some x.
Proof.
  intros [Hlo Hhi]. unfold index, len in *.
  destruct (Z.ltb_spec i 0); [lia|].
  destruct (l !! Z.to_nat i) as [x|] eqn:Hx; [exists x; reflexivity|].
  apply lookup_ge_None in Hx. lia.
Qed.

Lemma sound_initialState cfg : tier1Models cfg <> [] -> sound cfg initialState.
Proof.
  intros Hne. split.
  - left. exists 0%nat. rewrite providerOrder_lookup.
    destruct (tier1Models cfg); [congruence | reflexivity].
  - cbn. lia.
Qed.

Lemma advanceFailover_sound cfg reason now s :
  tier1Models cfg <> [] -> tier2Models cfg <> [] ->
  currentTier s <= 3 -> now <> 0 -> sound cfg s ->
  sound cfg (advanceFailover cfg reason now s).
Proof.
  intros Hne1 Hne2 Hle Hnow [[(j & Hslot) | [Hfour _]] _]; [|lia].
  rewrite (state_eta s).
  rewrite (providerOrder_next cfg j _ _ reason now _ Hne1 Hne2 Hslot).
  destruct (providerOrder cfg !! S j) as [[t' i']|] eqn:Hnext.
  - split.
    + left. exists (S j). exact Hnext.
    + intros _. exists now. split; [reflexivity | exact Hnow].
  - split.
    + right. split; reflexivity.
    + intros _. exists now. split; [reflexivity | exact Hnow].
Qed.

Lemma checkCooldownRecovery_sound cfg now s :
  tier1Models cfg <> [] -> sound cfg s ->
  sound cfg (checkCooldownRecovery cfg now s).
Proof.
  intros Hne Hs.
  destruct (checkCooldownRecovery_cases cfg now s) as [-> | ->]; [exact Hs|].
  apply (sound_initialState cfg Hne).
Qed.

Lemma solveLoop_sound cfg ncfg w img key fuel :
  tier1Models cfg <> [] -> tier2Models cfg <> [] ->
  (forall k, clock w k <> 0) ->
  forall k lastError s r s' visited,
    sound cfg s ->
    solveLoop cfg ncfg fuel w img key k lastError s = Some (r, s', visited) ->
    sound cfg s'.
Proof.
  intros Hne1 Hne2 Hclock.
  induction fuel as [|fuel IH]; intros k lastError s r s' visited Hs; cbn.
  - destruct (currentTier s <=? 3); [discriminate|]. intros [= _ <- _]. exact Hs.
  - destruct (Z.leb_spec (currentTier s) 3) as [Hle|Hgt].
    2:{ intros [= _ <- _]. exact Hs. }
    destruct (attemptProvider cfg ncfg (net w k) img key s) as [[v|e]|].
    + intros [= _ <- _]. exact Hs.
    + destruct (shouldFailover cfg (statusCode e) e).
      * destruct (solveLoop cfg ncfg fuel w img key (S k) (Some e) _)
          as [[[r1 s1] vis1]|] eqn:Hrec; [|discriminate].
        intros [= _ <- _]. eapply IH; [|exact Hrec].
        apply advanceFailover_sound; auto.
      * intros [= _ <- _]. exact Hs.
    + intros [= _ <- _]. exact Hs.
Qed.

(** The state a request leaves, whatever the request answers. *)
Lemma handleCaptchaSolve_state cfg ncfg fuel now stored w img s resp s' visited :
  handleCaptchaSolve cfg ncfg fuel now stored w img s = Some (resp, s', visited) ->
  (exists e, getApiKey stored = Throw e /\ s' = checkCooldownRecovery cfg now s
             /\ visited = [])
  \/ (exists key r, getApiKey stored = Return key /\
        solveWithFailover cfg ncfg fuel w img key (checkCooldownRecovery cfg now s)
        = Some (r, s', visited)).
Proof.
  unfold handleCaptchaSolve.
  destruct (getApiKey stored) as [key|e].
  - destruct (solveWithFailover cfg ncfg fuel w img key _)
      as [[[r s2] vis]|] eqn:Hrun; [|discriminate].
    destruct r as [v|e]; intros [= _ <- <-]; right; exists key; eauto.
  - intros [= _ <- <-]. left. exists e. auto.
Qed.

(** X1. The states of the failover worker stay sound: starting from a
    sound state (the initial state is one), a request served with clocks
    that are not 0 leaves a sound state, so the tier stays between 1 and
    4 and on tiers 1 and 2 the index always names a configured model. *)
Theorem failover_state_stays_sound cfg ncfg fuel now stored w img s resp s' visited :
  tier1Models cfg <> [] -> tier2Models cfg <> [] ->
  (forall k, clock w k <> 0) ->
  sound cfg s ->
  handleCaptchaSolve cfg ncfg fuel now stored w img s = Some (resp, s', visited) ->
  sound cfg initialState /\
  sound cfg s' /\
  1 <= currentTier s' <= 4 /\
  (currentTier s' = 1 ->
     exists model, index (tier1Models cfg) (modelIndex s') = Some model) /\
  (currentTier s' = 2 ->
     exists model, index (tier2Models cfg) (modelIndex s') = Some model) /\
  (3 <= currentTier s' -> modelIndex s' = 0).
Proof.
  intros Hne1 Hne2 Hclock Hs Hrun.
  assert (Hs' : sound cfg s').
  { destruct (handleCaptchaSolve_state _ _ _ _ _ _ _ _ _ _ _ Hrun)
      as [(e & _ & -> & _) | (key & r & _ & Hloop)].
    - apply checkCooldownRecovery_sound; assumption.
    - eapply solveLoop_sound; [exact Hne1 | exact Hne2 | exact Hclock | | exact Hloop].
      apply checkCooldownRecovery_sound; assumption. }
  split; [apply sound_initialState, Hne1|]. split; [exact Hs'|].
  destruct Hs' as [[(j & Hslot) | [Hfour Hzero]] _].
  - rewrite providerOrder_lookup in Hslot. unfold position in Hslot.
    repeat case_decide; try discriminate; injection Hslot as Ht Hi;
      rewrite <- Ht, <- Hi; repeat split; try lia; try discriminate.
    + intros _. apply index_in_range. unfold len. lia.
    + intros _. apply index_in_range. unfold len. lia.
  - rewrite Hfour, Hzero. repeat split; try lia; discriminate.
Qed.

Lemma failover_state_stays_sound_witness :
  sound FAILOVER_CONFIG
    (Tier 3 0 (Some 1000)).
Proof.
  destruct (failover_state_stays_sound FAILOVER_CONFIG NOPECHA_CONFIG 5 0
              (StorageRead (Some "sk")) (steadyWorld rateLimited 1000) "img"
              initialState
              (ErrorResponse "sleep is not defined" StatusTier3)
              (Tier 3 0 (Some 1000))
              [(1, 0); (1, 1); (2, 0); (2, 1); (3, 0)])
    as (_ & Hs & _).
  - discriminate.
  - discriminate.
  - intros k. cbn. lia.
  - split; [left; exists 0%nat; reflexivity | cbn; lia].
  - vm_compute. reflexivity.
  - exact Hs.
Defined.

(** X2. A request that arrives while the worker is exhausted and the
    cooldown has not elapsed is answered at once with "All tiers
    exhausted" and the "All Down" tag: no provider is invoked and the
    state stays as it is. *)
Theorem exhausted_request_fails_fast cfg ncfg fuel now stored w img s t key :
  getApiKey stored = Return key ->
  3 < currentTier s -> stamped s t -> now - t < cooldownMs cfg ->
  handleCaptchaSolve cfg ncfg fuel now stored w img s
  = Some (ErrorResponse "All tiers exhausted" StatusAllDown, s, []).
Proof.
  intros Hkey Htier Hst Hcool. unfold handleCaptchaSolve.
  rewrite (checkCooldownRecovery_stamped _ _ _ _ Hst).
  case_decide; [lia|]. rewrite Hkey. unfold solveWithFailover.
  assert (Hloop : solveLoop cfg ncfg fuel w img key 0 None s
                  = Some (Throw (newError "All tiers exhausted"), s, [])).
  { destruct fuel; cbn; destruct (Z.leb_spec (currentTier s) 3); try lia; reflexivity. }
  rewrite Hloop. cbn. unfold getStatusIndicator.
  zcases; try lia. reflexivity.
Qed.

Lemma exhausted_request_fails_fast_witness :
  handleCaptchaSolve FAILOVER_CONFIG NOPECHA_CONFIG 0 1299999
    (StorageRead (Some "sk")) (steadyWorld rateLimited 1) "img"
    (Tier 4 0 (Some 1000000))
  = Some (ErrorResponse "All tiers exhausted" StatusAllDown,
          Tier 4 0 (Some 1000000), []).
Proof.
  apply (exhausted_request_fails_fast FAILOVER_CONFIG NOPECHA_CONFIG 0 1299999
           (StorageRead (Some "sk")) (steadyWorld rateLimited 1) "img"
           (Tier 4 0 (Some 1000000)) 1000000 "sk").
  - reflexivity.
  - cbn. lia.
  - split; [reflexivity | lia].
  - cbn. lia.
Defined.

Lemma providerOrder_tier cfg j t i :
  providerOrder cfg !! j = Some (t, i) -> 1 <= t <= 3.
Proof.
  rewrite providerOrder_lookup. repeat case_decide; intros [= <- <-]; lia.
Qed.

Section Exhaustion.

Variable cfg : config.
Variable ncfg : nopecha_config.
Variable w : world.
Variables img key : string.

Hypothesis tier1_nonempty : tier1Models cfg <> [].
Hypothesis tier2_nonempty : tier2Models cfg <> [].
Hypothesis all_fail : allFail cfg ncfg w img key.

Lemma last_slot j t i :
  providerOrder cfg !! j = Some (t, i) ->
  providerOrder cfg !! S j = None ->
  t = 3 /\ i = 0 /\ S j = length (providerOrder cfg).
Proof.
  intros Hslot Hnext. apply lookup_ge_None in Hnext.
  pose proof (lookup_lt_Some _ _ _ Hslot) as Hlt.
  rewrite providerOrder_lookup in Hslot. rewrite providerOrder_length in *.
  repeat case_decide; try lia; injection Hslot as <- <-; repeat split; lia.
Qed.

Lemma solveLoop_all_fail fuel :
  forall j lastError stamp t i,
    providerOrder cfg !! j = Some (t, i) ->
    (length (providerOrder cfg) <= fuel + j)%nat ->
    exists e,
      solveLoop cfg ncfg fuel w img key j lastError (Tier t i stamp)
      = Some (Throw e,
              Tier 4 0 (Some (clock w (length (providerOrder cfg) - 1))),
              drop j (providerOrder cfg))
      /\ fst (solveCaptchaWithNoPeCHA ncfg
                (net w (length (providerOrder cfg) - 1)) img) = Throw e.
Proof.
  induction fuel as [|fuel IH]; intros j lastError stamp t i Hslot Hfuel.
  { apply lookup_lt_Some in Hslot. lia. }
  pose proof (providerOrder_tier cfg _ _ _ Hslot) as Ht.
  pose proof (drop_S _ _ _ Hslot) as Hdrop.
  destruct (all_fail j t i stamp Hslot) as (e & Hatt & Hretry).
  cbn [solveLoop]. change (currentTier (Tier t i stamp)) with t.
  change (modelIndex (Tier t i stamp)) with i.
  destruct (Z.leb_spec t 3) as [_|]; [|lia].
  rewrite Hatt, Hretry.
  rewrite (providerOrder_next cfg j t i _ _ stamp
             tier1_nonempty tier2_nonempty Hslot).
  destruct (providerOrder cfg !! S j) as [[t' i']|] eqn:Hnext.
  - destruct (IH (S j) (Some e) (Some (clock w j)) t' i' Hnext) as (e' & -> & Hlast);
      [lia|].
    exists e'. split; [|exact Hlast]. rewrite Hdrop. reflexivity.
  - destruct (last_slot j t i Hslot Hnext) as (-> & -> & Hlen).
    exists e. replace (length (providerOrder cfg) - 1)%nat with j by lia. split.
    + assert (Hnil : drop (S j) (providerOrder cfg) = []).
      { apply drop_ge. lia. }
      rewrite Hdrop, Hnil. destruct fuel; reflexivity.
    + unfold attemptProvider in Hatt. cbn in Hatt. congruence.
Qed.

End Exhaustion.

(** X3. When every provider fails with an error [shouldFailover] accepts,
    a request from the initial state invokes every provider once, in
    order, leaves the worker exhausted with the stamp of the last
    failover, and answers with the error of the last provider, the
    NoPeCHA adapter, under the "All Down" tag. *)
Theorem all_providers_failing_exhausts cfg ncfg fuel now stored w img key :
  tier1Models cfg <> [] -> tier2Models cfg <> [] ->
  allFail cfg ncfg w img key ->
  getApiKey stored = Return key ->
  (length (providerOrder cfg) <= fuel)%nat ->
  exists e,
    handleCaptchaSolve cfg ncfg fuel now stored w img initialState
    = Some (ErrorResponse (message e) StatusAllDown,
            Tier 4 0 (Some (clock w (length (providerOrder cfg) - 1))),
            providerOrder cfg)
    /\ fst (solveCaptchaWithNoPeCHA ncfg
              (net w (length (providerOrder cfg) - 1)) img) = Throw e.
Proof.
  intros Hne1 Hne2 Hall Hkey Hfuel.
  assert (Hslot : providerOrder cfg !! 0%nat = Some (1, 0)).
  { rewrite providerOrder_lookup.
    destruct (tier1Models cfg); [congruence | reflexivity]. }
  destruct (solveLoop_all_fail cfg ncfg w img key Hne1 Hne2 Hall fuel
              0 None None 1 0 Hslot) as (e & Hrun & Hlast); [lia|].
  exists e. split; [|exact Hlast].
  unfold handleCaptchaSolve.
  change (checkCooldownRecovery cfg now initialState) with initialState.
  rewrite Hkey. unfold solveWithFailover. change initialState with (Tier 1 0 None).
  rewrite Hrun. reflexivity.
Qed.

Lemma all_providers_failing_exhausts_witness :
  exists e,
    handleCaptchaSolve FAILOVER_CONFIG NOPECHA_CONFIG 5 0
      (StorageRead (Some "sk")) (steadyWorld unavailable 7000) "img" initialState
    = Some (ErrorResponse (message e) StatusAllDown, Tier 4 0 (Some 7000),
            [(1, 0); (1, 1); (2, 0); (2, 1); (3, 0)])
    /\ fst (solveCaptchaWithNoPeCHA NOPECHA_CONFIG unavailable "img") = Throw e.
Proof.
  apply (all_providers_failing_exhausts FAILOVER_CONFIG NOPECHA_CONFIG 5 0
           (StorageRead (Some "sk")) (steadyWorld unavailable 7000) "img" "sk").
  - discriminate.
  - discriminate.
  - intros k t i stamp Hslot.
    destruct k as [|[|[|[|[|k]]]]]; vm_compute in Hslot; try discriminate;
      injection Hslot as <- <-; eexists; split; vm_compute; reflexivity.
  - reflexivity.
  - vm_compute. lia.
Defined.

(** X4. Whatever the network answers, a request from the initial state
    ends after invoking at least one and at most all providers, and the
    providers it invoked are an initial stretch of the tier-then-index
    order. *)
Theorem request_invokes_a_prefix cfg ncfg w img key fuel :
  tier1Models cfg <> [] -> tier2Models cfg <> [] ->
  (length (providerOrder cfg) <= fuel)%nat ->
  exists r s' m,
    solveWithFailover cfg ncfg fuel w img key initialState
    = Some (r, s', take m (providerOrder cfg))
    /\ (1 <= m)%nat
    /\ (length (take m (providerOrder cfg)) <= length (providerOrder cfg))%nat.
Proof.
  intros Hne1 Hne2 Hfuel.
  assert (Hslot : providerOrder cfg !! 0%nat = Some (1, 0)).
  { rewrite providerOrder_lookup.
    destruct (tier1Models cfg); [congruence | reflexivity]. }
  assert (Hpos : (0 < length (providerOrder cfg))%nat)
    by (rewrite providerOrder_length; lia).
  destruct (solveLoop_from_slot cfg ncfg w img key Hne1 Hne2 0 Hpos
              ltac:(intros k Hk; lia) fuel 0 None None 1 0 Hslot)
    as (r & s' & m & Hrun & Hm); [lia|].
  exists r, s', m. split; [exact Hrun|]. split; [lia|].
  rewrite length_take. lia.
Qed.

Lemma request_invokes_a_prefix_witness :
  exists r s' m,
    solveWithFailover FAILOVER_CONFIG NOPECHA_CONFIG 5
      (steadyWorld (replying "AB12") 1) "img" "sk" initialState
    = Some (r, s', take m (providerOrder FAILOVER_CONFIG))
    /\ (1 <= m)%nat
    /\ (length (take m (providerOrder FAILOVER_CONFIG))
        <= length (providerOrder FAILOVER_CONFIG))%nat.
Proof.
  apply (request_invokes_a_prefix FAILOVER_CONFIG NOPECHA_CONFIG
           (steadyWorld (replying "AB12") 1) "img" "sk" 5).
  - discriminate.
  - discriminate.
  - vm_compute. lia.
Defined.

(** ** How [shouldFailover] sorts the replies of a chat provider *)

Lemma includesCode_In l z : includesCode l (Some z) = true <-> In z l.
Proof.
  cbn. rewrite existsb_exists. split.
  - intros (x & Hin & Heq). apply Z.eqb_eq in Heq. subst. exact Hin.
  - intros Hin. exists z. split; [exact Hin | apply Z.eqb_refl].
Qed.

(** The attempt on tier 1 or 2 is the chat request, whatever the model. *)
Lemma attemptProvider_chat cfg ncfg n img key s f :
  key <> "" -> currentTier s = 1 \/ currentTier s = 2 ->
  (forall model, openRouter n model img key = f) ->
  exists model,
    attemptProvider cfg ncfg n img key s
    = Some (executeOpenRouterRequest cfg n img model key)
    /\ openRouter n model img key = f.
Proof.
  intros Hkey Htier Hnet. unfold attemptProvider.
  destruct Htier as [-> | ->]; cbn; eexists; split; try reflexivity; apply Hnet.
Qed.

(** X5. A chat reply with a 2xx status but no content makes the adapter
    throw "Empty response from API" with status 0, and [shouldFailover]
    accepts that error only when 0 is among the trigger codes: the test
    for the word "empty" is case-sensitive and the message has a capital.
    With the trigger codes as shipped the request ends with that error on
    the provider it was at, and no other provider is tried. *)
Theorem empty_reply_is_not_retried cfg ncfg fuel w img key k lastError s
    httpStatus body content :
  key <> "" -> currentTier s = 1 \/ currentTier s = 2 ->
  (forall model,
     openRouter (net w k) model img key = OrResponded httpStatus body content) ->
  ok httpStatus = true -> truthyString content = false ->
  attemptProvider cfg ncfg (net w k) img key s = Some (Throw emptyReplyError)
  /\ shouldFailover cfg (statusCode emptyReplyError) emptyReplyError
     = includesCode (triggerCodes cfg) (Some 0)
  /\ shouldFailover FAILOVER_CONFIG (statusCode emptyReplyError) emptyReplyError
     = false
  /\ (includesCode (triggerCodes cfg) (Some 0) = false ->
      solveLoop cfg ncfg (S fuel) w img key k lastError s
      = Some (Throw emptyReplyError, s, [position s])).
Proof.
  intros Hkey Htier Hnet Hok Hcontent.
  assert (Hatt : attemptProvider cfg ncfg (net w k) img key s
                 = Some (Throw emptyReplyError)).
  { destruct (attemptProvider_chat cfg ncfg _ img key s _ Hkey Htier Hnet)
      as (model & -> & Hreply).
    unfold executeOpenRouterRequest.
    destruct (String.eqb_spec key ""); [contradiction|].
    rewrite Hreply, Hok. cbn [negb].
    destruct content as [c|]; [rewrite Hcontent|]; reflexivity. }
  assert (Hpolicy : shouldFailover cfg (statusCode emptyReplyError) emptyReplyError
                    = includesCode (triggerCodes cfg) (Some 0)).
  { unfold shouldFailover. cbn [statusCode emptyReplyError newErrorWithStatus].
    destruct (includesCode (triggerCodes cfg) (Some 0)); reflexivity. }
  split; [exact Hatt|]. split; [exact Hpolicy|]. split; [reflexivity|].
  intros Hnot. apply solveLoop_nonretryable; [destruct Htier; lia | exact Hatt|].
  rewrite Hpolicy. exact Hnot.
Qed.

Lemma empty_reply_is_not_retried_witness :
  solveLoop FAILOVER_CONFIG NOPECHA_CONFIG 1
    (steadyWorld (chatNetwork (OrResponded 200 "{}" None)) 1) "img" "sk" 0 None
    initialState
  = Some (Throw emptyReplyError, initialState, [(1, 0)]).
Proof.
  destruct (empty_reply_is_not_retried FAILOVER_CONFIG NOPECHA_CONFIG 0
              (steadyWorld (chatNetwork (OrResponded 200 "{}" None)) 1)
              "img" "sk" 0 None initialState 200 "{}" None)
    as (_ & _ & _ & Hloop).
  - discriminate.
  - left. reflexivity.
  - intros model. reflexivity.
  - reflexivity.
  - reflexivity.
  - apply Hloop. reflexivity.
Defined.

(** X6. A chat reply whose status is not 2xx and is one of the trigger
    codes makes the adapter throw an error with that status, which
    [shouldFailover] accepts whatever the body says: the machine advances
    and the request goes on with the next provider. *)
Theorem trigger_status_fails_over cfg ncfg fuel w img key k lastError s
    httpStatus body content :
  key <> "" -> currentTier s = 1 \/ currentTier s = 2 ->
  (forall model,
     openRouter (net w k) model img key = OrResponded httpStatus body content) ->
  ok httpStatus = false -> In httpStatus (triggerCodes cfg) ->
  exists e,
    attemptProvider cfg ncfg (net w k) img key s = Some (Throw e)
    /\ statusCode e = Some httpStatus
    /\ shouldFailover cfg (statusCode e) e = true
    /\ solveLoop cfg ncfg (S fuel) w img key k lastError s
       = match solveLoop cfg ncfg fuel w img key (S k) (Some e)
                 (advanceFailover cfg
                    (getCurrentModelName cfg s ++ ": " ++ message e)
                    (clock w k) s) with
         | Some (r, s', visited) => Some (r, s', position s :: visited)
         | None => None
         end.
Proof.
  intros Hkey Htier Hnet Hok Hin.
  destruct (attemptProvider_chat cfg ncfg _ img key s _ Hkey Htier Hnet)
    as (model & Hatt & Hreply).
  exists (newErrorWithStatus ("API error " ++ showZ httpStatus ++ ": " ++ body)
            httpStatus).
  assert (Hthrow : attemptProvider cfg ncfg (net w k) img key s
     = Some (Throw (newErrorWithStatus
                      ("API error " ++ showZ httpStatus ++ ": " ++ body) httpStatus))).
  { rewrite Hatt. unfold executeOpenRouterRequest.
    destruct (String.eqb_spec key ""); [contradiction|].
    rewrite Hreply, Hok. reflexivity. }
  assert (Hretry : shouldFailover cfg (Some httpStatus)
     (newErrorWithStatus ("API error " ++ showZ httpStatus ++ ": " ++ body) httpStatus)
     = true).
  { unfold shouldFailover. apply includesCode_In in Hin. rewrite Hin. reflexivity. }
  split; [exact Hthrow|]. split; [reflexivity|]. split; [exact Hretry|].
  cbn [solveLoop]. destruct (Z.leb_spec (currentTier s) 3); [|destruct Htier; lia].
  rewrite Hthrow. cbn [statusCode newErrorWithStatus]. rewrite Hretry. reflexivity.
Qed.

Lemma trigger_status_fails_over_witness :
  exists e,
    attemptProvider FAILOVER_CONFIG NOPECHA_CONFIG rateLimited "img" "sk" initialState
    = Some (Throw e)
    /\ statusCode e = Some 429.
Proof.
  destruct (trigger_status_fails_over FAILOVER_CONFIG NOPECHA_CONFIG 0
              (steadyWorld rateLimited 1) "img" "sk" 0 None initialState
              429 "slow down" None)
    as (e & Hatt & Hcode & _).
  - discriminate.
  - left. reflexivity.
  - intros model. reflexivity.
  - reflexivity.
  - cbn. tauto.
  - exists e. split; [exact Hatt | exact Hcode].
Defined.

(** ** What a successful request returns *)

Lemma filterString_length p s :
  (String.length (filterString p s) <= String.length s)%nat.
Proof.
  induction s as [|c rest IH]; cbn; [lia|]. destruct (p c); cbn; lia.
Qed.

Lemma filterString_idem p s :
  filterString p (filterString p s) = filterString p s.
Proof.
  induction s as [|c rest IH]; [reflexivity|]. cbn.
  destruct (p c) eqn:Hc; [|exact IH]. cbn. rewrite Hc, IH. reflexivity.
Qed.

(** A string that the filter leaves alone consists of kept characters. *)
Lemma filterString_fixed_cons p c rest :
  filterString p (String c rest) = String c rest ->
  p c = true /\ filterString p rest = rest.
Proof.
  cbn. destruct (p c) eqn:Hc.
  - intros [= H]. split; [reflexivity | exact H].
  - intros H. pose proof (filterString_length p rest) as Hlen.
    rewrite H in Hlen. cbn in Hlen. lia.
Qed.

Lemma cleanCaptchaText_token raw t :
  cleanCaptchaText raw = Return t ->
  (3 <= String.length t <= 8)%nat /\ filterString isAlnum t = t.
Proof.
  rewrite cleanCaptchaText_spec.
  destruct (Z.leb_spec 3 (Z.of_nat (String.length (filterString isAlnum raw))));
    destruct (Z.leb_spec (Z.of_nat (String.length (filterString isAlnum raw))) 8);
    cbn [andb]; try discriminate.
  intros [= <-]. split; [lia | apply filterString_idem].
Qed.

Lemma executeOpenRouterRequest_token cfg n img model key t :
  executeOpenRouterRequest cfg n img model key = Return t ->
  (3 <= String.length t <= 8)%nat /\ filterString isAlnum t = t.
Proof.
  unfold executeOpenRouterRequest.
  destruct (String.eqb key ""); [discriminate|].
  destruct (openRouter n model img key) as [e | st body content].
  - destruct (String.eqb (name e) "AbortError"); discriminate.
  - destruct (negb (ok st)); [discriminate|].
    destruct content as [c|]; [|discriminate].
    destruct (truthyString (Some c)); [|discriminate].
    apply cleanCaptchaText_token.
Qed.

(** What an attempt returns: it is the chat request of tier 1 or 2 that
    returned (the adapter of tier 3 returns nothing), and the text is a
    token of 3 to 8 alphanumeric characters. *)
Lemma attemptProvider_returns cfg ncfg n img key s text :
  attemptProvider cfg ncfg n img key s = Some (Return text) ->
  (currentTier s = 1 \/ currentTier s = 2) /\
  (3 <= String.length text <= 8)%nat /\ filterString isAlnum text = text.
Proof.
  unfold attemptProvider.
  destruct (Z.eqb_spec (currentTier s) 1) as [H1|H1].
  { intros [= Hreq]. split; [left; exact H1|].
    apply (executeOpenRouterRequest_token _ _ _ _ _ _ Hreq). }
  destruct (Z.eqb_spec (currentTier s) 2) as [H2|H2].
  { intros [= Hreq]. split; [right; exact H2|].
    apply (executeOpenRouterRequest_token _ _ _ _ _ _ Hreq). }
  destruct (Z.eqb_spec (currentTier s) 3) as [H3|H3]; [|discriminate].
  intros [= Hres].
  destruct (solveCaptchaWithNoPeCHA_fails ncfg n img) as [(err & Herr) _].
  congruence.
Qed.

Lemma attemptProvider_is_Some cfg ncfg n img key s :
  1 <= currentTier s <= 3 -> attemptProvider cfg ncfg n img key s <> None.
Proof. intros Ht. unfold attemptProvider. zcases; try discriminate; lia. Qed.

(** A run that returns does so at the place of the provider that
    answered. *)
Lemma solveLoop_returns cfg ncfg w img key fuel :
  forall k lastError s otext s' visited,
    solveLoop cfg ncfg fuel w img key k lastError s
    = Some (Return otext, s', visited) ->
    currentTier s' <= 3 /\
    (otext <> None -> last visited = Some (position s')) /\
    exists k',
      attemptProvider cfg ncfg (net w k') img key s'
      = match otext with
        | Some text => Some (Return text)
        | None => None
        end.
Proof.
  induction fuel as [|fuel IH]; intros k lastError s otext s' visited; cbn.
  - destruct (currentTier s <=? 3); discriminate.
  - destruct (Z.leb_spec (currentTier s) 3) as [Hle|]; [|discriminate].
    destruct (attemptProvider cfg ncfg (net w k) img key s) as [[v|e]|] eqn:Hatt.
    + intros [= <- <- <-]. split; [exact Hle|]. split; [reflexivity|].
      exists k. exact Hatt.
    + destruct (shouldFailover cfg (statusCode e) e); [|discriminate].
      destruct (solveLoop cfg ncfg fuel w img key (S k) (Some e) _)
        as [[[r1 s1] vis1]|] eqn:Hrec; [|discriminate].
      intros [= -> <- <-]. destruct (IH _ _ _ _ _ _ Hrec) as (Hle' & Hlast & Hk).
      split; [exact Hle'|]. split; [|exact Hk].
      intros Hsome. rewrite last_cons, (Hlast Hsome). reflexivity.
    + intros [= <- <- <-]. split; [exact Hle|]. split; [congruence|].
      exists k. exact Hatt.
Qed.




(** X7. A request on tier 3 cannot succeed. When the recovery check
    leaves the worker on [Tier(3, 0)], the request invokes NoPeCHA once
    and answers with the error of the adapter. If [shouldFailover]
    accepts the error (a submission refused with a trigger status is
    one), the worker is exhausted and stamped with the clock; if not, and
    so whenever the job was accepted, the state stays as it was and the
    answer carries the tier-3 tag. *)
Theorem tier3_request_ends_in_error cfg ncfg fuel now stored w img key s stamp :
  getApiKey stored = Return key ->
  checkCooldownRecovery cfg now s = Tier 3 0 stamp ->
  exists e,
    fst (solveCaptchaWithNoPeCHA ncfg (net w 0%nat) img) = Throw e /\
    handleCaptchaSolve cfg ncfg (S fuel) now stored w img s
    = (if shouldFailover cfg (statusCode e) e
       then Some (ErrorResponse (message e) StatusAllDown,
                  Tier 4 0 (Some (clock w 0%nat)), [(3, 0)])
       else Some (ErrorResponse (message e) StatusTier3, Tier 3 0 stamp, [(3, 0)])) /\
    (img <> "" -> accepted (net w 0%nat) img -> 1 <= maxPollAttempts ncfg ->
       e = sleepUndefined /\ shouldFailover cfg (statusCode e) e = false).
Proof.
  intros Hkey Hrec.
  destruct (solveCaptchaWithNoPeCHA_fails ncfg (net w 0%nat) img) as [(e & He) _].
  exists e. split; [exact He|]. split.
  - unfold handleCaptchaSolve, solveWithFailover. rewrite Hkey, Hrec.
    cbn [solveLoop]. unfold attemptProvider. cbn. rewrite He.
    destruct (shouldFailover cfg (statusCode e) e).
    + destruct fuel; reflexivity.
    + reflexivity.
  - intros Himg Hacc Hmax.
    rewrite (solveCaptchaWithNoPeCHA_accepted ncfg _ img Himg Hacc) in He.
    destruct (Z.to_nat (maxPollAttempts ncfg)) eqn:Hn; [lia|].
    cbn in He. injection He as <-. split; reflexivity.
Qed.

Lemma tier3_request_ends_in_error_witness :
  exists e,
    fst (solveCaptchaWithNoPeCHA NOPECHA_CONFIG (replying "AB12") "img") = Throw e /\
    handleCaptchaSolve FAILOVER_CONFIG NOPECHA_CONFIG 1 2000
      (StorageRead (Some "sk")) (steadyWorld (replying "AB12") 2000) "img"
      (Tier 3 0 (Some 1000))
    = (if shouldFailover FAILOVER_CONFIG (statusCode e) e
       then Some (ErrorResponse (message e) StatusAllDown,
                  Tier 4 0 (Some 2000), [(3, 0)])
       else Some (ErrorResponse (message e) StatusTier3,
                  Tier 3 0 (Some 1000), [(3, 0)])) /\
    ("img" <> "" -> accepted (replying "AB12") "img" ->
     1 <= maxPollAttempts NOPECHA_CONFIG ->
     e = sleepUndefined
     /\ shouldFailover FAILOVER_CONFIG (statusCode e) e = false).
Proof.
  apply (tier3_request_ends_in_error FAILOVER_CONFIG NOPECHA_CONFIG 0 2000
           (StorageRead (Some "sk")) (steadyWorld (replying "AB12") 2000) "img" "sk"
           (Tier 3 0 (Some 1000)) (Some 1000)).
  - reflexivity.
  - vm_compute. reflexivity.
Defined.

(** X8. A request that answers with a text carries the status tag of the
    state it leaves; from tier 1 upward the text is present and not
    empty, the provider at the place of that state is the last one
    invoked and the one that produced the text; and a text from tier 1 or
    2 is a token of 3 to 8 alphanumeric characters. *)
Theorem text_response_shape cfg ncfg fuel now stored w img s otext tag s' visited :
  handleCaptchaSolve cfg ncfg fuel now stored w img s
  = Some (TextResponse otext tag, s', visited) ->
  1 <= currentTier s' ->
  tag = getStatusIndicator cfg s' /\
  last visited = Some (position s') /\
  exists text,
    otext = Some text /\ text <> "" /\
    (currentTier s' = 1 \/ currentTier s' = 2 ->
       (3 <= String.length text <= 8)%nat /\ filterString isAlnum text = text).
Proof.
  intros Hrun Htier. unfold handleCaptchaSolve in Hrun.
  destruct (getApiKey stored) as [key|e]; [|discriminate].
  destruct (solveWithFailover cfg ncfg fuel w img key _)
    as [[[r s2] vis]|] eqn:Hloop; [|discriminate].
  destruct r as [v|e]; [|discriminate]. injection Hrun as -> <- -> ->.
  split; [reflexivity|].
  destruct (solveLoop_returns _ _ _ _ _ _ _ _ _ _ _ _ Hloop)
    as (Hle & Hlast & k' & Hatt).
  destruct otext as [text|].
  - split; [apply Hlast; discriminate|].
    destruct (attemptProvider_returns _ _ _ _ _ _ _ Hatt) as (_ & Hlen & Halnum).
    exists text. split; [reflexivity|]. split; [intros ->; cbn in Hlen; lia|].
    intros _. split; assumption.
  - exfalso. apply (attemptProvider_is_Some cfg ncfg (net w k') img key s'); [lia|].
    exact Hatt.
Qed.

Lemma text_response_shape_witness :
  StatusTier1 "google/gemini-2.0-flash-exp:free"
  = getStatusIndicator FAILOVER_CONFIG initialState
  /\ last [(1, 0)] = Some (position initialState)
  /\ exists text,
       Some "AB12" = Some text /\ text <> "" /\
       (currentTier initialState = 1 \/ currentTier initialState = 2 ->
          (3 <= String.length text <= 8)%nat /\ filterString isAlnum text = text).
Proof.
  apply (text_response_shape FAILOVER_CONFIG NOPECHA_CONFIG 5 0
           (StorageRead (Some "sk")) (steadyWorld (replying "  AB12!! ") 1) "img"
           initialState (Some "AB12")
           (StatusTier1 "google/gemini-2.0-flash-exp:free") initialState [(1, 0)]).
  - vm_compute. reflexivity.
  - cbn. lia.
Defined.

(** ** The parse steps on their own results *)

Lemma isAlnum_not_isQuoteOrSpace c :
  isAlnum c = true -> Surgeon.isQuoteOrSpace c = false.
Proof.
  intros Hc. destruct (Surgeon.isQuoteOrSpace c) eqn:Hq; [|reflexivity].
  rewrite (isQuoteOrSpace_not_isAlnum c Hq) in Hc. discriminate.
Qed.

Lemma filterString_quotes_fixed m :
  filterString isAlnum m = m ->
  filterString (fun c => negb (Surgeon.isQuoteOrSpace c)) m = m.
Proof.
  induction m as [|c rest IH]; [reflexivity|]. intros Hfix.
  destruct (filterString_fixed_cons _ _ _ Hfix) as [Hc Hrest].
  cbn. rewrite (isAlnum_not_isQuoteOrSpace c Hc). cbn. rewrite (IH Hrest).
  reflexivity.
Qed.

Lemma alnumRun_fixed n m :
  filterString isAlnum m = m -> (String.length m <= n)%nat ->
  Surgeon.alnumRun n m = m.
Proof.
  revert n. induction m as [|c rest IH]; intros n Hfix Hlen.
  - destruct n; reflexivity.
  - destruct (filterString_fixed_cons _ _ _ Hfix) as [Hc Hrest].
    destruct n as [|n]; [cbn in Hlen; lia|]. cbn. rewrite Hc.
    rewrite (IH n Hrest); [reflexivity | cbn in Hlen; lia].
Qed.

(** ** The two parse steps against the parse law *)

Lemma threeAlnum_alnumRun s :
  threeAlnum s = (3 <=? Z.of_nat (String.length (Surgeon.alnumRun 8 s))).
Proof.
  destruct s as [|a [|b [|c rest]]]; cbn [threeAlnum Surgeon.alnumRun];
    try reflexivity;
    destruct (isAlnum a); try reflexivity;
    destruct (isAlnum b); try reflexivity;
    destruct (isAlnum c); try reflexivity.
  cbn [andb String.length]. symmetry. apply Z.leb_le. lia.
Qed.

Lemma append_nil_l (s : string) : "" ++ s = s.
Proof. reflexivity. Qed.

Lemma append_cons c (a b : string) : String c a ++ b = String c (a ++ b).
Proof. reflexivity. Qed.

Lemma alnumRun_split n s :
  exists post,
    s = Surgeon.alnumRun n s ++ post
    /\ ((String.length (Surgeon.alnumRun n s) < n)%nat -> beginsAlnum post = false).
Proof.
  revert s. induction n as [|n IH]; intros s.
  { exists s. destruct s; split; try reflexivity; cbn; lia. }
  destruct s as [|c rest].
  { exists "". split; reflexivity. }
  cbn [Surgeon.alnumRun]. destruct (isAlnum c) eqn:Hc.
  - destruct (IH rest) as (post & Hsplit & Hend). exists post. split.
    + rewrite append_cons. f_equal. exact Hsplit.
    + cbn [String.length]. intros Hlen. apply Hend. lia.
  - exists (String c rest). split; [reflexivity|]. intros _. exact Hc.
Qed.

Lemma alnumRun_app n m post :
  filterString isAlnum m = m -> (String.length m <= n)%nat ->
  ((String.length m < n)%nat -> beginsAlnum post = false) ->
  Surgeon.alnumRun n (m ++ post) = m.
Proof.
  revert n. induction m as [|c rest IH]; intros n Hfix Hlen Hend.
  - rewrite append_nil_l. destruct n as [|n]; [destruct post; reflexivity|].
    destruct post as [|d post]; [reflexivity|].
    cbn [Surgeon.alnumRun]. cbn in Hend. rewrite Hend by lia. reflexivity.
  - destruct (filterString_fixed_cons _ _ _ Hfix) as [Hc Hrest].
    destruct n as [|n]; [cbn in Hlen; lia|].
    rewrite append_cons. cbn [Surgeon.alnumRun]. rewrite Hc.
    rewrite (IH n Hrest); [reflexivity | cbn in Hlen; lia |].
    intros Hlt. apply Hend. cbn [String.length]. lia.
Qed.

(** The search fails exactly when no three alphanumeric characters stand
    in a row. *)
Lemma matchToken_None s :
  Surgeon.matchToken s = None <->
  forall p1 p2, s = p1 ++ p2 -> threeAlnum p2 = false.
Proof.
  induction s as [|c rest IH].
  { split; [|reflexivity]. intros _ [|a p1] p2;
      rewrite ?append_nil_l, ?append_cons; [|discriminate].
    intros <-. reflexivity. }
  cbn [Surgeon.matchToken]. rewrite <- threeAlnum_alnumRun. split.
  - destruct (threeAlnum (String c rest)) eqn:Hthree; [discriminate|].
    intros Hnone [|a p1] p2; rewrite ?append_nil_l, ?append_cons.
    + intros <-. exact Hthree.
    + intros [= _ Hrest]. apply (proj1 IH Hnone p1 p2 Hrest).
  - intros Hall. rewrite (Hall "" (String c rest) eq_refl).
    apply IH. intros p1 p2 Hrest. apply (Hall (String c p1) p2).
    rewrite append_cons. f_equal. exact Hrest.
Qed.

(** The search returns the leftmost token. *)
Lemma matchToken_leftmost s m :
  Surgeon.matchToken s = Some m <-> leftmostToken s m.
Proof.
  split.
  - revert m. induction s as [|c rest IH]; intros m; [discriminate|].
    cbn [Surgeon.matchToken]. rewrite <- threeAlnum_alnumRun.
    destruct (threeAlnum (String c rest)) eqn:Hthree.
    + intros Hm.
      assert (Heq : m = Surgeon.alnumRun 8 (String c rest)) by congruence.
      destruct (alnumRun_split 8 (String c rest)) as (post & Hsplit & Hend).
      rewrite <- Heq in Hsplit, Hend.
      exists "", post. split; [exact Hsplit|]. split.
      { intros [|a p1] p2; rewrite ?append_nil_l, ?append_cons; [|discriminate].
        intros <- Hp2. contradiction. }
      split; [rewrite Heq; apply alnumRun_alnum|].
      split; [|exact Hend].
      rewrite threeAlnum_alnumRun in Hthree. rewrite <- Heq in Hthree.
      apply Z.leb_le in Hthree.
      pose proof (alnumRun_length 8 (String c rest)) as Hmax.
      rewrite <- Heq in Hmax. lia.
    + intros Hm. destruct (IH m Hm) as (pre & post & Hsplit & Hleft & Hrest).
      exists (String c pre), post.
      split; [rewrite append_cons; f_equal; exact Hsplit|].
      split; [|exact Hrest].
      intros [|a p1] p2; rewrite ?append_nil_l, ?append_cons.
      * intros <- _. rewrite append_cons, <- Hsplit. exact Hthree.
      * intros [= _ Hpre] Hp2. apply (Hleft p1 p2 Hpre Hp2).
  - intros (pre & post & -> & Hleft & Hfix & Hlen & Hend).
    induction pre as [|c pre IH].
    + rewrite append_nil_l. destruct m as [|c m]; [cbn in Hlen; lia|].
      rewrite append_cons. cbn [Surgeon.matchToken]. rewrite <- append_cons.
      rewrite (alnumRun_app 8 (String c m) post Hfix) by (lia || exact Hend).
      destruct (Z.leb_spec 3 (Z.of_nat (String.length (String c m)))); [reflexivity|].
      lia.
    + rewrite append_cons. cbn [Surgeon.matchToken]. rewrite <- threeAlnum_alnumRun.
      rewrite <- append_cons.
      rewrite (Hleft "" (String c pre) eq_refl) by discriminate.
      apply IH. intros p1 p2 Hpre Hp2. apply (Hleft (String c p1) p2); [|exact Hp2].
      rewrite append_cons. f_equal. exact Hpre.
Qed.

(** [cleanCaptchaText] follows the parse law. *)
Lemma cleanCaptchaText_law : stripsAndChecksLength cleanCaptchaText.
Proof.
  intros raw. rewrite cleanCaptchaText_spec.
  destruct ((3 <=? Z.of_nat (String.length (filterString isAlnum raw)))
            && (Z.of_nat (String.length (filterString isAlnum raw)) <=? 8));
    [reflexivity | eexists; reflexivity].
Qed.

(** C8, as stated, fails on [cleanText]: the raw text "AB-12" has the
    cleaned form "AB12", of length 4, and [cleanText] rejects it. *)
Lemma C8_cleanText_counterexample : ~ stripsAndChecksLength Surgeon.cleanText.
Proof.
  intros Hlaw. specialize (Hlaw "AB-12"). vm_compute in Hlaw. discriminate.
Qed.

(** C8, amended. The parse step of the chat adapter of the failover
    worker follows the parse law: it removes every character that is not
    alphanumeric and accepts what is left exactly when its length is
    between 3 and 8; the raw text "  AB12!! " gives "AB12"; a raw text
    that leaves two characters is rejected with an error that
    [shouldFailover] accepts, so that the orchestrator moves on to the
    next provider. The parse step of the cache-bearing worker removes
    only double quotes, single quotes and spaces, and returns the
    leftmost run of at least 3 alphanumeric characters of what remains,
    cut after 8; it fails with "UNPARSEABLE" exactly when no three
    alphanumeric characters stand in a row there. It agrees on both
    examples, but "AB-12" fails and "ABCDEFGHIJ" gives "ABCDEFGH". On
    tier 2 a reply of the first model that leaves two characters is
    followed by the request to the second model. *)
Theorem C8_parse_step cfg ncfg :
  cleanCaptchaText "  AB12!! " = Return "AB12" /\
  (forall raw cleaned,
     cleanCaptchaText raw = Return cleaned <->
     cleaned = filterString isAlnum raw
     /\ (3 <= String.length cleaned <= 8)%nat) /\
  stripsAndChecksLength cleanCaptchaText /\
  (forall raw,
     String.length (filterString isAlnum raw) = 2%nat ->
     exists e, cleanCaptchaText raw = Throw e
               /\ shouldFailover cfg (statusCode e) e = true) /\
  (forall fuel w img key k lastError s httpStatus body raw,
     key <> "" -> currentTier s = 1 \/ currentTier s = 2 ->
     (forall model,
        openRouter (net w k) model img key = OrResponded httpStatus body (Some raw)) ->
     ok httpStatus = true -> raw <> "" ->
     String.length (filterString isAlnum raw) = 2%nat ->
     exists e,
       attemptProvider cfg ncfg (net w k) img key s = Some (Throw e)
       /\ shouldFailover cfg (statusCode e) e = true
       /\ solveLoop cfg ncfg (S fuel) w img key k lastError s
          = match solveLoop cfg ncfg fuel w img key (S k) (Some e)
                    (advanceFailover cfg
                       (getCurrentModelName cfg s ++ ": " ++ message e)
                       (clock w k) s) with
            | Some (r, s', visited) => Some (r, s', position s :: visited)
            | None => None
            end) /\
  (forall raw m,
     Surgeon.cleanText raw = Return m <-> leftmostToken (unquoted raw) m) /\
  (forall raw,
     Surgeon.cleanText raw = Throw (newError "UNPARSEABLE") <->
     forall p1 p2, unquoted raw = p1 ++ p2 -> threeAlnum p2 = false) /\
  (forall raw e, Surgeon.cleanText raw = Throw e -> e = newError "UNPARSEABLE") /\
  Surgeon.cleanText "  AB12!! " = Return "AB12" /\
  (forall raw,
     String.length (filterString isAlnum raw) = 2%nat ->
     Surgeon.cleanText raw = Throw (newError "UNPARSEABLE")) /\
  (forall raw m,
     Surgeon.cleanText raw = Return m ->
     (3 <= String.length m <= 8)%nat /\ filterString isAlnum m = m) /\
  Surgeon.cleanText "AB-12" = Throw (newError "UNPARSEABLE") /\
  Surgeon.cleanText "ABCDEFGHIJ" = Return "ABCDEFGH" /\
  (forall scfg n img h s httpStatus raw,
     Surgeon.currentTier s = 2 ->
     Surgeon.openRouter n 0 (index (Surgeon.openRouterModels scfg) 0) img
     = Surgeon.Responded httpStatus (Some raw) ->
     Surgeon.ok httpStatus = true -> raw <> "" ->
     String.length (filterString isAlnum raw) = 2%nat ->
     Surgeon.solveOpenRouter scfg n img 0 = Throw (newError "UNPARSEABLE")
     /\ snd (Surgeon.runSolve scfg n img h s)
        = [Surgeon.OpenRouter 0; Surgeon.OpenRouter 1]).
Proof.
  assert (Hreject : forall raw,
     String.length (filterString isAlnum raw) = 2%nat ->
     exists e, cleanCaptchaText raw = Throw e
               /\ shouldFailover cfg (statusCode e) e = true).
  { intros raw Hlen. rewrite cleanCaptchaText_spec, Hlen. cbn [Z.of_nat].
    eexists. split; [reflexivity|]. apply parse_error_retryable. }
  split; [reflexivity|].
  split.
  { intros raw cleaned. rewrite cleanCaptchaText_spec.
    destruct (Z.leb_spec 3 (Z.of_nat (String.length (filterString isAlnum raw))));
      destruct (Z.leb_spec (Z.of_nat (String.length (filterString isAlnum raw))) 8);
      cbn [andb]; split.
    all: try (intros [= <-]; split; [reflexivity | lia]).
    all: try (intros [-> ?]; reflexivity).
    all: try discriminate.
    all: intros [-> ?]; lia. }
  split; [exact cleanCaptchaText_law|].
  split; [exact Hreject|].
  split.
  { intros fuel w img key k lastError s httpStatus body raw
           Hkey Htier Hnet Hok Hraw Hlen.
    destruct (Hreject raw Hlen) as (e & Hparse & Hretry).
    assert (Hatt : attemptProvider cfg ncfg (net w k) img key s = Some (Throw e)).
    { unfold attemptProvider, executeOpenRouterRequest.
      destruct (String.eqb_spec key ""); [contradiction|].
      rewrite !Hnet, Hok. cbn [negb truthyString].
      destruct (String.eqb_spec raw ""); [contradiction|]. cbn [negb].
      rewrite Hparse. destruct Htier as [-> | ->]; reflexivity. }
    exists e. split; [exact Hatt|]. split; [exact Hretry|].
    cbn [solveLoop].
    destruct (Z.leb_spec (currentTier s) 3); [|lia].
    rewrite Hatt, Hretry. reflexivity. }
  split.
  { intros raw m. rewrite <- matchToken_leftmost. unfold Surgeon.cleanText, unquoted.
    destruct (Surgeon.matchToken _) as [m'|]; split; congruence. }
  split.
  { intros raw. rewrite <- matchToken_None. unfold Surgeon.cleanText, unquoted.
    destruct (Surgeon.matchToken _) as [m'|]; split; congruence. }
  split.
  { intros raw e. unfold Surgeon.cleanText.
    destruct (Surgeon.matchToken _); congruence. }
  split; [reflexivity|].
  split.
  { intros raw Hlen. unfold Surgeon.cleanText.
    destruct (Surgeon.matchToken _) as [m|] eqn:Hm; [|reflexivity].
    apply matchToken_Some in Hm. rewrite filterString_quotes in Hm. lia. }
  split.
  { intros raw m. unfold Surgeon.cleanText.
    destruct (Surgeon.matchToken _) as [m'|] eqn:Hm; [|discriminate].
    intros [= <-]. split.
    - apply matchToken_Some in Hm. lia.
    - apply matchToken_alnum in Hm. exact Hm. }
  split; [reflexivity|]. split; [reflexivity|].
  intros scfg n img h s httpStatus raw Htier Hnet Hok Hraw Hlen.
  assert (Hfirst : Surgeon.solveOpenRouter scfg n img 0
                   = Throw (newError "UNPARSEABLE")).
  { unfold Surgeon.solveOpenRouter. rewrite Hnet.
    destruct (Z.eqb_spec httpStatus 429) as [->|_]; [discriminate Hok|].
    rewrite Hok. cbn [negb truthyString].
    destruct (String.eqb_spec raw ""); [contradiction|]. cbn [negb].
    unfold Surgeon.cleanText.
    destruct (Surgeon.matchToken _) as [m|] eqn:Hm; [|reflexivity].
    apply matchToken_Some in Hm. rewrite filterString_quotes in Hm. lia. }
  split; [exact Hfirst|].
  unfold Surgeon.runSolve, Surgeon.solveTier2. rewrite Htier, Hfirst. reflexivity.
Qed.

Lemma C8_parse_step_witness :
  (exists e, cleanCaptchaText " a-b. " = Throw e
             /\ shouldFailover FAILOVER_CONFIG (statusCode e) e = true)
  /\ leftmostToken (unquoted "- 'ABCDEFGHIJ'") "ABCDEFGH".
Proof.
  destruct (C8_parse_step FAILOVER_CONFIG NOPECHA_CONFIG)
    as (_ & _ & _ & Hreject & _ & Hleft & _).
  split.
  - apply (Hreject " a-b. "). reflexivity.
  - apply Hleft. reflexivity.
Defined.

(** X9. Both parse steps leave their own results alone: a token that
    [cleanCaptchaText] or [cleanText] returned is returned unchanged when
    it is parsed again. *)
Theorem parse_steps_fix_their_results raw t :
  (cleanCaptchaText raw = Return t -> cleanCaptchaText t = Return t) /\
  (Surgeon.cleanText raw = Return t -> Surgeon.cleanText t = Return t).
Proof.
  split.
  - intros Hparse. destruct (cleanCaptchaText_token _ _ Hparse) as [Hlen Hfix].
    rewrite cleanCaptchaText_spec, Hfix.
    destruct (Z.leb_spec 3 (Z.of_nat (String.length t))); [|lia].
    destruct (Z.leb_spec (Z.of_nat (String.length t)) 8); [|lia].
    reflexivity.
  - unfold Surgeon.cleanText at 1.
    destruct (Surgeon.matchToken _) as [m|] eqn:Hm; [|discriminate].
    intros [= <-].
    pose proof (matchToken_Some _ _ Hm) as [Hlen _].
    pose proof (matchToken_alnum _ _ Hm) as Hfix.
    unfold Surgeon.cleanText. rewrite (filterString_quotes_fixed m Hfix).
    destruct m as [|c rest]; [cbn in Hlen; lia|].
    cbn [Surgeon.matchToken]. rewrite (alnumRun_fixed 8 _ Hfix) by lia.
    destruct (Z.leb_spec 3 (Z.of_nat (String.length (String c rest)))); [|lia].
    reflexivity.
Qed.

Lemma parse_steps_fix_their_results_witness :
  cleanCaptchaText "AB12" = Return "AB12".
Proof.
  destruct (parse_steps_fix_their_results "  AB12!! " "AB12") as [Hfix _].
  apply Hfix. reflexivity.
Defined.

(** * Further properties of the cache-bearing worker *)

Lemma settle_tier h r s :
  1 <= Surgeon.currentTier s <= 3 ->
  1 <= Surgeon.currentTier (snd (Surgeon.settle h r s)) <= 3.
Proof.
  intros Ht. unfold Surgeon.settle. destruct r as [v|e]; cbn; [exact Ht|].
  assert (Hcase : Surgeon.currentTier s = 1 \/ Surgeon.currentTier s = 2
                  \/ Surgeon.currentTier s = 3) by lia.
  destruct Hcase as [-> | [-> | ->]]; vm_compute; split; discriminate.
Qed.

Lemma runSolve_tier scfg n img h s :
  1 <= Surgeon.currentTier s <= 3 ->
  1 <= Surgeon.currentTier (snd (fst (Surgeon.runSolve scfg n img h s))) <= 3.
Proof.
  intros Ht. unfold Surgeon.runSolve.
  destruct (Surgeon.currentTier s =? 1).
  - destruct (String.eqb (Surgeon.nopechaKey scfg) ""); cbn [fst snd].
    + apply settle_tier. cbn. lia.
    + apply settle_tier, Ht.
  - destruct (Surgeon.currentTier s =? 2); cbn [fst snd]; apply settle_tier, Ht.
Qed.

Lemma runSolve_keyless scfg n img h s :
  Surgeon.nopechaKey scfg = "" ->
  ~ In Surgeon.NoPeCHA (snd (Surgeon.runSolve scfg n img h s)).
Proof.
  intros Hkey. unfold Surgeon.runSolve, Surgeon.solveTier2. rewrite Hkey.
  destruct (Surgeon.currentTier s =? 1); [|destruct (Surgeon.currentTier s =? 2)];
    cbn; try destruct (Surgeon.solveOpenRouter scfg n img 0); cbn;
    intros H; repeat (destruct H as [H|H]; [discriminate|]); exact H.
Qed.

Lemma onMessage_tier scfg n req s :
  1 <= Surgeon.currentTier s <= 3 ->
  1 <= Surgeon.currentTier (snd (fst (Surgeon.onMessage scfg n req s))) <= 3.
Proof.
  intros Ht. destruct req as [|img| |]; cbn; try exact Ht.
  - destruct (truthyString _); [exact Ht|].
    pose proof (runSolve_tier scfg n img (Surgeon.hash img) s Ht) as Hrun.
    destruct (Surgeon.runSolve scfg n img (Surgeon.hash img) s) as [[resp s1] inv].
    exact Hrun.
  - destruct (Surgeon.lastSolved s) as [[h text]|]; exact Ht.
Qed.

Lemma onMessage_keyless scfg n req s :
  Surgeon.nopechaKey scfg = "" ->
  ~ In Surgeon.NoPeCHA (snd (Surgeon.onMessage scfg n req s)).
Proof.
  intros Hkey. destruct req as [|img| |]; cbn; try (intros []).
  - destruct (truthyString _); [intros []|].
    pose proof (runSolve_keyless scfg n img (Surgeon.hash img) s Hkey) as Hrun.
    destruct (Surgeon.runSolve scfg n img (Surgeon.hash img) s) as [[resp s1] inv].
    exact Hrun.
  - destruct (Surgeon.lastSolved s) as [[h text]|]; intros [].
Qed.

(** X10. The tier of the cache-bearing worker stays among 1, 2 and 3
    through every series of messages; and without a NoPeCHA key, which is
    how the worker ships, no message ever leads to an invocation of
    NoPeCHA. *)
Theorem surgeon_tier_stays_in_range scfg msgs s :
  1 <= Surgeon.currentTier s <= 3 ->
  1 <= Surgeon.currentTier (snd (Surgeon.session scfg msgs s)) <= 3 /\
  (Surgeon.nopechaKey scfg = "" ->
     Forall (fun out => ~ In Surgeon.NoPeCHA (snd out))
       (fst (Surgeon.session scfg msgs s))).
Proof.
  revert s. induction msgs as [|[req n] rest IH]; intros s Ht.
  { split; [exact Ht | intros _; constructor]. }
  cbn [Surgeon.session].
  pose proof (onMessage_tier scfg n req s Ht) as Hstep.
  pose proof (onMessage_keyless scfg n req s) as Hkeyless.
  destruct (Surgeon.onMessage scfg n req s) as [[resp s1] inv].
  cbn [fst snd] in Hstep, Hkeyless.
  destruct (IH s1 Hstep) as [Htier Hnever].
  destruct (Surgeon.session scfg rest s1) as [out s2]. cbn [fst snd] in *.
  split; [exact Htier|]. intros Hkey. constructor; [apply Hkeyless, Hkey|].
  apply Hnever, Hkey.
Qed.

Lemma surgeon_tier_stays_in_range_witness :
  1 <= Surgeon.currentTier
         (snd (Surgeon.session Surgeon.CONFIG
                 [(Surgeon.SolveCaptcha "img", refusing 500);
                  (Surgeon.SolveCaptcha "img", refusing 500)]
                 (Surgeon.startup None))) <= 3.
Proof.
  apply (surgeon_tier_stays_in_range Surgeon.CONFIG
           [(Surgeon.SolveCaptcha "img", refusing 500);
            (Surgeon.SolveCaptcha "img", refusing 500)] (Surgeon.startup None)).
  cbn. lia.
Defined.

Lemma runSolve_answers scfg n img h s :
  let resp := fst (fst (Surgeon.runSolve scfg n img h s)) in
  isError resp \/ exists text tag, resp = Surgeon.TextResponse text tag /\ text <> "".
Proof.
  destruct (Surgeon.runSolve scfg n img h s) as [[resp s1] inv] eqn:Hrun. cbn.
  destruct (runSolve_spec _ _ _ _ _ _ _ _ Hrun) as (_ & _ & _ & Htext & _).
  destruct resp as [|text tag|msg].
  - exfalso. revert Hrun. unfold Surgeon.runSolve, Surgeon.settle.
    destruct (Surgeon.currentTier s =? 1);
      [destruct (String.eqb _ _) | destruct (Surgeon.currentTier s =? 2)];
      match goal with
      | |- context [match ?r with Return _ => _ | Throw _ => _ end] => destruct r
      end; discriminate.
  - right. exists text, tag. split; [reflexivity|]. apply (Htext _ _ eq_refl).
  - left. exists msg. reflexivity.
Qed.

(** X11. Every solve request is answered, and the answer is either an
    error or a text that is not empty; a text from a provider (not from
    the cache) is tagged with the tier the worker is left on. *)
Theorem surgeon_solve_is_answered scfg n img s :
  exists resp,
    fst (fst (Surgeon.onMessage scfg n (Surgeon.SolveCaptcha img) s)) = Some resp
    /\ (isError resp
        \/ exists text tag,
             resp = Surgeon.TextResponse text tag /\ text <> "" /\
             (tag = Surgeon.Cached
              \/ tag = Surgeon.TierTag
                         (Surgeon.currentTier
                            (snd (fst (Surgeon.onMessage scfg n
                                         (Surgeon.SolveCaptcha img) s)))))).
Proof.
  cbn [Surgeon.onMessage].
  destruct (Surgeon.cache s !! Surgeon.hash img) as [cached|] eqn:Hlook;
    cbn [truthyString].
  - destruct (String.eqb_spec cached "") as [->|Hne]; cbn [negb].
    + pose proof (runSolve_answers scfg n img (Surgeon.hash img) s) as Hans.
      destruct (Surgeon.runSolve scfg n img (Surgeon.hash img) s)
        as [[resp s1] inv] eqn:Hrun.
      cbn in Hans. exists resp. split; [reflexivity|].
      destruct Hans as [Herr | (text & tag & -> & Hne)]; [left; exact Herr|].
      right. exists text, tag. split; [reflexivity|]. split; [exact Hne|]. right.
      cbn [fst snd]. revert Hrun. unfold Surgeon.runSolve, Surgeon.settle.
      destruct (Surgeon.currentTier s =? 1);
        [destruct (String.eqb _ _) | destruct (Surgeon.currentTier s =? 2)];
        match goal with
        | |- context [match ?r with Return _ => _ | Throw _ => _ end] => destruct r
        end; intros [= <- <- <- _]; reflexivity.
    + exists (Surgeon.TextResponse cached Surgeon.Cached). split; [reflexivity|].
      right. exists cached, Surgeon.Cached. auto.
  - pose proof (runSolve_answers scfg n img (Surgeon.hash img) s) as Hans.
    destruct (Surgeon.runSolve scfg n img (Surgeon.hash img) s)
      as [[resp s1] inv] eqn:Hrun.
    cbn in Hans. exists resp. split; [reflexivity|].
    destruct Hans as [Herr | (text & tag & -> & Hne)]; [left; exact Herr|].
    right. exists text, tag. split; [reflexivity|]. split; [exact Hne|]. right.
    cbn [fst snd]. revert Hrun. unfold Surgeon.runSolve, Surgeon.settle.
    destruct (Surgeon.currentTier s =? 1);
      [destruct (String.eqb _ _) | destruct (Surgeon.currentTier s =? 2)];
      match goal with
      | |- context [match ?r with Return _ => _ | Throw _ => _ end] => destruct r
      end; intros [= <- <- <- _]; reflexivity.
Qed.

(** ** The fingerprint *)

Lemma toInt32_range x : - 2 ^ 31 <= Surgeon.toInt32 x < 2 ^ 31.
Proof.
  unfold Surgeon.toInt32.
  pose proof (Z.mod_pos_bound (x + 2 ^ 31) (2 ^ 32) ltac:(lia)). lia.
Qed.

Lemma toInt32_congr x y :
  x mod 2 ^ 32 = y mod 2 ^ 32 -> Surgeon.toInt32 x = Surgeon.toInt32 y.
Proof.
  intros H. unfold Surgeon.toInt32. f_equal.
  rewrite <- (Zplus_mod_idemp_l x), <- (Zplus_mod_idemp_l y), H. reflexivity.
Qed.

Lemma toInt32_mod x : Surgeon.toInt32 x mod 2 ^ 32 = x mod 2 ^ 32.
Proof.
  unfold Surgeon.toInt32.
  rewrite <- Zminus_mod_idemp_l, Z.mod_mod by lia.
  rewrite Zminus_mod_idemp_l. f_equal. lia.
Qed.

(** One step of the loop of [hash], without the inner wrap-around. *)
Lemma hash_step h c :
  Surgeon.toInt32 (Surgeon.imul 31 h + c) = Surgeon.toInt32 (31 * h + c).
Proof.
  apply toInt32_congr. unfold Surgeon.imul.
  rewrite <- Zplus_mod_idemp_l, toInt32_mod, Zplus_mod_idemp_l. reflexivity.
Qed.

Lemma hashFrom_app h s1 s2 :
  Surgeon.hashFrom h (s1 ++ s2) = Surgeon.hashFrom (Surgeon.hashFrom h s1) s2.
Proof.
  revert h. induction s1 as [|c rest IH]; intros h; [reflexivity|].
  cbn. apply IH.
Qed.

Lemma hashFrom_range h s :
  - 2 ^ 31 <= h < 2 ^ 31 -> - 2 ^ 31 <= Surgeon.hashFrom h s < 2 ^ 31.
Proof.
  revert h. induction s as [|c rest IH]; intros h Hh; [exact Hh|].
  cbn [Surgeon.hashFrom]. apply IH, toInt32_range.
Qed.

(** Two characters A, a and two characters B, B move the fingerprint in
    the same way. *)
Lemma hashFrom_Aa_BB h : Surgeon.hashFrom h "Aa" = Surgeon.hashFrom h "BB".
Proof.
  cbn [Surgeon.hashFrom]. rewrite !hash_step. apply toInt32_congr.
  change (charCode "a") with 97. change (charCode "A") with 65.
  change (charCode "B") with 66.
  rewrite <- (Zplus_mod_idemp_l (31 * Surgeon.toInt32 (31 * h + 65))).
  rewrite <- (Zplus_mod_idemp_l (31 * Surgeon.toInt32 (31 * h + 66))).
  rewrite <- (Zmult_mod_idemp_r (Surgeon.toInt32 (31 * h + 65))).
  rewrite <- (Zmult_mod_idemp_r (Surgeon.toInt32 (31 * h + 66))).
  rewrite !toInt32_mod.
  rewrite !Zmult_mod_idemp_r, !Zplus_mod_idemp_l. f_equal. lia.
Qed.

Lemma hash_collision p q :
  Surgeon.hash (p ++ "Aa" ++ q) = Surgeon.hash (p ++ "BB" ++ q).
Proof.
  unfold Surgeon.hash. f_equal.
  rewrite !hashFrom_app. f_equal. apply hashFrom_Aa_BB.
Qed.

(** A cache entry answers the request. *)
Lemma onMessage_cached scfg n img s text :
  Surgeon.cache s !! Surgeon.hash img = Some text -> text <> "" ->
  Surgeon.onMessage scfg n (Surgeon.SolveCaptcha img) s
  = (Some (Surgeon.TextResponse text Surgeon.Cached), s, []).
Proof.
  intros Hlook Htext. unfold Surgeon.onMessage.
  rewrite Hlook. cbn [truthyString default].
  destruct (String.eqb_spec text ""); [contradiction|]. reflexivity.
Qed.

(** A provider result is not empty and becomes the pending candidate. *)
Lemma onMessage_solved scfg n img s text tier s1 invoked :
  Surgeon.onMessage scfg n (Surgeon.SolveCaptcha img) s
  = (Some (Surgeon.TextResponse text (Surgeon.TierTag tier)), s1, invoked) ->
  text <> "" /\ Surgeon.lastSolved s1 = Some (Surgeon.hash img, text)
  /\ Surgeon.cache s1 = Surgeon.cache s
  /\ Surgeon.captchaCache s1 = Surgeon.captchaCache s.
Proof.
  unfold Surgeon.onMessage.
  destruct (truthyString (Surgeon.cache s !! Surgeon.hash img)); [discriminate|].
  destruct (Surgeon.runSolve scfg n img (Surgeon.hash img) s)
    as [[resp s1'] inv1] eqn:Hrun.
  intros [= -> -> ->].
  destruct (runSolve_spec _ _ _ _ _ _ _ _ Hrun) as (Hc & Hd & _ & Htext & _).
  destruct (Htext _ _ eq_refl) as (Hne & _ & Hpending). auto.
Qed.

(** X12. The fingerprint is a 32-bit signed integer written in decimal,
    it is computed left to right, and it is not injective: replacing "Aa"
    by "BB" anywhere in an image leaves it unchanged. The cache does not
    tell such images apart: once a result for one of them is confirmed,
    a request for the other is answered with that result from the cache,
    without any provider being invoked. *)
Theorem fingerprint_collisions_hit_the_cache scfg :
  (forall s, exists z, Surgeon.hash s = showZ z /\ - 2 ^ 31 <= z < 2 ^ 31) /\
  (forall h s1 s2,
     Surgeon.hashFrom h (s1 ++ s2) = Surgeon.hashFrom (Surgeon.hashFrom h s1) s2) /\
  (forall p q, Surgeon.hash (p ++ "Aa" ++ q) = Surgeon.hash (p ++ "BB" ++ q)) /\
  (forall n1 n2 n3 p q s text tier s1 invoked,
     Surgeon.onMessage scfg n1 (Surgeon.SolveCaptcha (p ++ "Aa" ++ q)) s
     = (Some (Surgeon.TextResponse text (Surgeon.TierTag tier)), s1, invoked) ->
     exists s3,
       Surgeon.session scfg
         [(Surgeon.ReportLoginSuccess, n2);
          (Surgeon.SolveCaptcha (p ++ "BB" ++ q), n3)] s1
       = ([(None, []); (Some (Surgeon.TextResponse text Surgeon.Cached), [])], s3)).
Proof.
  split; [|split; [|split]].
  - intros s. exists (Surgeon.hashFrom 0 s). split; [reflexivity|].
    apply hashFrom_range. lia.
  - apply hashFrom_app.
  - apply hash_collision.
  - intros n1 n2 n3 p q s text tier s1 invoked Hfirst.
    destruct (onMessage_solved _ _ _ _ _ _ _ _ Hfirst) as (Hne & Hpending & _).
    cbn [Surgeon.session]. unfold Surgeon.onMessage at 1. rewrite Hpending.
    rewrite (onMessage_cached scfg n3 (p ++ "BB" ++ q) _ text).
    + eexists. reflexivity.
    + cbn [Surgeon.cache]. rewrite <- hash_collision. apply lookup_insert_eq.
    + exact Hne.
Qed.

Lemma fingerprint_collisions_hit_the_cache_witness :
  exists s3,
    Surgeon.session Surgeon.CONFIG
      [(Surgeon.ReportLoginSuccess, refusing 500);
       (Surgeon.SolveCaptcha "xBBy", refusing 500)]
      (snd (fst (Surgeon.onMessage Surgeon.CONFIG (answering "AB12")
                   (Surgeon.SolveCaptcha "xAay") (Surgeon.startup None))))
    = ([(None, []); (Some (Surgeon.TextResponse "AB12" Surgeon.Cached), [])], s3).
Proof.
  destruct (fingerprint_collisions_hit_the_cache Surgeon.CONFIG)
    as (_ & _ & _ & Hhit).
  apply (Hhit (answering "AB12") (refusing 500) (refusing 500) "x" "y"
           (Surgeon.startup None) "AB12" 2 _ [Surgeon.OpenRouter 0]).
  vm_compute. reflexivity.
Defined.

(** X13. The report of a login success commits the result of the last
    solve that succeeded, not of the last request: after a solve that
    returned a text and a later solve that failed, the report writes the
    earlier result into the cache, under the fingerprint of the earlier
    image, and empties the pending slot; a second report changes
    nothing. *)
Theorem report_commits_the_last_success scfg n1 n2 n3 n4 img1 img2 s
    text tier s1 inv1 msg s2 inv2 :
  Surgeon.onMessage scfg n1 (Surgeon.SolveCaptcha img1) s
  = (Some (Surgeon.TextResponse text (Surgeon.TierTag tier)), s1, inv1) ->
  Surgeon.onMessage scfg n2 (Surgeon.SolveCaptcha img2) s1
  = (Some (Surgeon.ErrorResponse msg), s2, inv2) ->
  let s3 := snd (fst (Surgeon.onMessage scfg n3 Surgeon.ReportLoginSuccess s2)) in
  Surgeon.cache s3 = <[Surgeon.hash img1 := text]> (Surgeon.cache s)
  /\ Surgeon.captchaCache s3 = Some (<[Surgeon.hash img1 := text]> (Surgeon.cache s))
  /\ Surgeon.lastSolved s3 = None
  /\ Surgeon.onMessage scfg n4 Surgeon.ReportLoginSuccess s3 = (None, s3, []).
Proof.
  intros Hfirst Hsecond s3.
  destruct (onMessage_solved _ _ _ _ _ _ _ _ Hfirst) as (_ & Hpending & Hc1 & _).
  assert (Hkept : Surgeon.lastSolved s2 = Surgeon.lastSolved s1
                  /\ Surgeon.cache s2 = Surgeon.cache s1).
  { unfold Surgeon.onMessage in Hsecond.
    destruct (truthyString (Surgeon.cache s1 !! Surgeon.hash img2)); [discriminate|].
    destruct (Surgeon.runSolve scfg n2 img2 (Surgeon.hash img2) s1)
      as [[resp s2'] inv2'] eqn:Hrun.
    injection Hsecond as -> -> _.
    destruct (runSolve_spec _ _ _ _ _ _ _ _ Hrun) as (Hc & _ & _ & _ & Herr).
    split; [apply Herr; exists msg; reflexivity | exact Hc]. }
  destruct Hkept as [Hl2 Hc2].
  subst s3. cbn [Surgeon.onMessage]. rewrite Hl2, Hpending. cbn [fst snd].
  cbn [Surgeon.cache Surgeon.captchaCache Surgeon.lastSolved].
  rewrite Hc2, Hc1. repeat split; reflexivity.
Qed.

Lemma report_commits_the_last_success_witness :
  Surgeon.lastSolved
    (snd (fst (Surgeon.onMessage Surgeon.CONFIG (refusing 500)
                 Surgeon.ReportLoginSuccess
                 (snd (fst (Surgeon.onMessage Surgeon.CONFIG (refusing 500)
                              (Surgeon.SolveCaptcha "other")
                              (snd (fst (Surgeon.onMessage Surgeon.CONFIG
                                           (answering "AB12")
                                           (Surgeon.SolveCaptcha "img")
                                           (Surgeon.startup None))))))))))
  = None.
Proof.
  destruct (report_commits_the_last_success Surgeon.CONFIG
              (answering "AB12") (refusing 500) (refusing 500) (refusing 500)
              "img" "other" (Surgeon.startup None) "AB12" 2
              (snd (fst (Surgeon.onMessage Surgeon.CONFIG (answering "AB12")
                           (Surgeon.SolveCaptcha "img") (Surgeon.startup None))))
              [Surgeon.OpenRouter 0] "OPENROUTER_500"
              (snd (fst (Surgeon.onMessage Surgeon.CONFIG (refusing 500)
                           (Surgeon.SolveCaptcha "other")
                           (snd (fst (Surgeon.onMessage Surgeon.CONFIG
                                        (answering "AB12")
                                        (Surgeon.SolveCaptcha "img")
                                        (Surgeon.startup None)))))))
              [Surgeon.OpenRouter 0; Surgeon.OpenRouter 1])
    as (_ & _ & Hnone & _).
  - vm_compute. reflexivity.
  - vm_compute. reflexivity.
  - exact Hnone.
Defined.

(** * The options page *)

(** X14. Saving the options and restoring them gives the two fields back
    and leaves every other stored item alone; after a save, [getApiKey]
    of the worker resolves with the saved key when it is not empty and
    fails with "API key not found" when it is; and on an empty storage
    both fields are restored empty. *)
Theorem options_round_trip f g sync :
  let saved := snd (Options.save_options f sync) in
  Options.apiKey (Options.restore_options g saved) = Options.apiKey f /\
  Options.nopechaApiKey (Options.restore_options g saved) = Options.nopechaApiKey f /\
  (forall item, item <> "openrouter_api_key" -> item <> "nopecha_api_key" ->
     saved !! item = sync !! item) /\
  getApiKey (readApiKey saved)
    = (if String.eqb (Options.apiKey f) "" then Throw keyNotFound
       else Return (Options.apiKey f)) /\
  Options.apiKey (Options.restore_options g ∅) = "" /\
  Options.nopechaApiKey (Options.restore_options g ∅) = "" /\
  getApiKey (readApiKey ∅) = Throw keyNotFound.
Proof.
  cbn. repeat split.
  - rewrite lookup_insert_eq. reflexivity.
  - rewrite lookup_insert_ne by discriminate. rewrite lookup_insert_eq. reflexivity.
  - intros item H1 H2. rewrite !lookup_insert_ne by congruence. reflexivity.
  - unfold readApiKey. rewrite lookup_insert_eq. cbn.
    destruct (String.eqb (Options.apiKey f) ""); reflexivity.
Qed.

Lemma options_round_trip_witness :
  snd (Options.save_options (Options.mkForm "sk-or-1" "np-1" "") {["theme" := "dark"]})
    !! "theme"
  = Some "dark".
Proof.
  destruct (options_round_trip (Options.mkForm "sk-or-1" "np-1" "")
              (Options.mkForm "" "" "") {["theme" := "dark"]})
    as (_ & _ & Hothers & _).
  rewrite (Hothers "theme"); [reflexivity | discriminate | discriminate].
Defined.

(** * The image enhancement *)

(** The ink test on the sum [r + g]. *)
Lemma isBlueish_sum r g b :
  Enhance.isBlueish r g b = Enhance.isBlueish (r + g) 0 b.
Proof. unfold Enhance.isBlueish. rewrite Z.add_0_r. reflexivity. Qed.

Lemma inkTest_sum r g b : inkTest r g b = inkTest (r + g) 0 b.
Proof. unfold inkTest. rewrite Z.add_0_r. reflexivity. Qed.

(** All sums and all bytes, checked one by one. *)
Lemma isBlueish_table :
  forallb (fun sum =>
             forallb (fun b =>
                        Bool.eqb (Enhance.isBlueish (Z.of_nat sum) 0 (Z.of_nat b))
                                 (inkTest (Z.of_nat sum) 0 (Z.of_nat b)))
                     (seq 0 256))
          (seq 0 511) = true.
Proof. vm_compute. reflexivity. Qed.

Lemma isBlueish_exact r g b :
  isByte r -> isByte g -> isByte b -> Enhance.isBlueish r g b = inkTest r g b.
Proof.
  unfold isByte. intros Hr Hg Hb. rewrite isBlueish_sum, inkTest_sum.
  pose proof isBlueish_table as Htable.
  rewrite forallb_forall in Htable.
  specialize (Htable (Z.to_nat (r + g))).
  rewrite forallb_forall in Htable.
  specialize (Htable ltac:(apply in_seq; lia) (Z.to_nat b) ltac:(apply in_seq; lia)).
  rewrite !Z2Nat.id in Htable by lia.
  apply Bool.eqb_prop, Htable.
Qed.

(** Lists four elements at a time. *)
Lemma quad_ind (P : list Z -> Prop) :
  P [] -> (forall a, P [a]) -> (forall a b, P [a; b]) ->
  (forall a b c, P [a; b; c]) ->
  (forall r g b a rest, P rest -> P (r :: g :: b :: a :: rest)) ->
  forall l, P l.
Proof.
  intros H0 H1 H2 H3 H4.
  assert (Hall : forall n l, (length l <= n)%nat -> P l).
  { induction n as [|n IH]; intros l Hlen.
    - destruct l; [exact H0 | cbn in Hlen; lia].
    - destruct l as [|r [|g [|b [|a rest]]]]; auto.
      apply H4, IH. cbn in Hlen. lia. }
  intros l. apply (Hall (length l)). lia.
Qed.

(** X15. The enhancement in exact arithmetic. On colour bytes the test
    [b > (r + g) * 0.7 && b > 90], computed in doubles, holds exactly
    when [b > 90] and [10 b > 7 (r + g)], or [10 b = 7 (r + g)] with
    [r + g] one of 170, 180, 330, 340, 350, 360, where the product is
    rounded below the integer. The loop keeps the length of the array and
    the alpha byte of every pixel, and turns a pixel black when the test
    holds and white when it does not. *)
Theorem enhancement_in_exact_arithmetic :
  (forall r g b, isByte r -> isByte g -> isByte b ->
     Enhance.isBlueish r g b = inkTest r g b) /\
  (forall data, length (Enhance.binarize data) = length data) /\
  (forall data, Forall isByte data ->
     pixels (Enhance.binarize data) = map enhanced (pixels data)) /\
  (Enhance.isBlueish 100 70 119 = true /\ 7 * (100 + 70) = 10 * 119).
Proof.
  split; [exact isBlueish_exact|]. split; [|split].
  - intros data. induction data as [| | | |r g b a rest IH] using quad_ind;
      try reflexivity.
    cbn [Enhance.binarize length]. rewrite IH. reflexivity.
  - intros data. induction data as [| | | |r g b a rest IH] using quad_ind;
      intros Hbytes; try reflexivity.
    apply Forall_cons in Hbytes as [Hr Hbytes].
    apply Forall_cons in Hbytes as [Hg Hbytes].
    apply Forall_cons in Hbytes as [Hb Hbytes].
    apply Forall_cons in Hbytes as [_ Hbytes].
    cbn [Enhance.binarize pixels map]. rewrite (IH Hbytes).
    rewrite (isBlueish_exact r g b Hr Hg Hb). unfold enhanced.
    destruct (inkTest r g b); reflexivity.
  - split; [vm_compute; reflexivity | reflexivity].
Qed.

Lemma enhancement_in_exact_arithmetic_witness :
  pixels (Enhance.binarize [10; 20; 200; 255; 200; 200; 100; 255])
  = [(0, 0, 0, 255); (255, 255, 255, 255)].
Proof.
  destruct enhancement_in_exact_arithmetic as (_ & _ & Hpixels & _).
  rewrite Hpixels; [vm_compute; reflexivity|].
  repeat constructor; unfold isByte; lia.
Defined.

(** * The content script of the failover worker *)

Lemma updateLoginState_attempts cfg pg st :
  Content.solveAttempts (snd (fst (Content.updateLoginState cfg pg st)))
  = Content.solveAttempts st.
Proof.
  unfold Content.updateLoginState, Content.cleanup.
  destruct (Content.isLoggedIn st); [reflexivity|]. cbn.
  destruct (Content.checkIfLoggedIn cfg st pg); reflexivity.
Qed.

(** What one run of [checkForCaptcha] does to the counter: nothing, or
    one more attempt with a solver started, and that only below the
    limit. *)
Lemma checkForCaptcha_counts cfg pg now st :
  let st' := fst (Content.checkForCaptcha cfg pg now st) in
  let fx := snd (Content.checkForCaptcha cfg pg now st) in
  (Content.solveAttempts st' = Content.solveAttempts st /\ solverStarts fx = 0)
  \/ (Content.solveAttempts st < Content.maxSolveAttempts cfg
      /\ Content.solveAttempts st' = Content.solveAttempts st + 1
      /\ solverStarts fx = 1).
Proof.
  unfold Content.checkForCaptcha.
  pose proof (updateLoginState_attempts cfg pg st) as Hatt.
  assert (Hfx : solverStarts (snd (Content.updateLoginState cfg pg st)) = 0).
  { unfold Content.updateLoginState, Content.cleanup.
    destruct (Content.isLoggedIn st); [reflexivity|]. cbn.
    destruct (Content.checkIfLoggedIn cfg st pg); reflexivity. }
  destruct (Content.updateLoginState cfg pg st) as [[loggedIn st1] fx1].
  cbn [fst snd] in Hatt, Hfx.
  destruct loggedIn; cbn [fst snd]; [left; auto|].
  destruct (Content.isProcessing st1); cbn [fst snd]; [left; auto|].
  destruct (Z.leb_spec (Content.maxSolveAttempts cfg) (Content.solveAttempts st1));
    cbn [fst snd]; [left; auto|].
  destruct (_ && _); cbn [fst snd]; [left; auto|].
  destruct (Content.captchaInput pg) as [v|]; cbn [fst snd]; [|left; auto].
  destruct (negb (Content.captchaImg pg)); cbn [fst snd]; [left; auto|].
  destruct (_ && _); cbn [fst snd]; [left; auto|].
  right. split; [lia|]. split; [cbn; lia|].
  clear -Hfx. induction fx1 as [|e fx1 IH]; [reflexivity|].
  destruct e; cbn in *; try (apply IH; assumption).
  assert (0 <= solverStarts fx1).
  { clear. induction fx1 as [|e fx1 IH]; cbn; [lia|]. destruct e; lia. }
  lia.
Qed.

Lemma solverStarts_app fx1 fx2 :
  solverStarts (fx1 ++ fx2) = solverStarts fx1 + solverStarts fx2.
Proof.
  induction fx1 as [|e fx1 IH]; [reflexivity|]. destruct e; cbn; lia.
Qed.

Lemma step_bounded cfg ev st :
  0 <= Content.solveAttempts st <= Content.maxSolveAttempts cfg ->
  0 <= Content.solveAttempts (fst (Content.step cfg ev st))
    <= Content.maxSolveAttempts cfg.
Proof.
  intros Hb. destruct ev as [pg now|pg|pg now|visible solved now]; cbn [Content.step].
  - destruct (checkForCaptcha_counts cfg pg now st) as [[-> _] | (Hlt & -> & _)]; lia.
  - pose proof (updateLoginState_attempts cfg pg st) as Hatt.
    destruct (Content.updateLoginState cfg pg st) as [[b st1] fx].
    cbn [fst snd] in *. lia.
  - unfold Content.checkForLogout.
    destruct (negb (Content.isLoggedIn st)); [exact Hb|].
    destruct (_ && _).
    + destruct (checkForCaptcha_counts cfg pg now
                  (Content.startObserver (Content.resetState st)))
        as [[-> _] | (Hlt & -> & _)];
        unfold Content.startObserver, Content.resetState in *;
        destruct (Content.observer st); cbn in *; lia.
    + destruct (_ && _); [|exact Hb].
      unfold Content.startObserver, Content.resetState.
      destruct (Content.observer st); cbn; lia.
  - unfold Content.initiateSolverRest.
    destruct (negb visible); [exact Hb|].
    destruct (Content.isLoggedIn st); [exact Hb|].
    destruct solved; exact Hb.
Qed.

Lemma step_counts cfg ev st :
  isLogoutWatch ev = false ->
  Content.solveAttempts (fst (Content.step cfg ev st))
  = Content.solveAttempts st + solverStarts (snd (Content.step cfg ev st)).
Proof.
  intros Hev. destruct ev as [pg now|pg|pg now|visible solved now];
    cbn [Content.step]; try discriminate.
  - destruct (checkForCaptcha_counts cfg pg now st) as [[-> ->] | (_ & -> & ->)]; lia.
  - pose proof (updateLoginState_attempts cfg pg st) as Hatt.
    assert (Hfx : solverStarts (snd (Content.updateLoginState cfg pg st)) = 0).
    { unfold Content.updateLoginState, Content.cleanup.
      destruct (Content.isLoggedIn st); [reflexivity|]. cbn.
      destruct (Content.checkIfLoggedIn cfg st pg); reflexivity. }
    destruct (Content.updateLoginState cfg pg st) as [[b st1] fx].
    cbn [fst snd] in *. lia.
  - cbn [fst snd solverStarts]. unfold Content.initiateSolverRest.
    destruct (negb visible); [cbn; lia|].
    destruct (Content.isLoggedIn st); [cbn; lia|].
    destruct solved; cbn; lia.
Qed.

(** X16. The content script never counts more than [maxSolveAttempts]
    attempts: through every series of its runs the counter stays between
    0 and the limit. And as long as the logout watcher does not run (it
    alone resets the counter), every solver run that is started is
    counted, so that at most [maxSolveAttempts] solver runs are started
    in all. *)
Theorem content_attempts_are_bounded cfg evs st :
  0 <= Content.solveAttempts st <= Content.maxSolveAttempts cfg ->
  0 <= Content.solveAttempts (fst (Content.run cfg evs st))
    <= Content.maxSolveAttempts cfg /\
  (forallb (fun ev => negb (isLogoutWatch ev)) evs = true ->
     Content.solveAttempts (fst (Content.run cfg evs st))
     = Content.solveAttempts st + solverStarts (snd (Content.run cfg evs st))
     /\ solverStarts (snd (Content.run cfg evs st))
        <= Content.maxSolveAttempts cfg - Content.solveAttempts st).
Proof.
  revert st. induction evs as [|ev rest IH]; intros st Hb.
  { cbn. split; [exact Hb|]. intros _. lia. }
  cbn [Content.run].
  pose proof (step_bounded cfg ev st Hb) as Hstep.
  pose proof (step_counts cfg ev st) as Hcount.
  destruct (Content.step cfg ev st) as [st1 fx1]. cbn [fst snd] in Hstep, Hcount.
  destruct (IH st1 Hstep) as [Hrest Hcounted].
  destruct (Content.run cfg rest st1) as [st2 fx2]. cbn [fst snd] in *.
  split; [exact Hrest|].
  intros Hall. cbn [forallb] in Hall. apply andb_prop in Hall as [Hev Hall].
  apply negb_true_iff in Hev.
  destruct (Hcounted Hall) as [Heq Hle]. rewrite solverStarts_app.
  specialize (Hcount Hev). lia.
Qed.

Lemma content_attempts_are_bounded_witness :
  0 <= Content.solveAttempts
         (fst (Content.run Content.CONFIG
                 [Content.Check
                    {| Content.querySelector := fun _ => None;
                       Content.captchaImg := true;
                       Content.captchaInput := Some "";
                       Content.href := "https://example.org/login" |} 1000]
                 Content.initialState))
    <= Content.maxSolveAttempts Content.CONFIG.
Proof.
  apply (content_attempts_are_bounded Content.CONFIG
           [Content.Check
              {| Content.querySelector := fun _ => None;
                 Content.captchaImg := true;
                 Content.captchaInput := Some "";
                 Content.href := "https://example.org/login" |} 1000]
           Content.initialState).
  cbn. lia.
Defined.

Lemma trim_blank v :
  negb (String.eqb v "") && (0 <? Z.of_nat (String.length (trim v))) = false ->
  trim v = "".
Proof.
  destruct (String.eqb_spec v "") as [->|Hne]; [reflexivity|]. cbn [negb andb].
  destruct (trim v); [reflexivity|]. cbn. discriminate.
Qed.

(** X17. [checkForCaptcha] starts a solver only when it is due: the user
    is not logged in, before the run or by what the page shows; no solver
    is processing; the attempts are below the limit; the cooldown since
    the last success has elapsed; and the CAPTCHA image and a blank
    CAPTCHA input are on the page. The solver is then marked as
    processing and the attempt is counted. *)
Theorem solver_starts_only_when_due cfg pg now st :
  In Content.SolverStarted (snd (Content.checkForCaptcha cfg pg now st)) ->
  Content.isLoggedIn st = false /\
  Content.checkIfLoggedIn cfg st pg = false /\
  Content.isProcessing st = false /\
  Content.solveAttempts st < Content.maxSolveAttempts cfg /\
  (forall t, Content.lastSolveTime st = Some t -> t <> 0 ->
     Content.cooldownAfterSuccessMs cfg <= now - t) /\
  Content.captchaImg pg = true /\
  (exists v, Content.captchaInput pg = Some v /\ trim v = "") /\
  Content.isProcessing (fst (Content.checkForCaptcha cfg pg now st)) = true /\
  Content.isLoggedIn (fst (Content.checkForCaptcha cfg pg now st)) = false /\
  Content.solveAttempts (fst (Content.checkForCaptcha cfg pg now st))
  = Content.solveAttempts st + 1.
Proof.
  unfold Content.checkForCaptcha, Content.updateLoginState, Content.cleanup.
  destruct (Content.isLoggedIn st) eqn:Hin; cbn [fst snd]; [intros []|].
  cbn [Content.isLoggedIn].
  destruct (Content.checkIfLoggedIn cfg st pg) eqn:Hcheck; cbn [fst snd].
  { intros [H|[]]. discriminate. }
  cbn [Content.isProcessing Content.solveAttempts Content.lastSolveTime].
  destruct (Content.isProcessing st) eqn:Hproc; cbn [fst snd]; [intros []|].
  destruct (Z.leb_spec (Content.maxSolveAttempts cfg) (Content.solveAttempts st));
    cbn [fst snd]; [intros []|].
  destruct (Content.truthyTime (Content.lastSolveTime st)
            && (now - default 0 (Content.lastSolveTime st)
                <? Content.cooldownAfterSuccessMs cfg)) eqn:Hcool;
    cbn [fst snd]; [intros []|].
  destruct (Content.captchaInput pg) as [v|] eqn:Hinput; cbn [fst snd]; [|intros []].
  destruct (Content.captchaImg pg) eqn:Himg; cbn [negb fst snd]; [|intros []].
  destruct (negb (String.eqb v "") && (0 <? Z.of_nat (String.length (trim v))))
    eqn:Hblank; cbn [fst snd]; [intros []|].
  intros _. repeat split; try reflexivity; try assumption.
  - intros t Ht Hnz. rewrite Ht in Hcool. cbn in Hcool.
    destruct (Z.eqb_spec t 0); [contradiction|]. cbn in Hcool.
    destruct (Z.ltb_spec (now - t) (Content.cooldownAfterSuccessMs cfg)); [discriminate | lia].
  - exists v. split; [reflexivity | apply trim_blank, Hblank].
Qed.

Lemma solver_starts_only_when_due_witness :
  Content.solveAttempts
    (fst (Content.checkForCaptcha Content.CONFIG
            {| Content.querySelector := fun _ => None;
               Content.captchaImg := true;
               Content.captchaInput := Some "  ";
               Content.href := "https://example.org/login" |} 1000
            Content.initialState))
  = Content.solveAttempts Content.initialState + 1.
Proof.
  apply (solver_starts_only_when_due Content.CONFIG
           {| Content.querySelector := fun _ => None;
              Content.captchaImg := true;
              Content.captchaInput := Some "  ";
              Content.href := "https://example.org/login" |} 1000
           Content.initialState).
  vm_compute. left. reflexivity.
Defined.

(** What the failover worker answers is never an empty text, from tier 1
    upward. *)
Lemma handleCaptchaSolve_text cfg ncfg fuel now stored w img s otext tag s' visited :
  handleCaptchaSolve cfg ncfg fuel now stored w img s
  = Some (TextResponse otext tag, s', visited) ->
  1 <= currentTier s' ->
  exists text, otext = Some text /\ text <> "".
Proof.
  intros Hrun Htier. unfold handleCaptchaSolve in Hrun.
  destruct (getApiKey stored) as [key|e]; [|discriminate].
  destruct (solveWithFailover cfg ncfg fuel w img key _)
    as [[[r s2] vis]|] eqn:Hloop; [|discriminate].
  destruct r as [v|e]; [|discriminate]. injection Hrun as -> <- -> ->.
  destruct (solveLoop_returns _ _ _ _ _ _ _ _ _ _ _ _ Hloop)
    as (Hle & _ & k' & Hatt).
  destruct otext as [text|].
  - destruct (attemptProvider_returns _ _ _ _ _ _ _ Hatt) as (_ & Hlen & _).
    exists text. split; [reflexivity|]. intros ->. cbn in Hlen. lia.
  - exfalso. apply (attemptProvider_is_Some cfg ncfg (net w k') img key s'); [lia|].
    exact Hatt.
Qed.

(** X18. [solveCaptcha] of the content script, fed by the failover
    worker: once the capture and the crop succeeded, the content script
    writes the text the worker found into the input, and that text is
    never empty, or it throws "Solve failed: " followed by the error the
    worker reported. A capture that came back with an error ends in
    "Capture failed: ..." whatever the worker would answer, and a solve
    request without a response in "Solve failed: No response". *)
Theorem content_solveCaptcha_outcomes cfg ncfg fuel now stored w s resp s' visited
    capture crop url img :
  Content.sendMessage capture
  = {| Content.error := None; Content.dataUrl := url; Content.text := None |} ->
  crop url = Return img ->
  handleCaptchaSolve cfg ncfg fuel now stored w img s = Some (resp, s', visited) ->
  1 <= currentTier s' ->
  Content.solveCaptcha capture crop (failoverAnswers cfg ncfg fuel now stored w s)
  = match resp with
    | TextResponse (Some text) _ => Return text
    | TextResponse None _ => Throw (newError "No text returned from solver")
    | ErrorResponse msg _ =>
        if String.eqb msg "" then Throw (newError "No text returned from solver")
        else Throw (newError ("Solve failed: " ++ msg))
    end /\
  (forall text tag, resp = TextResponse (Some text) tag -> text <> "") /\
  (forall otext tag, resp = TextResponse otext tag -> otext <> None) /\
  (forall msg solve, msg <> "" ->
     Content.solveCaptcha (Content.LastError msg) crop solve
     = Throw (newError ("Capture failed: " ++ msg))) /\
  Content.solveCaptcha capture crop (fun _ => Content.Delivered None)
  = Throw (newError "Solve failed: No response").
Proof.
  intros Hcap Hcrop Hrun Htier.
  assert (Htext : forall otext tag, resp = TextResponse otext tag ->
            exists text, otext = Some text /\ text <> "").
  { intros otext tag ->.
    exact (handleCaptchaSolve_text _ _ _ _ _ _ _ _ _ _ _ _ Hrun Htier). }
  split; [|split; [|split; [|split]]].
  - unfold Content.solveCaptcha, failoverAnswers. rewrite Hcap.
    cbn [Content.error truthyString Content.dataUrl]. rewrite Hcrop, Hrun.
    cbn [Content.sendMessage].
    destruct resp as [otext tag | msg tag]; cbn.
    + destruct (Htext _ _ eq_refl) as (text & -> & Hne).
      cbn. destruct (String.eqb_spec text ""); [contradiction|]. reflexivity.
    + destruct (String.eqb msg ""); reflexivity.
  - intros text tag Hresp. destruct (Htext _ _ Hresp) as (text' & [= ->] & Hne).
    exact Hne.
  - intros otext tag Hresp. destruct (Htext _ _ Hresp) as (text & -> & _).
    discriminate.
  - intros msg solve Hmsg. unfold Content.solveCaptcha. cbn.
    destruct (String.eqb_spec msg ""); [contradiction|]. reflexivity.
  - unfold Content.solveCaptcha. rewrite Hcap. cbn. rewrite Hcrop. reflexivity.
Qed.

Lemma content_solveCaptcha_outcomes_witness :
  Content.solveCaptcha
    (Content.Delivered
       (Some {| Content.error := None; Content.dataUrl := Some "data:shot";
                Content.text := None |}))
    (fun _ => Return "img")
    (failoverAnswers FAILOVER_CONFIG NOPECHA_CONFIG 5 0 (StorageRead (Some "sk"))
       (steadyWorld timedOut 1) initialState)
  = Throw (newError "Solve failed: Timeout after 35000ms").
Proof.
  apply (content_solveCaptcha_outcomes FAILOVER_CONFIG NOPECHA_CONFIG 5 0
           (StorageRead (Some "sk")) (steadyWorld timedOut 1) initialState
           (ErrorResponse "Timeout after 35000ms"
              (StatusTier1 "google/gemini-2.0-flash-exp:free"))
           initialState [(1, 0)]
           (Content.Delivered
              (Some {| Content.error := None; Content.dataUrl := Some "data:shot";
                       Content.text := None |}))
           (fun _ => Return "img") (Some "data:shot") "img").
  - reflexivity.
  - reflexivity.
  - vm_compute. reflexivity.
  - cbn. lia.
Defined.

(** ** Waiting for the image *)

Section Waiting.

Variable cfg : Content.config.
Variable startTime : Z.
Variable probes : nat -> Content.probe.

Hypothesis poll_positive : 0 < Content.visibilityPollMs cfg.
Hypothesis timeout_nonnegative : 0 <= Content.visibilityTimeoutMs cfg.
Hypothesis starts_now : startTime <= Content.clockNow (probes 0).
Hypothesis timers_are_not_early :
  forall k, Content.clockNow (probes k) + Content.visibilityPollMs cfg
            <= Content.clockNow (probes (S k)).

Lemma elapsed_grows k :
  Z.of_nat k * Content.visibilityPollMs cfg
  <= Content.clockNow (probes k) - startTime.
Proof.
  induction k as [|k IH]; [lia|].
  pose proof (timers_are_not_early k). lia.
Qed.

Lemma waitForVisibility_ends fuel :
  forall k,
    Content.visibilityTimeoutMs cfg
      <= (Z.of_nat fuel + Z.of_nat k - 1) * Content.visibilityPollMs cfg ->
    (0 < fuel)%nat ->
    exists r n,
      Content.waitForVisibility cfg fuel startTime probes k = Some (r, n)
      /\ (k < n <= k + fuel)%nat
      /\ (r = Content.Visible ->
          Content.shown (probes (n - 1)) = true
          /\ Content.aborted (probes (n - 1)) = false)
      /\ (r = Content.TimedOut ->
          Content.visibilityTimeoutMs cfg
            <= Content.clockNow (probes (n - 1)) - startTime)
      /\ (r = Content.Aborted -> Content.aborted (probes (n - 1)) = true).
Proof.
  induction fuel as [|fuel IH]; intros k Hbound Hpos; [lia|].
  cbn [Content.waitForVisibility].
  replace (S k - 1)%nat with k by lia.
  destruct (Content.aborted (probes k)) eqn:Hab.
  { exists Content.Aborted, (S k). replace (S k - 1)%nat with k by lia.
    split; [reflexivity|]. split; [lia|].
    split; [intros Hr; discriminate Hr|]. split; [intros Hr; discriminate Hr|].
    intros _. exact Hab. }
  destruct (Content.shown (probes k)) eqn:Hshown.
  { exists Content.Visible, (S k). replace (S k - 1)%nat with k by lia.
    split; [reflexivity|]. split; [lia|].
    split; [intros _; split; assumption|].
    split; intros Hr; discriminate Hr. }
  destruct (Z.leb_spec (Content.visibilityTimeoutMs cfg)
              (Content.clockNow (probes k) - startTime)) as [Hout|Hin].
  { exists Content.TimedOut, (S k). replace (S k - 1)%nat with k by lia.
    split; [reflexivity|]. split; [lia|].
    split; [intros Hr; discriminate Hr|].
    split; [intros _; exact Hout | intros Hr; discriminate Hr]. }
  destruct fuel as [|fuel'].
  { exfalso. pose proof (elapsed_grows k). cbn in Hbound. lia. }
  destruct (IH (S k)) as (r & n & Hrun & Hn & Hrest); [lia | lia|].
  exists r, n. split; [exact Hrun|]. split; [lia | exact Hrest].
Qed.

End Waiting.

(** X19. [waitForVisibility] ends: when the timers never fire early, so
    that each run of [check] reads a clock at least [visibilityPollMs]
    after the one before, the wait resolves after at most
    [visibilityTimeoutMs / visibilityPollMs + 2] runs of [check]. It
    resolves as visible only on a run that found the image shown and the
    script not stopped, and as timed out only once the timeout has
    elapsed. *)
Theorem waitForVisibility_terminates cfg startTime probes :
  0 < Content.visibilityPollMs cfg ->
  0 <= Content.visibilityTimeoutMs cfg ->
  startTime <= Content.clockNow (probes 0%nat) ->
  (forall k, Content.clockNow (probes k) + Content.visibilityPollMs cfg
             <= Content.clockNow (probes (S k))) ->
  let checks :=
    Z.to_nat (Content.visibilityTimeoutMs cfg / Content.visibilityPollMs cfg + 2) in
  exists r n,
    Content.waitForVisibility cfg checks startTime probes 0 = Some (r, n)
    /\ (1 <= n <= checks)%nat
    /\ (r = Content.Visible ->
        Content.shown (probes (n - 1)%nat) = true
        /\ Content.aborted (probes (n - 1)%nat) = false)
    /\ (r = Content.TimedOut ->
        Content.visibilityTimeoutMs cfg
          <= Content.clockNow (probes (n - 1)%nat) - startTime).
Proof.
  intros Hpoll Htimeout Hstart Htimers checks.
  pose proof (Z.div_pos _ _ Htimeout Hpoll) as Hdiv.
  pose proof (Z.mod_pos_bound (Content.visibilityTimeoutMs cfg)
                (Content.visibilityPollMs cfg) Hpoll) as Hmod.
  pose proof (Z.div_mod (Content.visibilityTimeoutMs cfg)
                (Content.visibilityPollMs cfg) ltac:(lia)) as Hdm.
  destruct (waitForVisibility_ends cfg startTime probes Hpoll Hstart Htimers
              checks 0) as (r & n & Hrun & Hn & Hvis & Hout & _).
  - subst checks. rewrite Z2Nat.id by lia. nia.
  - subst checks. lia.
  - exists r, n. split; [exact Hrun|]. split; [lia|]. split; assumption.
Qed.

Lemma waitForVisibility_terminates_witness :
  exists r n,
    Content.waitForVisibility Content.CONFIG 68 0
      (fun k => {| Content.clockNow := 150 * Z.of_nat k;
                   Content.aborted := false; Content.shown := false |}) 0
    = Some (r, n)
    /\ (1 <= n <= 68)%nat.
Proof.
  destruct (waitForVisibility_terminates Content.CONFIG 0
              (fun k => {| Content.clockNow := 150 * Z.of_nat k;
                           Content.aborted := false; Content.shown := false |}))
    as (r & n & Hrun & Hn & _).
  - cbn. lia.
  - cbn. lia.
  - cbn. lia.
  - intros k. cbn [Content.clockNow Content.visibilityPollMs Content.CONFIG]. lia.
  - exists r, n. split; [exact Hrun | exact Hn].
Defined.

(** * The content script of the cache-bearing worker *)

(** Case analysis on everything a run of [solve] looks at. *)
Ltac solve_cases :=
  repeat match goal with
         | |- context [match ?x with _ => _ end] =>
             let E := fresh "E" in destruct x eqn:E; cbn [negb orb andb] in *
         end.

(** X20. [solve] of the second content script is guarded and tidy. It
    does nothing at all while another run holds the lock, when the image
    or the input element is missing, when the input already has text, or
    when the image is not loaded yet. Otherwise it always releases the
    lock; it asks the worker to solve at most once, after the capture,
    and only for a crop of at least 500 characters; and it marks the
    input as solved only with the non-empty text the worker answered,
    which is then the value of the input. *)
Theorem overwatch_solve_is_guarded busy d capture crop answer :
  let o := Overwatch.solve busy d capture crop answer in
  (busy = true \/ Overwatch.img d = None \/ Overwatch.input d = None
   \/ (exists v, Overwatch.input d = Some v /\ v <> "")
   \/ Overwatch.img d = Some 0 ->
   o = untouched busy d) /\
  (busy = false -> Overwatch.isBusy o = false) /\
  (forall im, In (Overwatch.SolveCaptcha im) (Overwatch.sent o) ->
     Overwatch.sent o = [Overwatch.CaptureScreen; Overwatch.SolveCaptcha im]
     /\ (500 <= String.length im)%nat
     /\ exists url, crop url = Return im) /\
  (Overwatch.placeholder o = Some Overwatch.Solved ->
     exists im r t,
       answer im = Some r /\ Content.text r = Some t /\ t <> ""
       /\ Overwatch.value o = Some t
       /\ Overwatch.sent o = [Overwatch.CaptureScreen; Overwatch.SolveCaptcha im]).
Proof.
  cbn zeta. split; [|split; [|split]].
  - intros Hguard. unfold Overwatch.solve, untouched.
    destruct busy; [reflexivity|].
    destruct (Overwatch.img d) as [w|] eqn:Himg;
      destruct (Overwatch.input d) as [v|] eqn:Hinput; try reflexivity.
    destruct (Z.ltb_spec 0 (Z.of_nat (String.length v))) as [Hlen|Hlen];
      [reflexivity|].
    destruct (Z.eqb_spec w 0) as [Hw|Hw]; [reflexivity|].
    exfalso. destruct Hguard as [H|[H|[H|[(v' & [= <-] & Hv)|[= H]]]]];
      try discriminate; try contradiction.
    destruct v; [contradiction | cbn in Hlen; lia].
  - intros ->. unfold Overwatch.solve. solve_cases; reflexivity.
  - intros im. unfold Overwatch.solve. solve_cases; cbn;
      intros Hin; repeat (destruct Hin as [Hin|Hin]; try discriminate Hin);
      try contradiction; injection Hin as ->;
      (split; [reflexivity|]); (split; [|eexists; eassumption]);
      try match goal with
      | H : (_ || _) = false |- _ =>
          apply orb_false_iff in H as [_ H]; apply Z.ltb_ge in H; lia
      end.
  - unfold Overwatch.solve. solve_cases; cbn; intros Hmark; try discriminate Hmark.
    eexists _, _, _. split; [eassumption|]. split; [reflexivity|].
    split; [apply truthyString_nonempty; assumption|]. split; reflexivity.
Qed.

Lemma overwatch_solve_is_guarded_witness :
  Overwatch.solve false
    {| Overwatch.img := Some 120; Overwatch.input := Some "typed" |}
    (Content.Delivered None) (fun _ => Return "img") (fun _ => None)
  = untouched false {| Overwatch.img := Some 120; Overwatch.input := Some "typed" |}.
Proof.
  apply (overwatch_solve_is_guarded false
           {| Overwatch.img := Some 120; Overwatch.input := Some "typed" |}
           (Content.Delivered None) (fun _ => Return "img") (fun _ => None)).
  right. right. right. left. exists "typed". split; [reflexivity | discriminate].
Defined.

Lemma onMessage_text_nonempty scfg n img s text tag s' invoked :
  Surgeon.onMessage scfg n (Surgeon.SolveCaptcha img) s
  = (Some (Surgeon.TextResponse text tag), s', invoked) ->
  text <> "".
Proof.
  unfold Surgeon.onMessage.
  destruct (truthyString (Surgeon.cache s !! Surgeon.hash img)) eqn:Hhit.
  - intros [= <- _ _ _].
    destruct (Surgeon.cache s !! Surgeon.hash img) as [cached|]; [|discriminate].
    apply truthyString_nonempty, Hhit.
  - destruct (Surgeon.runSolve scfg n img (Surgeon.hash img) s)
      as [[resp s1] inv] eqn:Hrun.
    intros [= -> _ _].
    destruct (runSolve_spec _ _ _ _ _ _ _ _ Hrun) as (_ & _ & _ & Htext & _).
    apply (Htext _ _ eq_refl).
Qed.

Lemma onMessage_report scfg n s h text :
  Surgeon.lastSolved s = Some (h, text) ->
  Surgeon.onMessage scfg n Surgeon.ReportLoginSuccess s
  = (None,
     {| Surgeon.currentTier := Surgeon.currentTier s;
        Surgeon.lastSolved := None;
        Surgeon.cache := <[h := text]> (Surgeon.cache s);
        Surgeon.captchaCache := Some (<[h := text]> (Surgeon.cache s)) |},
     []).
Proof. intros Hpending. cbn. rewrite Hpending. reflexivity. Qed.

(** The run of [solve] on a page that is ready, once the capture and the
    crop succeeded. *)
Lemma solve_ready width url shot im answer :
  width <> 0 -> url <> "" ->
  Content.dataUrl shot = Some url ->
  (500 <= String.length im)%nat ->
  forall crop, crop url = Return im ->
  Overwatch.solve false
    {| Overwatch.img := Some width; Overwatch.input := Some "" |}
    (Content.Delivered (Some shot)) crop answer
  = match answer im with
    | Some {| Content.text := Some t; Content.error := e |} =>
        if truthyString (Some t) then
          {| Overwatch.isBusy := false; Overwatch.value := Some t;
             Overwatch.placeholder := Some Overwatch.Solved;
             Overwatch.sent := [Overwatch.CaptureScreen; Overwatch.SolveCaptcha im] |}
        else
          {| Overwatch.isBusy := false; Overwatch.value := Some "";
             Overwatch.placeholder :=
               Some (Overwatch.Fail
                       (if truthyString e then default "" e else "EMPTY_RESPONSE"));
             Overwatch.sent := [Overwatch.CaptureScreen; Overwatch.SolveCaptcha im] |}
    | Some {| Content.text := None; Content.error := e |} =>
        {| Overwatch.isBusy := false; Overwatch.value := Some "";
           Overwatch.placeholder :=
             Some (Overwatch.Fail
                     (if truthyString e then default "" e else "EMPTY_RESPONSE"));
           Overwatch.sent := [Overwatch.CaptureScreen; Overwatch.SolveCaptcha im] |}
    | None =>
        {| Overwatch.isBusy := false; Overwatch.value := Some "";
           Overwatch.placeholder := Some (Overwatch.Fail "EMPTY_RESPONSE");
           Overwatch.sent := [Overwatch.CaptureScreen; Overwatch.SolveCaptcha im] |}
    end.
Proof.
  intros Hw Hurl Hshot Hlen crop Hcrop. unfold Overwatch.solve.
  cbn [Overwatch.img Overwatch.input].
  change (0 <? Z.of_nat (String.length "")) with false. cbv iota.
  destruct (Z.eqb_spec width 0); [contradiction|].
  destruct shot as [e0 d0 t0]. cbn in Hshot. subst d0.
  cbn [truthyString]. destruct (String.eqb_spec url ""); [contradiction|].
  cbn [negb]. rewrite Hcrop.
  destruct (String.eqb_spec im "") as [->|_]; [cbn in Hlen; lia|].
  destruct (Z.ltb_spec (Z.of_nat (String.length im)) 500); [lia|]. cbn [orb].
  destruct (answer im) as [[e d t]|]; [|reflexivity].
  destruct t as [t|].
  - cbn [truthyString]. destruct (String.eqb t ""), (truthyString e); reflexivity.
  - destruct (truthyString e); reflexivity.
Qed.

(** X21. The second content script and the cache-bearing worker, end to
    end. On a page that is ready, after a capture and a crop of at least
    500 characters, the input gets the text the worker answered and is
    marked as solved, or it stays empty and shows the error of the worker
    as a failure. After a text from a provider, one tick of the login
    watcher on a page whose address contains "dashboard" in any letter
    case reports the login, the worker commits the text, and the next
    run for the same image fills the input from the cache without any
    provider being invoked. *)
Theorem overwatch_fills_what_the_worker_found scfg n s width url shot im crop :
  width <> 0 -> url <> "" ->
  Content.dataUrl shot = Some url ->
  (500 <= String.length im)%nat ->
  crop url = Return im ->
  let page := {| Overwatch.img := Some width; Overwatch.input := Some "" |} in
  let run worker state :=
    Overwatch.solve false page (Content.Delivered (Some shot)) crop
      (surgeonAnswers scfg worker state) in
  (forall text tag s1 invoked,
     Surgeon.onMessage scfg n (Surgeon.SolveCaptcha im) s
     = (Some (Surgeon.TextResponse text tag), s1, invoked) ->
     run n s
     = {| Overwatch.isBusy := false; Overwatch.value := Some text;
          Overwatch.placeholder := Some Overwatch.Solved;
          Overwatch.sent := [Overwatch.CaptureScreen; Overwatch.SolveCaptcha im] |}) /\
  (forall msg s1 invoked,
     Surgeon.onMessage scfg n (Surgeon.SolveCaptcha im) s
     = (Some (Surgeon.ErrorResponse msg), s1, invoked) ->
     run n s
     = {| Overwatch.isBusy := false; Overwatch.value := Some "";
          Overwatch.placeholder :=
            Some (Overwatch.Fail
                    (if String.eqb msg "" then "EMPTY_RESPONSE" else msg));
          Overwatch.sent := [Overwatch.CaptureScreen; Overwatch.SolveCaptcha im] |}) /\
  (forall text tier s1 invoked matches href n2 n3,
     Surgeon.onMessage scfg n (Surgeon.SolveCaptcha im) s
     = (Some (Surgeon.TextResponse text (Surgeon.TierTag tier)), s1, invoked) ->
     includes "dashboard" (Overwatch.toLowerCase href) = true ->
     Overwatch.reportTick matches href = [Overwatch.ReportLoginSuccess]
     /\ let s2 :=
          snd (fst (Surgeon.onMessage scfg n2 Surgeon.ReportLoginSuccess s1)) in
        Overwatch.value (run n3 s2) = Some text
        /\ Overwatch.placeholder (run n3 s2) = Some Overwatch.Solved
        /\ snd (Surgeon.onMessage scfg n3 (Surgeon.SolveCaptcha im) s2) = []).
Proof.
  intros Hw Hurl Hshot Hlen Hcrop page run.
  assert (Hfill : forall worker state text tag s1 invoked,
     Surgeon.onMessage scfg worker (Surgeon.SolveCaptcha im) state
     = (Some (Surgeon.TextResponse text tag), s1, invoked) ->
     run worker state
     = {| Overwatch.isBusy := false; Overwatch.value := Some text;
          Overwatch.placeholder := Some Overwatch.Solved;
          Overwatch.sent := [Overwatch.CaptureScreen; Overwatch.SolveCaptcha im] |}).
  { intros worker state text tag s1 invoked Hans. subst run page. cbn beta.
    rewrite (solve_ready width url shot im _ Hw Hurl Hshot Hlen crop Hcrop).
    unfold surgeonAnswers. rewrite Hans. cbn.
    pose proof (onMessage_text_nonempty _ _ _ _ _ _ _ _ Hans) as Hne.
    destruct (String.eqb_spec text ""); [contradiction|]. reflexivity. }
  split; [apply Hfill|]. split.
  - intros msg s1 invoked Hans. subst run page. cbn beta.
    rewrite (solve_ready width url shot im _ Hw Hurl Hshot Hlen crop Hcrop).
    unfold surgeonAnswers. rewrite Hans. cbn.
    destruct (String.eqb msg ""); reflexivity.
  - intros text tier s1 invoked matches href n2 n3 Hans Hhome. split.
    { unfold Overwatch.reportTick. rewrite Hhome.
      destruct (existsb matches Overwatch.successSelectors); reflexivity. }
    destruct (onMessage_solved _ _ _ _ _ _ _ _ Hans) as (Hne & Hpending & _).
    intros s2.
    assert (Hhit : Surgeon.onMessage scfg n3 (Surgeon.SolveCaptcha im) s2
                   = (Some (Surgeon.TextResponse text Surgeon.Cached), s2, [])).
    { apply onMessage_cached; [|exact Hne]. subst s2.
      rewrite (onMessage_report scfg n2 s1 _ _ Hpending).
      cbn [fst snd Surgeon.cache]. apply lookup_insert_eq. }
    rewrite (Hfill _ _ _ _ _ _ Hhit), Hhit. repeat split.
Qed.

Lemma overwatch_fills_what_the_worker_found_witness :
  Overwatch.solve false
    {| Overwatch.img := Some 120; Overwatch.input := Some "" |}
    (Content.Delivered
       (Some {| Content.error := None; Content.dataUrl := Some "data:shot";
                Content.text := None |}))
    (fun _ => Return (filler 500))
    (surgeonAnswers Surgeon.CONFIG (answering "AB12") (Surgeon.startup None))
  = {| Overwatch.isBusy := false; Overwatch.value := Some "AB12";
       Overwatch.placeholder := Some Overwatch.Solved;
       Overwatch.sent :=
         [Overwatch.CaptureScreen; Overwatch.SolveCaptcha (filler 500)] |}.
Proof.
  destruct (overwatch_fills_what_the_worker_found Surgeon.CONFIG (answering "AB12")
              (Surgeon.startup None) 120 "data:shot"
              {| Content.error := None; Content.dataUrl := Some "data:shot";
                 Content.text := None |}
              (filler 500) (fun _ => Return (filler 500)))
    as (Hfill & _).
  - lia.
  - discriminate.
  - reflexivity.
  - vm_compute. lia.
  - reflexivity.
  - apply (Hfill "AB12" (Surgeon.TierTag 2)
             (snd (fst (Surgeon.onMessage Surgeon.CONFIG (answering "AB12")
                          (Surgeon.SolveCaptcha (filler 500)) (Surgeon.startup None))))
             [Surgeon.OpenRouter 0]).
    vm_compute. reflexivity.
Defined.

(** * The logout watcher *)

(** X22. When the CAPTCHA image and a blank CAPTCHA input reappear while
    the script holds the user for logged in, and the page shows no sign
    of a login, one run of the logout watcher resets the state, restarts
    the observer and starts a solver at once: the attempts are counted
    from 1 again, however many were used before. *)
Theorem logout_restarts_the_solver cfg pg now st v :
  Content.isLoggedIn st = true ->
  Content.captchaImg pg = true ->
  Content.captchaInput pg = Some v -> trim v = "" ->
  Content.checkIfLoggedIn cfg (Content.resetState st) pg = false ->
  0 < Content.maxSolveAttempts cfg ->
  let st' := fst (Content.checkForLogout cfg pg now st) in
  snd (Content.checkForLogout cfg pg now st) = [Content.SolverStarted] /\
  Content.solveAttempts st' = 1 /\
  Content.isProcessing st' = true /\
  Content.isLoggedIn st' = false /\
  Content.observer st' = true /\
  Content.lastSolveTime st' = None /\
  Content.hasSuccessfullySolved st' = false.
Proof.
  intros Hin Himg Hinput Hblank Hcheck Hmax.
  assert (Hcheck' : Content.checkIfLoggedIn cfg
                      (Content.startObserver (Content.resetState st)) pg = false).
  { rewrite <- Hcheck. unfold Content.startObserver, Content.resetState.
    destruct (Content.observer st); reflexivity. }
  assert (Hguard : negb (String.eqb v "")
                   && (0 <? Z.of_nat (String.length (trim v))) = false).
  { rewrite Hblank. cbn. apply andb_false_r. }
  cbn zeta. unfold Content.checkForLogout. rewrite Hin, Himg, Hinput. cbn [negb andb].
  replace (bool_decide (is_Some (Some v))) with true
    by (symmetry; apply bool_decide_eq_true; eauto).
  unfold Content.checkForCaptcha, Content.updateLoginState.
  replace (Content.isLoggedIn (Content.startObserver (Content.resetState st)))
    with false
    by (unfold Content.startObserver, Content.resetState;
        destruct (Content.observer st); reflexivity).
  cbn [Content.isLoggedIn]. rewrite Hcheck'. cbn [fst snd].
  replace (Content.isProcessing (Content.startObserver (Content.resetState st)))
    with false
    by (unfold Content.startObserver, Content.resetState;
        destruct (Content.observer st); reflexivity).
  cbn [Content.isProcessing Content.solveAttempts Content.lastSolveTime].
  replace (Content.solveAttempts (Content.startObserver (Content.resetState st)))
    with 0
    by (unfold Content.startObserver, Content.resetState;
        destruct (Content.observer st); reflexivity).
  replace (Content.lastSolveTime (Content.startObserver (Content.resetState st)))
    with (@None Z)
    by (unfold Content.startObserver, Content.resetState;
        destruct (Content.observer st); reflexivity).
  destruct (Z.leb_spec (Content.maxSolveAttempts cfg) 0); [lia|].
  cbn [Content.truthyTime andb]. rewrite Hinput, Himg. cbn [negb].
  rewrite Hguard. cbn [fst snd app Content.initiateSolver Content.solveAttempts
    Content.isProcessing Content.isLoggedIn Content.observer Content.lastSolveTime
    Content.hasSuccessfullySolved].
  unfold Content.startObserver, Content.resetState.
  destruct (Content.observer st); cbn; repeat split; reflexivity.
Qed.

Lemma logout_restarts_the_solver_witness :
  Content.solveAttempts
    (fst (Content.checkForLogout Content.CONFIG
            {| Content.querySelector := fun _ => None;
               Content.captchaImg := true;
               Content.captchaInput := Some "";
               Content.href := "https://example.org/login" |} 9000
            {| Content.isProcessing := false; Content.isLoggedIn := true;
               Content.solveAttempts := 5; Content.lastSolveTime := Some 4000;
               Content.observer := false; Content.debounceTimer := false;
               Content.hasSuccessfullySolved := true |}))
  = 1.
Proof.
  apply (logout_restarts_the_solver Content.CONFIG
           {| Content.querySelector := fun _ => None;
              Content.captchaImg := true;
              Content.captchaInput := Some "";
              Content.href := "https://example.org/login" |} 9000
           {| Content.isProcessing := false; Content.isLoggedIn := true;
              Content.solveAttempts := 5; Content.lastSolveTime := Some 4000;
              Content.observer := false; Content.debounceTimer := false;
              Content.hasSuccessfullySolved := true |} "").
  - reflexivity.
  - reflexivity.
  - reflexivity.
  - reflexivity.
  - vm_compute. reflexivity.
  - cbn. lia.
Defined.

(** * Errors and successes, once more *)

(** X23. On tier 2 the cache-bearing worker reports the error of its
    second model only: whatever made the first model fail is dropped,
    and an error reply on tier 2 always carries the message of the
    second request and follows two invocations. *)
Theorem tier2_reports_the_second_error scfg n img h s msg s' invoked :
  Surgeon.currentTier s = 2 ->
  Surgeon.runSolve scfg n img h s = (Surgeon.ErrorResponse msg, s', invoked) ->
  invoked = [Surgeon.OpenRouter 0; Surgeon.OpenRouter 1] /\
  (exists e0, Surgeon.solveOpenRouter scfg n img 0 = Throw e0) /\
  (exists e1, Surgeon.solveOpenRouter scfg n img 1 = Throw e1 /\ msg = message e1) /\
  Surgeon.currentTier s' = 3 /\
  Surgeon.lastSolved s' = Surgeon.lastSolved s.
Proof.
  intros Htier. unfold Surgeon.runSolve, Surgeon.solveTier2. rewrite Htier.
  cbn [Z.eqb Pos.eqb].
  destruct (Surgeon.solveOpenRouter scfg n img 0) as [v0|e0]; cbn [fst snd];
    [cbn; discriminate|].
  destruct (Surgeon.solveOpenRouter scfg n img 1) as [v1|e1]; cbn;
    [discriminate|].
  intros [= <- <- <-]. rewrite Htier. repeat split; eauto.
Qed.

Lemma tier2_reports_the_second_error_witness :
  [Surgeon.OpenRouter 0; Surgeon.OpenRouter 1]
  = [Surgeon.OpenRouter 0; Surgeon.OpenRouter 1] /\
  (exists e0, Surgeon.solveOpenRouter Surgeon.CONFIG (refusing 429) "img" 0
              = Throw e0) /\
  (exists e1, Surgeon.solveOpenRouter Surgeon.CONFIG (refusing 429) "img" 1
              = Throw e1 /\ "RATE_LIMIT" = message e1) /\
  Surgeon.currentTier (Surgeon.withTier 3 (Surgeon.startup None)) = 3 /\
  Surgeon.lastSolved (Surgeon.withTier 3 (Surgeon.startup None))
  = Surgeon.lastSolved (Surgeon.withTier 2 (Surgeon.startup None)).
Proof.
  apply (tier2_reports_the_second_error Surgeon.CONFIG (refusing 429) "img" "h"
           (Surgeon.withTier 2 (Surgeon.startup None)) "RATE_LIMIT"
           (Surgeon.withTier 3 (Surgeon.startup None))
           [Surgeon.OpenRouter 0; Surgeon.OpenRouter 1]).
  - reflexivity.
  - vm_compute. reflexivity.
Defined.

(** X24. A success does not touch the failover state: when the first
    provider a request invokes answers, the state after the request is
    the state the recovery check left, stamp included; the state changes
    only by failovers and by the recovery. *)
Theorem first_success_keeps_the_state cfg ncfg fuel now stored w img s
    text tag s' p :
  handleCaptchaSolve cfg ncfg fuel now stored w img s
  = Some (TextResponse (Some text) tag, s', [p]) ->
  s' = checkCooldownRecovery cfg now s /\ p = position s'.
Proof.
  unfold handleCaptchaSolve.
  destruct (getApiKey stored) as [key|e]; [|discriminate].
  unfold solveWithFailover. generalize (checkCooldownRecovery cfg now s). intros s0.
  destruct (solveLoop cfg ncfg fuel w img key 0 None s0)
    as [[[[r|e] s2] visited]|] eqn:Hrun; [|discriminate..].
  intros H. inversion H; subst; clear H.
  destruct fuel as [|fuel]; cbn [solveLoop] in Hrun.
  { destruct (currentTier s0 <=? 3); discriminate. }
  destruct (currentTier s0 <=? 3); [|discriminate].
  destruct (attemptProvider cfg ncfg (net w 0%nat) img key s0) as [[v|e]|].
  - inversion Hrun; subst. split; reflexivity.
  - destruct (shouldFailover cfg (statusCode e) e); [|discriminate].
    destruct (solveLoop cfg ncfg fuel w img key 1 (Some e) _)
      as [[[r1 s1] vis1]|] eqn:Hrec; [|discriminate].
    inversion Hrun; subst. exfalso.
    destruct (solveLoop_returns _ _ _ _ _ _ _ _ _ _ _ _ Hrec) as (_ & Hlast & _).
    specialize (Hlast ltac:(discriminate)). discriminate.
  - discriminate.
Qed.

Lemma first_success_keeps_the_state_witness :
  Tier 2 1 (Some 5000)
  = checkCooldownRecovery FAILOVER_CONFIG 6000 (Tier 2 1 (Some 5000))
  /\ (2, 1) = position (Tier 2 1 (Some 5000)).
Proof.
  apply (first_success_keeps_the_state FAILOVER_CONFIG NOPECHA_CONFIG 5 6000
           (StorageRead (Some "sk")) (steadyWorld (replying "AB12") 1) "img"
           (Tier 2 1 (Some 5000)) "AB12"
           (StatusTier2 "mistralai/mistral-small-24b-instruct-2501:free")
           (Tier 2 1 (Some 5000)) (2, 1)).
  vm_compute. reflexivity.
Defined.
